(** * SessionExtractor: document-to-schedule extraction

    A shallow embedding of [src/services/SessionExtractor.js] and the
    properties of its extraction pipeline.

    Conventions of the embedding.
    - JavaScript numbers that hold counts, offsets, week numbers and
      minutes are integers of [Z].
    - A JavaScript string is a [string]: a sequence of code units below
      256.  The two dash characters outside that range that occur in
      three character classes of the source can therefore not occur in a
      text and are left out of those classes.
    - A method that can raise returns an [outcome]; [Throw] carries the
      error.  A method built only from total string and array operations
      is a plain function.
    - The class declares six methods twice ([extractActivitiesFromSection],
      [extractWeekDescription], [extractWeekFocus], [isHeaderLine],
      [capitalizeFirst], [extractSessionFocus]).  A class body keeps the
      LAST definition of a name, so every call resolves to the later one;
      the embedding gives the later definition the method's name and
      states which lines it comes from.
    - Identifiers built from [Date.now()] and the [extractedAt] stamp are
      left out of the records: they vary from call to call and nothing
      below reads them. *)

From Stdlib Require Import ZArith List String Ascii Bool Lia.
From Stdlib Require Import DecimalString Sorting.Sorted Sorting.Permutation.
Import ListNotations.

Local Open Scope Z_scope.
Local Open Scope string_scope.

(** ** Errors and outcomes *)

Module JS.

Inductive error : Type :=
| TypeError (msg : string)
| RangeError (msg : string)
| External (what : string).

Inductive outcome (A : Type) : Type :=
| Ok (a : A)
| Throw (e : error).

Arguments Ok {A} a.
Arguments Throw {A} e.

Definition bind {A B : Type} (m : outcome A) (k : A -> outcome B) : outcome B :=
  match m with
  | Ok a => k a
  | Throw e => Throw e
  end.

(** [try { m } catch (e) { h e }] *)
Definition tryCatch {A : Type} (m : outcome A) (h : error -> outcome A) : outcome A :=
  match m with
  | Ok a => Ok a
  | Throw e => h e
  end.

(** [xs.forEach] / [xs.map] with a callback that can raise: elements are
    visited left to right and the first error aborts the loop. *)
Fixpoint mapM {A B : Type} (f : A -> outcome B) (xs : list A) : outcome (list B) :=
  match xs with
  | [] => Ok []
  | x :: rest =>
      bind (f x) (fun y => bind (mapM f rest) (fun ys => Ok (y :: ys)))
  end.

(** The callback also receives the index, as in [(x, index) => ...]. *)
Fixpoint mapMi {A B : Type} (f : A -> Z -> outcome B) (i : Z) (xs : list A)
  : outcome (list B) :=
  match xs with
  | [] => Ok []
  | x :: rest =>
      bind (f x i) (fun y => bind (mapMi f (i + 1) rest) (fun ys => Ok (y :: ys)))
  end.

Fixpoint mapi {A B : Type} (f : A -> Z -> B) (i : Z) (xs : list A) : list B :=
  match xs with
  | [] => []
  | x :: rest => f x i :: mapi f (i + 1) rest
  end.

(** A value that is either a string or an array of strings: the
    [content] of a week is an array of lines in the line-based parser and
    a string in the position-based one. *)
Inductive content : Type :=
| VStr (s : string)
| VArr (lines : list string).

End JS.

Import JS.

Declare Scope outcome_scope.
Delimit Scope outcome_scope with outcome.
Notation "x <- m ;; k" := (JS.bind m (fun x => k))
  (at level 61, m at next level, right associativity) : outcome_scope.
Local Open Scope outcome_scope.

(** ** Strings *)

Module Text.

Definition code (c : ascii) : N := N_of_ascii c.

Definition inRange (lo hi : N) (c : ascii) : bool :=
  (N.leb lo (code c) && N.leb (code c) hi)%bool.

Definition isDigit (c : ascii) : bool := inRange 48 57 c.
Definition isUpper (c : ascii) : bool := inRange 65 90 c.
Definition isLower (c : ascii) : bool := inRange 97 122 c.
Definition isLetter (c : ascii) : bool := (isUpper c || isLower c)%bool.

(** [\s], and the characters [trim] removes: tab, line feed, vertical tab,
    form feed, carriage return, space, no-break space. *)
Definition isSpace (c : ascii) : bool :=
  (inRange 9 13 c || N.eqb (code c) 32 || N.eqb (code c) 160)%bool.

(** The characters [.] does not match. *)
Definition isLineTerminator (c : ascii) : bool :=
  (N.eqb (code c) 10 || N.eqb (code c) 13)%bool.

Definition newline : ascii := ascii_of_N 10.

Definition lowerChar (c : ascii) : ascii :=
  if (isUpper c || (inRange 192 222 c && negb (N.eqb (code c) 215)))%bool
  then ascii_of_N (code c + 32) else c.

(** [toUpperCase] of one character; the three characters below 256 whose
    upper case is not a single code unit below 256 (181, 223, 255) are
    kept as they are. *)
Definition upperChar (c : ascii) : ascii :=
  if (isLower c || (inRange 224 254 c && negb (N.eqb (code c) 247)))%bool
  then ascii_of_N (code c - 32) else c.

Fixpoint toLowerCase (s : string) : string :=
  match s with
  | EmptyString => EmptyString
  | String c r => String (lowerChar c) (toLowerCase r)
  end.

Fixpoint toUpperCase (s : string) : string :=
  match s with
  | EmptyString => EmptyString
  | String c r => String (upperChar c) (toUpperCase r)
  end.

Definition len (s : string) : Z := Z.of_nat (String.length s).

Fixpoint drop (n : nat) (s : string) : string :=
  match n, s with
  | O, _ => s
  | S k, EmptyString => EmptyString
  | S k, String _ r => drop k r
  end.

Fixpoint take (n : nat) (s : string) : string :=
  match n, s with
  | O, _ => EmptyString
  | S k, EmptyString => EmptyString
  | S k, String c r => String c (take k r)
  end.

Definition clamp (n : Z) (x : Z) : Z := Z.max 0 (Z.min x n).

(** [s.substring(a, b)]: both ends are clamped to [0, length] and swapped
    when they come in the wrong order. *)
Definition substring (s : string) (a b : Z) : string :=
  let a' := clamp (len s) a in
  let b' := clamp (len s) b in
  let from := Z.min a' b' in
  let to := Z.max a' b' in
  take (Z.to_nat (to - from)) (drop (Z.to_nat from) s).

(** [s.slice(1)] *)
Definition tail (s : string) : string := drop 1 s.

(** [s.charAt(0)] *)
Definition charAt0 (s : string) : string := take 1 s.

Definition isEmpty (s : string) : bool :=
  match s with EmptyString => true | _ => false end.

(** [a || b] on strings: the empty string is falsy. *)
Definition orStr (a b : string) : string := if isEmpty a then b else a.

(** A property that may be [undefined]. *)
Definition orOpt (a : option string) (b : string) : string :=
  match a with
  | Some s => orStr s b
  | None => b
  end.

(** [s.startsWith(p)] *)
Definition startsWith (s p : string) : bool := String.prefix p s.

(** [s.includes(sub)] *)
Fixpoint includes (s sub : string) : bool :=
  (String.prefix sub s ||
   match s with
   | EmptyString => false
   | String _ r => includes r sub
   end)%bool.

(** [s.split('\n')] *)
Fixpoint splitLines (s : string) : list string :=
  match s with
  | EmptyString => [EmptyString]
  | String c r =>
      if Ascii.eqb c newline then EmptyString :: splitLines r
      else match splitLines r with
           | h :: t => String c h :: t
           | [] => [String c EmptyString]
           end
  end.

Fixpoint trimStart (s : string) : string :=
  match s with
  | EmptyString => EmptyString
  | String c r => if isSpace c then trimStart r else s
  end.

Fixpoint trimEnd (s : string) : string :=
  match s with
  | EmptyString => EmptyString
  | String c r =>
      match trimEnd r with
      | EmptyString => if isSpace c then EmptyString else String c EmptyString
      | r' => String c r'
      end
  end.

Definition trim (s : string) : string := trimEnd (trimStart s).

(** [xs.join(sep)] *)
Fixpoint join (sep : string) (xs : list string) : string :=
  match xs with
  | [] => EmptyString
  | [x] => x
  | x :: rest => x ++ sep ++ join sep rest
  end.

(** [xs.slice(0, n)] *)
Definition firstN {A : Type} (n : nat) (xs : list A) : list A := firstn n xs.

(** Template interpolation of an integer. *)
Definition ofZ (z : Z) : string := NilZero.string_of_int (Z.to_int z).

(** [parseInt] of a run of decimal digits. *)
Fixpoint parseDigitsAcc (acc : Z) (s : string) : Z :=
  match s with
  | EmptyString => acc
  | String c r =>
      if isDigit c then parseDigitsAcc (acc * 10 + Z.of_N (code c - 48)) r
      else acc
  end.

Definition parseInt (s : string) : Z := parseDigitsAcc 0 s.

(** [xs.indexOf(x)] *)
Fixpoint indexOfFrom (i : Z) (x : string) (xs : list string) : Z :=
  match xs with
  | [] => -1
  | y :: rest => if String.eqb x y then i else indexOfFrom (i + 1) x rest
  end.

Definition indexOf (xs : list string) (x : string) : Z := indexOfFrom 0 x xs.

End Text.


Import Text.

(** ** Regular expressions

    Every regular expression of the source is a sequence of literals,
    [\s*], [\s+], [\d+], [\d{1,2}] and alternatives whose greedy match is
    the only one possible (a digit run is followed by a non-digit, a
    whitespace run by a non-space), so a matcher that reads greedily and
    never backtracks computes the match of the JavaScript engine.  The one
    pattern that needs backtracking, the academy header, is written out
    in [academyPattern].  A matcher reads a prefix of its input and
    returns the number of characters matched. *)

Module Pattern.

Definition matcher : Type := string -> option nat.

(** Case folding of the [i] flag on a character below 128. *)
Definition fold (c : ascii) : ascii :=
  if isUpper c then ascii_of_N (code c + 32) else c.

(** A literal written in lower case, matched with the [i] flag. *)
Fixpoint litCI (w : string) : matcher :=
  fun s =>
    match w, s with
    | EmptyString, _ => Some O
    | String p w', String c s' =>
        if Ascii.eqb (fold c) p then option_map S (litCI w' s') else None
    | String _ _, EmptyString => None
    end.

(** A literal matched as written. *)
Definition lit (w : string) : matcher :=
  fun s => if String.prefix w s then Some (String.length w) else None.

Fixpoint span (p : ascii -> bool) (s : string) : nat :=
  match s with
  | EmptyString => O
  | String c r => if p c then S (span p r) else O
  end.

(** [\s*], [\s+], [\d+] *)
Definition spaces : matcher := fun s => Some (span isSpace s).

Definition spaces1 : matcher :=
  fun s => match span isSpace s with O => None | n => Some n end.

Definition digits : matcher :=
  fun s => match span isDigit s with O => None | n => Some n end.

(** [\d{1,2}] and [\d{2}] *)
Definition digits12 : matcher :=
  fun s => match span isDigit s with O => None | S O => Some 1%nat | _ => Some 2%nat end.

Definition digits2 : matcher :=
  fun s => match span isDigit s with O | S O => None | _ => Some 2%nat end.

(** One character of a class, and an optional one. *)
Definition oneOf (p : ascii -> bool) : matcher :=
  fun s => match s with
           | String c _ => if p c then Some 1%nat else None
           | EmptyString => None
           end.

Definition opt (m : matcher) : matcher :=
  fun s => match m s with Some n => Some n | None => Some O end.

Definition andThen (m1 m2 : matcher) : matcher :=
  fun s =>
    match m1 s with
    | Some n => match m2 (drop n s) with
                | Some k => Some (n + k)%nat
                | None => None
                end
    | None => None
    end.

Definition orElse (m1 m2 : matcher) : matcher :=
  fun s => match m1 s with Some n => Some n | None => m2 s end.

Fixpoint anyOf (ms : list matcher) : matcher :=
  match ms with
  | [] => fun _ => None
  | m :: rest => orElse m (anyOf rest)
  end.

(** [.*] followed by [m]: some position before the first line terminator
    where [m] matches.  Only used by [test]. *)
Fixpoint dotStarThen (m : matcher) (s : string) : option nat :=
  match m s with
  | Some n => Some n
  | None =>
      match s with
      | String c r =>
          if isLineTerminator c then None else option_map S (dotStarThen m r)
      | EmptyString => None
      end
  end.

(** The leftmost match: its index and its length. *)
Fixpoint searchFrom (m : matcher) (pos : nat) (s : string) : option (nat * nat) :=
  match m s with
  | Some n => Some (pos, n)
  | None =>
      match s with
      | String _ r => searchFrom m (S pos) r
      | EmptyString => None
      end
  end.

Definition search (m : matcher) (s : string) : option (nat * nat) := searchFrom m O s.

(** [re.test(s)] for a pattern without [^]. *)
Definition test (m : matcher) (s : string) : bool :=
  match search m s with Some _ => true | None => false end.

(** [re.test(s)] for a pattern that starts with [^]. *)
Definition testAtStart (m : matcher) (s : string) : bool :=
  match m s with Some _ => true | None => false end.

(** The loop [while ((match = re.exec(s)) !== null)] of a [g] pattern that
    never matches the empty string: all matches from left to right, the
    scan resuming where the previous match ended.  Each match is its index
    and its length. *)
Fixpoint execAllFrom (m : matcher) (pos skip : nat) (s : string) : list (nat * nat) :=
  match s with
  | EmptyString => []
  | String _ r =>
      match skip with
      | S k => execAllFrom m (S pos) k r
      | O =>
          match m s with
          | Some (S n) => (pos, S n) :: execAllFrom m (S pos) n r
          | _ => execAllFrom m (S pos) O r
          end
      end
  end.

Definition execAll (m : matcher) (s : string) : list (nat * nat) := execAllFrom m O O s.

(** The text of a match. *)
Definition matched (s : string) (hit : nat * nat) : string :=
  take (snd hit) (drop (fst hit) s).

(** *** The patterns of the class *)

Definition weekdayNames : list string :=
  ["monday"; "tuesday"; "wednesday"; "thursday"; "friday"; "saturday"; "sunday"].

(** [/(monday|tuesday|wednesday|thursday|friday|saturday|sunday)/gi] *)
Definition weekdayPattern : matcher := anyOf (map litCI weekdayNames).

(** [/day\s*(\d+)/gi]; the group is what follows the word and the spaces. *)
Definition dayNumberPattern : matcher := andThen (litCI "day") (andThen spaces digits).

(** [/(session\s*\d+)/gi] *)
Definition sessionNumberPattern : matcher :=
  andThen (litCI "session") (andThen spaces digits).

(** [sessionPatterns.weekPattern]: [/^(week\s*\d+|session\s*\d+|day\s*\d+)/i],
    also the later [isHeaderLine]. *)
Definition weekPattern : matcher :=
  anyOf [andThen (litCI "week") (andThen spaces digits);
         sessionNumberPattern;
         dayNumberPattern].

(** The unit of a duration: [minutes?|mins?|hours?|hrs?]. *)
Definition unitPattern : matcher :=
  anyOf [andThen (litCI "minute") (opt (litCI "s"));
         andThen (litCI "min") (opt (litCI "s"));
         andThen (litCI "hour") (opt (litCI "s"));
         andThen (litCI "hr") (opt (litCI "s"))].

(** [/(\d+)\s*(minutes?|mins?|hours?|hrs?)/i], and
    [sessionPatterns.durationPattern], which lists the same four units in
    another order (no two of them match at the same place). *)
Definition durationPattern : matcher := andThen digits (andThen spaces unitPattern).

(** [/(\d{1,2}):(\d{2})/], the first alternative of the time pattern. *)
Definition clockPattern : matcher := andThen digits12 (andThen (lit ":") digits2).

(** [/(\d{1,2})\s*(am|pm)/i], its second alternative. *)
Definition meridiemPattern : matcher :=
  andThen digits12 (andThen spaces (orElse (litCI "am") (litCI "pm"))).

(** [/^\d+\./] *)
Definition numberedPattern : matcher := andThen digits (lit ".").

(** [/^[A-Z][a-z].*:/] *)
Definition titledPattern : matcher :=
  andThen (oneOf isUpper) (andThen (oneOf isLower) (dotStarThen (lit ":"))).

(** [/week\s*N/gi] for the decimal digits of [n]. *)
Definition weekHeader (n : Z) : matcher :=
  andThen (litCI "week") (andThen spaces (lit (ofZ n))).

(** [/Week\s+(\d+)/gi] *)
Definition weekWordPattern : matcher := andThen (litCI "week") (andThen spaces1 digits).

(** [sessionPatterns.sportPattern] *)
Definition sportNames : list string :=
  ["soccer"; "football"; "basketball"; "tennis"; "volleyball"; "swimming"].

Definition sportPattern : matcher := anyOf (map litCI sportNames).

(** [sessionPatterns.agePattern]:
    [/(\d+[-]\d+\s*years?|under\s*\d+|u\d+|\d+\s*years?)/i] *)
Definition yearsPattern : matcher := andThen spaces (andThen (litCI "year") (opt (litCI "s"))).

Definition agePattern : matcher :=
  anyOf [andThen digits (andThen (lit "-") (andThen digits yearsPattern));
         andThen (litCI "under") (andThen spaces digits);
         andThen (litCI "u") digits;
         andThen digits yearsPattern].

(** [sessionPatterns.academyPattern]:
    [/^([A-Z][A-Z\s]+ACADEMY|[A-Z][A-Z\s]+CLUB)/i].  After the first letter
    the class [[A-Z\s]+] reads greedily and gives characters back until
    the closing word matches: the match ends at the LAST occurrence of the
    word that is preceded, inside the run, by at least one character. *)
Fixpoint lastClosing (w : string) (s : string) (k : nat) : option nat :=
  match k with
  | O => None
  | S k' =>
      match litCI w (drop k s) with
      | Some n => Some (k + n)%nat
      | None => lastClosing w s k'
      end
  end.

Definition headerEndingWith (w : string) : matcher :=
  fun s =>
    match s with
    | String c r =>
        if isLetter c
        then option_map S
               (lastClosing w r (span (fun x => (isLetter x || isSpace x)%bool) r))
        else None
    | EmptyString => None
    end.

Definition academyPattern : matcher :=
  orElse (headerEndingWith "academy") (headerEndingWith "club").

End Pattern.


Import Pattern.

(** ** Dates

    [new Date()] reads the clock: an instant in milliseconds since the
    epoch.  [getDate], [setDate] and [getDay] work on the LOCAL calendar,
    [toISOString] prints the UTC one.  The local calendar is the UTC one
    shifted by the zone's offset, taken constant over the weeks spanned.
    One run reads one clock value, and the instants it computes stay in
    the range of [Date].  A date string [YYYY-MM-DD] is represented by its
    day number, the count of days since 1970-01-01.

    [Calendar] is the date calculator under these two assumptions, and the
    one the session builders use.  [Zoned], after it, is the calculator
    without them: the zone offset may change from one instant to another,
    and an instant outside the range of [Date] makes [toISOString] raise.
    On a device of fixed offset, whenever the second returns a date it is
    the date of the first ([calculateSessionDate_on_a_fixed_offset]). *)

Module Calendar.

Record Clock : Type := {
  nowMs : Z;          (** [Date.now()] *)
  offsetMinutes : Z   (** local time minus UTC, in minutes *)
}.

Definition msPerDay : Z := 86400000.

(** The day number of an instant on the UTC calendar:
    [d.toISOString().split('T')[0]]. *)
Definition utcDay (ms : Z) : Z := ms / msPerDay.

(** The day number of an instant on the local calendar. *)
Definition localDay (c : Clock) (ms : Z) : Z := (ms + offsetMinutes c * 60000) / msPerDay.

(** The weekday of a day number, Sunday = 0; day 0 was a Thursday. *)
Definition weekday (d : Z) : Z := (d + 4) mod 7.

(** [d.getDay()] *)
Definition getDay (c : Clock) (ms : Z) : Z := weekday (localDay c ms).

(** [d.setDate(d.getDate() + k)]: the local calendar date moves by [k]
    days and the time of day stays. *)
Definition addDays (ms : Z) (k : Z) : Z := ms + k * msPerDay.

Definition dayNames : list string :=
  ["sunday"; "monday"; "tuesday"; "wednesday"; "thursday"; "friday"; "saturday"].

(** Lines 1590-1605. *)
Definition calculateSessionDate (c : Clock) (weekNumber : Z) (dayName : string) : Z :=
  let today := nowMs c in
  let dayIndex := indexOf dayNames (toLowerCase dayName) in
  let targetDate := addDays today ((weekNumber - 1) * 7) in
  let currentDay := getDay c targetDate in
  let daysToAdd := Z.rem (dayIndex - currentDay + 7) 7 in
  let targetDate' := addDays targetDate daysToAdd in
  utcDay targetDate'.

(** [new Date(date).getTime()] for a date string: midnight UTC of the day. *)
Definition dateValue (d : Z) : Z := d * msPerDay.

End Calendar.

Import Calendar.

(** A device whose zone offset changes (daylight saving): what [Date]
    consults of the zone are two offsets in milliseconds, the offset in
    force at a UTC instant, by which [getDate] and [getDay] read the local
    clock, and the offset given to a reading of the local clock, by which
    [setDate] turns the reading it has built into an instant. *)
Module Zoned.

Record Device : Type := {
  now : Z;                  (** [Date.now()] *)
  offsetAt : Z -> Z;        (** local time minus UTC at a UTC instant *)
  offsetOfLocal : Z -> Z    (** local time minus UTC at a local reading *)
}.

(** The largest time value of a [Date], in either direction. *)
Definition maxTime : Z := 8640000000000000.

(** The time value stored by a setter; [None] is [NaN], an invalid date. *)
Definition timeClip (t : Z) : option Z :=
  if Z.leb (Z.abs t) maxTime then Some t else None.

Definition localTime (d : Device) (t : Z) : Z := t + offsetAt d t.

Definition utcOf (d : Device) (l : Z) : Z := l - offsetOfLocal d l.

(** The day number of an instant on the local calendar. *)
Definition localDay (d : Device) (t : Z) : Z := localTime d t / msPerDay.

(** [date.getDay()] *)
Definition getDay (d : Device) (t : Z) : Z := weekday (localDay d t).

(** [date.setDate(date.getDate() + k)] on a valid date: the local reading
    moves by [k] days, keeps its time of day and is turned back into an
    instant. *)
Definition setDateBy (d : Device) (t : Z) (k : Z) : option Z :=
  timeClip (utcOf d (localTime d t + k * msPerDay)).

(** Lines 1590-1603: [targetDate] before it is printed.  Once the first
    [setDate] has left the range, [getDay] is [NaN], so is [daysToAdd], and
    the second [setDate] keeps the date invalid. *)
Definition calculateSessionInstant (d : Device) (weekNumber : Z) (dayName : string)
  : option Z :=
  let today := now d in
  let dayIndex := indexOf dayNames (toLowerCase dayName) in
  match setDateBy d today ((weekNumber - 1) * 7) with
  | Some targetDate =>
      let currentDay := getDay d targetDate in
      let daysToAdd := Z.rem (dayIndex - currentDay + 7) 7 in
      setDateBy d targetDate daysToAdd
  | None => None
  end.

(** Lines 1590-1605; [toISOString] raises on an invalid date. *)
Definition calculateSessionDate (d : Device) (weekNumber : Z) (dayName : string)
  : outcome Z :=
  match calculateSessionInstant d weekNumber dayName with
  | Some targetDate => Ok (utcDay targetDate)
  | None => Throw (RangeError "Invalid time value")
  end.

End Zoned.

(** ** The data model *)

Module AcademyInfo.
Record t : Type := {
  academyName : string;
  sport : string;
  ageGroup : string;
  program : string;
  location : string;
  difficulty : string
}.
End AcademyInfo.

Module TrainingPlan.
Record t : Type := {
  id : string;
  title : option string;
  category : option string;
  difficulty : option string;
  academyName : option string
}.
End TrainingPlan.

(** A drill is a plain string in the generated sessions, a name and a
    description in the positional ones, and carries an optional duration
    in the line-based ones. *)
Inductive Drill : Type :=
| DrillText (text : string)
| DrillEntry (name description : string) (duration : option Z).

(** The fields that [createSessionFromDetail] does not set. *)
Module SessionDetails.
Record t : Type := {
  drills : list Drill;
  objectives : list string;
  equipment : list string;
  notes : string;
  documentContent : string;
  completionRate : Z;
  week : string;
  weekDescription : string
}.
End SessionDetails.

Module DailySession.
Record t : Type := {
  weekNumber : Z;
  dayNumber : Z;
  title : string;
  day : string;
  date : Z;
  time : string;
  duration : Z;
  location : string;
  type : string;
  participants : Z;
  status : string;
  academyName : string;
  sport : string;
  ageGroup : string;
  difficulty : string;
  activities : list string;
  rawContent : string;
  focus : list string;
  details : option SessionDetails.t
}.
End DailySession.

Module ScheduleEntry.
Record t : Type := {
  day : string;
  time : string;
  duration : string;
  focus : string
}.
End ScheduleEntry.

Inductive WeekSchedule : Type :=
| NoSchedule
| ScheduleEntries (entries : list ScheduleEntry.t)
| SchedulePattern (days : list string) (pattern : string).

(** [notes] is set, to the empty array, by Strategy A and by the
    alternative extraction only. *)
Module WeekSession.
Record t : Type := {
  weekNumber : Z;
  title : string;
  description : string;
  dailySessions : list DailySession.t;
  totalDuration : Z;
  focus : list string;
  notes : option (list string);
  academyName : string;
  sport : string;
  weekSchedule : WeekSchedule
}.
End WeekSession.

(** The shape returned by the structure analyser. *)
Module WeekTitle.
Record t : Type := { number : Z; title : string; position : Z }.
End WeekTitle.

Module SessionDetail.
Record t : Type := { text : string; type : string }.
End SessionDetail.

Module StructureAnalysis.
Record OrganizationLevel : Type := { level : option string; score : Z }.
Record WeekStructure : Type := {
  totalWeeks : Z;
  identifiedWeeks : list Z;
  weekTitles : list WeekTitle.t
}.
Record DayStructure : Type := { identifiedDays : list string }.
Record SessionStructure : Type := {
  hasStructuredSessions : bool;
  totalSessions : Z;
  sessionDetails : list SessionDetail.t
}.
Record DurationAnalysis : Type := { averageDuration : Z }.
Record SchedulePattern : Type := { recommendedFrequency : Z }.
Record t : Type := {
  organizationLevel : option OrganizationLevel;
  weekStructure : WeekStructure;
  dayStructure : DayStructure;
  sessionStructure : SessionStructure;
  durationAnalysis : DurationAnalysis;
  schedulePattern : option SchedulePattern;
  documentType : string
}.
End StructureAnalysis.


(** ** The helpers of the class *)

Module DayInfo.
Record t : Type := { day : string; position : Z; fullMatch : string }.
End DayInfo.

(** [a || b] on numbers: zero is falsy. *)
Definition orZ (a b : Z) : Z := if Z.eqb a 0 then b else a.

(** [xs[i]], for an array of strings read inside a template or returned
    as a tag; a read outside the array is [undefined]. *)
Definition getAt (xs : list string) (i : Z) : string :=
  if Z.ltb i 0 then "undefined" else nth (Z.to_nat i) xs "undefined".

(** [s.padStart(2, '0')] *)
Definition padStart2 (s : string) : string :=
  match String.length s with
  | O => "00"
  | S O => "0" ++ s
  | _ => s
  end.

(** The window [content.substring(Math.max(0, position - before),
    Math.min(content.length, position + after))]. *)
Definition window (content : string) (position before after : Z) : string :=
  substring content (Z.max 0 (position - before)) (Z.min (len content) (position + after)).

(** Lines 1328-1330 (the definition in force; lines 639-642 are replaced). *)
Definition capitalizeFirst (str : string) : string :=
  toUpperCase (charAt0 str) ++ tail str.

(** Lines 326-334. *)
Definition normalizeDayName (dayText : string) : string :=
  let lower := toLowerCase dayText in
  if String.eqb lower "mon" then "monday"
  else if String.eqb lower "tue" then "tuesday"
  else if String.eqb lower "wed" then "wednesday"
  else if String.eqb lower "thu" then "thursday"
  else if String.eqb lower "fri" then "friday"
  else if String.eqb lower "sat" then "saturday"
  else if String.eqb lower "sun" then "sunday"
  else lower.

(** The unit of a duration match: what follows the digits and the spaces. *)
Definition durationUnit (m : string) : string :=
  let rest := drop (span isDigit m) m in
  drop (span isSpace rest) rest.

(** Lines 336-352. *)
Definition extractSessionDuration (content : string) (dayInfo : DayInfo.t)
    (durationAnalysis : StructureAnalysis.DurationAnalysis) : Z :=
  let nearbyText := window content (DayInfo.position dayInfo) 100 200 in
  match search durationPattern nearbyText with
  | Some hit =>
      let m := matched nearbyText hit in
      let value := parseInt m in
      let unit := toLowerCase (durationUnit m) in
      if includes unit "hour" then value * 60 else value
  | None => orZ (StructureAnalysis.averageDuration durationAnalysis) 90
  end.

(** The body shared by [extractSessionTime] and [extractTime]: the string
    built from a match of [/(\d{1,2}):(\d{2})|(\d{1,2})\s*(am|pm)/i]. *)
Definition timeOfMatch (m : string) : string :=
  match clockPattern m with
  | Some _ =>
      let hours := take (span isDigit m) m in
      let minutes := drop (span isDigit m + 1) m in
      padStart2 hours ++ ":" ++ minutes
  | None =>
      let hour := parseInt m in
      let rest := drop (span isDigit m) m in
      let meridiem := toLowerCase (drop (span isSpace rest) rest) in
      let hour' :=
        if (String.eqb meridiem "pm" && negb (Z.eqb hour 12))%bool then hour + 12
        else if (String.eqb meridiem "am" && Z.eqb hour 12)%bool then 0
        else hour in
      padStart2 (ofZ hour') ++ ":00"
  end.

(** Lines 1363-1382; [None] is [null]. *)
Definition extractTime (text : string) : option string :=
  match search (orElse clockPattern meridiemPattern) text with
  | Some hit => Some (timeOfMatch (matched text hit))
  | None => None
  end.

(** Lines 354-377. *)
Definition extractSessionTime (content : string) (dayInfo : DayInfo.t) : option string :=
  extractTime (window content (DayInfo.position dayInfo) 50 100).

(** Lines 379-392. *)
Definition identifySessionType (content : string) (dayInfo : DayInfo.t) : string :=
  let nearbyText := toLowerCase (window content (DayInfo.position dayInfo) 100 200) in
  if includes nearbyText "warm" then "Warm-up Session"
  else if includes nearbyText "technical" then "Technical Training"
  else if includes nearbyText "tactical" then "Tactical Training"
  else if includes nearbyText "conditioning" then "Conditioning"
  else if (includes nearbyText "match" || includes nearbyText "game")%bool then "Match/Game"
  else "Team Training".

(** Lines 1486-1495. *)
Definition isActivity (line : string) : bool :=
  let t := trim line in
  (testAtStart numberedPattern t
   || testAtStart titledPattern t
   || test (anyOf (map litCI ["drill"; "exercise"; "activity"; "practice"])) t
   || test (orElse (andThen (litCI "warm") (dotStarThen (litCI "up")))
                   (andThen (litCI "cool") (dotStarThen (litCI "down")))) t)%bool.

(** Lines 1497-1501. *)
Definition isDrill (line : string) : bool :=
  (includes (toLowerCase line) "drill"
   || includes (toLowerCase line) "exercise"
   || testAtStart numberedPattern (trim line))%bool.

(** Lines 1503-1508. *)
Definition isNote (line : string) : bool :=
  (startsWith line "*"
   || includes (toLowerCase line) "note"
   || includes (toLowerCase line) "emphasize"
   || includes (toLowerCase line) "encourage")%bool.

(** Lines 1510-1515. *)
Definition isObjective (line : string) : bool :=
  (includes (toLowerCase line) "focus"
   || includes (toLowerCase line) "objective"
   || includes (toLowerCase line) "goal"
   || includes (toLowerCase line) "emphasize")%bool.

(** [section.split('\n').map(line => line.trim()).filter(line => line.length > n)] *)
Definition linesLongerThan (n : Z) (section : string) : list string :=
  filter (fun line => Z.gtb (len line) n) (map trim (splitLines section)).

(** Lines 819-828 (the definition in force; lines 394-409 are replaced). *)
Definition extractActivitiesFromSection (content : string) (dayInfo : DayInfo.t)
  : list string :=
  let section := window content (DayInfo.position dayInfo) 50 200 in
  let activities := firstN 3 (filter isActivity (linesLongerThan 5 section)) in
  match activities with
  | [] => [DayInfo.day dayInfo ++ " training activities"]
  | _ => activities
  end.

(** Lines 830-839. *)
Definition extractDrillsFromSection (content : string) (dayInfo : DayInfo.t)
  : list Drill :=
  let section := window content (DayInfo.position dayInfo) 50 200 in
  let drills := firstN 3 (filter isDrill (linesLongerThan 5 section)) in
  match drills with
  | [] => [DrillEntry "Basic drills" "Fundamental skill development" None]
  | _ => map (fun drill => DrillEntry drill drill None) drills
  end.

(** Lines 841-850. *)
Definition extractObjectivesFromSection (content : string) (dayInfo : DayInfo.t)
  : list string :=
  let section := window content (DayInfo.position dayInfo) 50 200 in
  let objectives := firstN 2 (filter isObjective (linesLongerThan 5 section)) in
  match objectives with
  | [] => [DayInfo.day dayInfo ++ " training objectives"]
  | _ => objectives
  end.

(** Lines 852-860. *)
Definition extractEquipmentFromSection (content : string) (dayInfo : DayInfo.t)
  : list string :=
  let equipmentKeywords :=
    ["ball"; "cone"; "goal"; "bib"; "ladder"; "hurdle"; "marker"; "net"; "racket"] in
  let section := toLowerCase (window content (DayInfo.position dayInfo) 100 200) in
  let foundEquipment := filter (fun equipment => includes section equipment) equipmentKeywords in
  match foundEquipment with
  | [] => ["basic training equipment"]
  | _ => foundEquipment
  end.

(** Lines 862-871. *)
Definition extractNotesFromSection (content : string) (dayInfo : DayInfo.t) : string :=
  let section := window content (DayInfo.position dayInfo) 30 150 in
  let notes := firstN 2 (filter isNote (linesLongerThan 10 section)) in
  match notes with
  | [] => "Training notes for " ++ DayInfo.day dayInfo
  | _ => join (String newline EmptyString) notes
  end.

(** Lines 411-416. *)
Definition extractRelevantContent (content : string) (dayInfo : DayInfo.t) : string :=
  window content (DayInfo.position dayInfo) 100 500.

(** Lines 1537-1545. *)
Definition estimateParticipants (ageGroup : string) : Z :=
  if (includes ageGroup "individual" || includes ageGroup "1-on-1")%bool then 1
  else if (includes ageGroup "small" || includes ageGroup "youth")%bool then 12
  else 15.

(** The lookup [map[sport] || fallback] in a literal keyed by sport. *)
Definition bySport {A : Type} (soccer basketball tennis general : A) (sport : string) : A :=
  if String.eqb sport "soccer" then soccer
  else if String.eqb sport "basketball" then basketball
  else if String.eqb sport "tennis" then tennis
  else general.

(** Lines 711-721. *)
Definition generateDefaultFocus (weekNumber : Z) (sport : string) : list string :=
  let focuses :=
    bySport ["ball control"; "passing"; "shooting"; "defending"]
            ["dribbling"; "shooting"; "defense"; "teamwork"]
            ["serves"; "groundstrokes"; "volleys"; "strategy"]
            ["technique"; "fitness"; "tactics"; "teamwork"] sport in
  [getAt focuses (Z.rem (weekNumber - 1) (Z.of_nat (List.length focuses)))].

(** Lines 528-537. *)
Definition generateWeekFocus (weekNumber : Z) (sport : string) : list string :=
  let focuses :=
    bySport ["ball control"; "passing"; "shooting"; "defending"]
            ["dribbling"; "shooting"; "defense"; "teamwork"]
            ["serves"; "groundstrokes"; "volleys"; "strategy"]
            ["technique"; "fitness"; "tactics"; "teamwork"] sport in
  [getAt focuses (Z.rem (weekNumber - 1) (Z.of_nat (List.length focuses)))].

(** Lines 763-772. *)
Definition getBasicEquipment (sport : string) : list string :=
  bySport ["soccer balls"; "cones"; "goals"; "bibs"]
          ["basketballs"; "hoops"; "cones"]
          ["tennis balls"; "rackets"; "net"]
          ["cones"; "markers"; "equipment"] sport.

(** Lines 516-526. *)
Definition generateWeekDescription (weekNumber : Z) (academyInfo : AcademyInfo.t) : string :=
  let key := orZ (Z.rem weekNumber 4) 4 in
  let baseDescription :=
    if Z.eqb key 1 then "Foundation building and basic skill introduction"
    else if Z.eqb key 2 then "Skill development and coordination improvement"
    else if Z.eqb key 3 then "Technique refinement and tactical awareness"
    else if Z.eqb key 4 then "Integration of skills in game situations"
    else "undefined" in
  baseDescription ++ " for " ++ AcademyInfo.sport academyInfo ++ " training".

(** Lines 563-566. *)
Definition mapSessionToDay (dayNumber : Z) : string :=
  let dayMap :=
    ["monday"; "wednesday"; "friday"; "tuesday"; "thursday"; "saturday"; "sunday"] in
  if (Z.leb 1 dayNumber && Z.leb dayNumber 7)%bool
  then nth (Z.to_nat (dayNumber - 1)) dayMap "monday"
  else "monday".


(** *** Methods over a [content]

    These methods call array methods on their argument ([forEach],
    [filter], [join]).  A string has none of them, so the call raises a
    [TypeError] when the argument is a string. *)

Definition notAFunction (what : string) : error :=
  TypeError (what ++ " is not a function").

(** Lines 1402-1412. *)
Definition extractActivities (content : content) : outcome (list string) :=
  match content with
  | VArr lines => Ok (firstN 5 (map trim (filter isActivity lines)))
  | VStr _ => Throw (notAFunction "content.forEach")
  end.

Definition indexOfChar (c : ascii) (s : string) : option nat :=
  match search (oneOf (Ascii.eqb c)) s with
  | Some (pos, _) => Some pos
  | None => None
  end.

(** Lines 1517-1530. *)
Definition extractDrillName (line : string) : string :=
  match indexOfChar ":" line with
  | Some colonIndex => trim (substring line 0 (Z.of_nat colonIndex))
  | None =>
      match indexOfChar "." line with
      | Some dotIndex =>
          if Z.ltb (Z.of_nat dotIndex) 50
          then trim (substring line (Z.of_nat dotIndex + 1)
                       (Z.min (len line) (Z.of_nat dotIndex + 30)))
          else trim (substring line 0 (Z.min 30 (len line)))
      | None => trim (substring line 0 (Z.min 30 (len line)))
      end
  end.

(** Lines 1532-1535. *)
Definition extractDrillDuration (line : string) : option Z :=
  match search durationPattern line with
  | Some hit => Some (parseInt (matched line hit))
  | None => None
  end.

(** Lines 1414-1429. *)
Definition extractDrills (content : content) : outcome (list Drill) :=
  match content with
  | VArr lines =>
      Ok (map (fun line =>
                 DrillEntry (extractDrillName line) (trim line) (extractDrillDuration line))
              (filter isDrill lines))
  | VStr _ => Throw (notAFunction "content.forEach")
  end.

(** Lines 1431-1441. *)
Definition extractObjectives (content : content) : outcome (list string) :=
  match content with
  | VArr lines => Ok (firstN 3 (map trim (filter isObjective lines)))
  | VStr _ => Throw (notAFunction "content.forEach")
  end.

(** Lines 1443-1455. *)
Definition extractEquipment (content : content) : outcome (list string) :=
  match content with
  | VArr lines =>
      let text := toLowerCase (join " " lines) in
      Ok (filter (fun item => includes text item)
            ["cones"; "balls"; "goals"; "bibs"; "ladders"; "hurdles"; "markers"])
  | VStr _ => Throw (notAFunction "content.join")
  end.

(** Lines 1457-1465 (the definition in force; lines 588-598, which take
    a string, are replaced). *)
Definition extractWeekDescription (content : content) : outcome string :=
  match content with
  | VArr lines =>
      let meaningfulLines :=
        filter (fun line =>
                  (Z.gtb (len line) 20
                   && negb (testAtStart weekPattern line)
                   && negb (isActivity line))%bool) lines in
      Ok (substring (join " " (firstN 2 meaningfulLines)) 0 200 ++ "...")
  | VStr _ => Throw (notAFunction "content.filter")
  end.

(** Lines 1467-1479 (the definition in force; lines 600-613, which take
    a string, are replaced). *)
Definition extractWeekFocus (content : content) : outcome (list string) :=
  match content with
  | VArr lines =>
      let text := toLowerCase (join " " lines) in
      Ok (firstN 3 (filter (fun keyword => includes text keyword)
                      ["shooting"; "passing"; "dribbling"; "defending"; "tactics"; "fitness"]))
  | VStr _ => Throw (notAFunction "content.join")
  end.

(** Lines 1481-1483 (the definition in force; lines 873-879, which take
    a string and a day marker, are replaced: a second argument is
    ignored). *)
Definition extractSessionFocus (content : content) : outcome (list string) :=
  extractWeekFocus content.

(** [content.join('\n')] *)
Definition joinLines (content : content) : outcome string :=
  match content with
  | VArr lines => Ok (join (String newline EmptyString) lines)
  | VStr _ => Throw (notAFunction "week.content.join")
  end.

(** Lines 570-586. *)
Definition stripWeekPrefix (line : string) : string :=
  let prefix :=
    andThen (litCI "week")
      (andThen spaces
         (andThen digits
            (andThen (opt (oneOf (fun c => (Ascii.eqb c ":" || Ascii.eqb c "-")%bool)))
               spaces))) in
  match prefix line with
  | Some n => drop n line
  | None => line
  end.

Fixpoint removeChars (p : ascii -> bool) (s : string) : string :=
  match s with
  | EmptyString => EmptyString
  | String c r => if p c then removeChars p r else String c (removeChars p r)
  end.

Definition extractWeekTitle (content : string) (weekNumber : Z) : string :=
  let lines := filter (fun line => Z.gtb (len line) 0) (map trim (splitLines content)) in
  let isHeader line :=
    (includes (toLowerCase line) ("week " ++ ofZ weekNumber)
     || includes (toLowerCase line) ("week" ++ ofZ weekNumber))%bool in
  match find isHeader (firstN 5 lines) with
  | Some line =>
      orStr (trim (removeChars (fun c => (Ascii.eqb c ":" || Ascii.eqb c "-")%bool)
                     (stripWeekPrefix line)))
            ("Week " ++ ofZ weekNumber ++ " Training")
  | None => "Week " ++ ofZ weekNumber ++ " Training"
  end.

(** Lines 615-630. *)
Definition extractWeekScheduleFromStructure (content : string)
    (dayStructure : StructureAnalysis.DayStructure) : list ScheduleEntry.t :=
  map (fun day =>
         {| ScheduleEntry.day := capitalizeFirst day;
            ScheduleEntry.time := "08:00";
            ScheduleEntry.duration := "90min";
            ScheduleEntry.focus := day ++ " training session" |})
      (StructureAnalysis.identifiedDays dayStructure).

(** Lines 500-504: the first match of [/week\s*N[^\n]*/gi]. *)
Definition findWeekTitle (text : string) (weekNumber : Z) : string :=
  let restOfLine : matcher := fun s => Some (span (fun c => negb (Ascii.eqb c newline)) s) in
  match search (andThen (weekHeader weekNumber) restOfLine) text with
  | Some hit => matched text hit
  | None => "Week " ++ ofZ weekNumber
  end.

(** Lines 506-514. *)
Definition extractWeekContentByNumber (text : string) (weekNumber : Z) : string :=
  match search (weekHeader weekNumber) text with
  | None => ""
  | Some (weekStart, _) =>
      let endPos :=
        match search (weekHeader (weekNumber + 1)) text with
        | None => Z.of_nat weekStart + 500
        | Some (nextWeekStart, _) => Z.of_nat nextWeekStart
        end in
      substring (substring text (Z.of_nat weekStart) endPos) 0 200
  end.

(** The first match of [/week\s*N[\s\S]*?(?=week\s*(N+1)|$)/gi]: from the
    first header of week [N] to the first header of week [N+1] that does
    not start inside it, or to the end of the text. *)
Definition weekBlock (text : string) (weekNumber : Z) : option string :=
  match search (weekHeader weekNumber) text with
  | None => None
  | Some (start, headerLength) =>
      let after := drop (start + headerLength) text in
      let more :=
        match search (weekHeader (weekNumber + 1)) after with
        | Some (k, _) => k
        | None => String.length after
        end in
      Some (take (headerLength + more) (drop start text))
  end.

(** Lines 801-810. *)
Definition extractWeekFocusByNumber (text : string) (weekNumber : Z)
  : outcome (list string) :=
  match weekBlock text weekNumber with
  | None => Ok ["general training"]
  | Some block => extractWeekFocus (VStr block)
  end.

(** [[...new Set(xs)]]: the first occurrence of each element. *)
Fixpoint uniqueFrom (seen xs : list string) : list string :=
  match xs with
  | [] => []
  | x :: rest =>
      if existsb (String.eqb x) seen then uniqueFrom seen rest
      else x :: uniqueFrom (x :: seen) rest
  end.

Definition unique (xs : list string) : list string := uniqueFrom [] xs.

(** Lines 812-816. *)
Definition deriveWeekFocusFromSessions (sessions : list DailySession.t) : list string :=
  firstN 3 (unique (flat_map DailySession.focus sessions)).

(** [xs.reduce((sum, s) => sum + s.duration, 0)] *)
Definition sumDurations (sessions : list DailySession.t) : Z :=
  fold_left (fun sum s => sum + DailySession.duration s) sessions 0.


(** ** Session builders and extraction strategies *)

(** A week as [createGeneralWeekSession] reads it: a title and a content. *)
Module Week.
Record t : Type := { title : string; content : content }.
End Week.

Module WeekSection.
Record t : Type := {
  weekNumber : Z;
  title : string;
  content : string;
  startPosition : Z;
  endPosition : Z
}.
End WeekSection.

Module Document.
Record t : Type := { id : string }.
End Document.

(** The schedule returned by the optimiser is opaque to the extractor. *)
Module ExtractionResult.
Record t (Schedule : Type) : Type := {
  academyInfo : AcademyInfo.t;
  sessions : list WeekSession.t;
  optimizedSchedule : option Schedule;
  structureAnalysis : StructureAnalysis.t;
  totalWeeks : Z;
  totalSessions : Z;
  sourceDocument : string;
  sourcePlan : string;
  aiEnhanced : bool;
  aiScheduled : bool;
  structureAware : bool
}.
Arguments academyInfo {Schedule} _.
Arguments sessions {Schedule} _.
Arguments optimizedSchedule {Schedule} _.
Arguments structureAnalysis {Schedule} _.
Arguments totalWeeks {Schedule} _.
Arguments totalSessions {Schedule} _.
Arguments sourceDocument {Schedule} _.
Arguments sourcePlan {Schedule} _.
Arguments aiEnhanced {Schedule} _.
Arguments aiScheduled {Schedule} _.
Arguments structureAware {Schedule} _.
End ExtractionResult.

Module UpcomingSession.
Record t : Type := {
  title : string;
  time : string;
  duration : Z;
  date : Z;
  location : string;
  type : string;
  participants : Z;
  status : string;
  academyName : string;
  sport : string;
  ageGroup : string;
  difficulty : string;
  completionRate : option Z;
  notes : option string;
  activities : list string;
  drills : option (list Drill);
  objectives : option (list string);
  equipment : option (list string);
  focus : list string;
  weekNumber : Z;
  dayNumber : Z;
  rawContent : string;
  sourceDocument : string;
  sourcePlan : string
}.
End UpcomingSession.

Module Preferences.
Record t : Type := {
  availableDays : list string;
  preferredTime : string;
  sessionDuration : Z;
  intensity : string
}.
End Preferences.

Module EnhancementContext.
Record t : Type := {
  ageGroup : string;
  sport : string;
  experience : string;
  structureContext : StructureAnalysis.t
}.
End EnhancementContext.

Section Extractor.

(** The clock read by [new Date()]. *)
Variable clock : Clock.

Definition locationOf (academyInfo : AcademyInfo.t) : string :=
  orStr (AcademyInfo.location academyInfo) "Training Field".

(** Lines 731-761. *)
Definition createBasicSession (weekNumber dayNumber : Z) (dayName : string)
    (academyInfo : AcademyInfo.t) : DailySession.t :=
  {| DailySession.weekNumber := weekNumber;
     DailySession.dayNumber := dayNumber;
     DailySession.title :=
       AcademyInfo.academyName academyInfo ++ " - Week " ++ ofZ weekNumber ++ ", "
         ++ capitalizeFirst dayName ++ " Training";
     DailySession.day := dayName;
     DailySession.date := calculateSessionDate clock weekNumber dayName;
     DailySession.time := "08:00";
     DailySession.duration := 90;
     DailySession.location := locationOf academyInfo;
     DailySession.type := "Team Training";
     DailySession.participants := estimateParticipants (AcademyInfo.ageGroup academyInfo);
     DailySession.status := "scheduled";
     DailySession.academyName := AcademyInfo.academyName academyInfo;
     DailySession.sport := AcademyInfo.sport academyInfo;
     DailySession.ageGroup := AcademyInfo.ageGroup academyInfo;
     DailySession.difficulty := AcademyInfo.difficulty academyInfo;
     DailySession.activities := [capitalizeFirst dayName ++ " training activities"];
     DailySession.rawContent := "Week " ++ ofZ weekNumber ++ " " ++ dayName ++ " training";
     DailySession.focus := generateDefaultFocus weekNumber (AcademyInfo.sport academyInfo);
     DailySession.details := Some
       {| SessionDetails.drills :=
            [DrillText ("Basic " ++ AcademyInfo.sport academyInfo ++ " drills")];
          SessionDetails.objectives := ["Week " ++ ofZ weekNumber ++ " skill development"];
          SessionDetails.equipment := getBasicEquipment (AcademyInfo.sport academyInfo);
          SessionDetails.notes := "Standard " ++ dayName ++ " training session";
          SessionDetails.documentContent := "Training session for week " ++ ofZ weekNumber;
          SessionDetails.completionRate := 0;
          SessionDetails.week := "Week " ++ ofZ weekNumber;
          SessionDetails.weekDescription := "Week " ++ ofZ weekNumber ++ " training focus" |}
  |}.

(** Lines 723-729. *)
Definition generateDefaultWeekSessions (weekNumber : Z) (academyInfo : AcademyInfo.t)
  : list DailySession.t :=
  let days := ["monday"; "wednesday"; "friday"] in
  mapi (fun day index => createBasicSession weekNumber (index + 1) day academyInfo) 0 days.

(** Lines 775-799. *)
Definition extractSessionsForSpecificWeek (text : string) (weekNumber : Z)
    (academyInfo : AcademyInfo.t) : list DailySession.t :=
  match weekBlock text weekNumber with
  | None => generateDefaultWeekSessions weekNumber academyInfo
  | Some weekContent =>
      let days :=
        map (fun hit => toLowerCase (matched weekContent hit))
            (execAll weekdayPattern weekContent) in
      match days with
      | [] => generateDefaultWeekSessions weekNumber academyInfo
      | _ =>
          mapi (fun day index => createBasicSession weekNumber (index + 1) day academyInfo)
               0 days
      end
  end.

(** Lines 539-561. *)
Definition createSessionFromDetail (sessionDetail : SessionDetail.t)
    (weekNumber dayNumber : Z) (academyInfo : AcademyInfo.t) : DailySession.t :=
  {| DailySession.weekNumber := weekNumber;
     DailySession.dayNumber := dayNumber;
     DailySession.title :=
       AcademyInfo.academyName academyInfo ++ " - " ++ SessionDetail.text sessionDetail;
     DailySession.day := mapSessionToDay dayNumber;
     DailySession.date := calculateSessionDate clock weekNumber (mapSessionToDay dayNumber);
     DailySession.time := "08:00";
     DailySession.duration := 90;
     DailySession.location := locationOf academyInfo;
     DailySession.type := SessionDetail.type sessionDetail;
     DailySession.participants := estimateParticipants (AcademyInfo.ageGroup academyInfo);
     DailySession.status := "scheduled";
     DailySession.academyName := AcademyInfo.academyName academyInfo;
     DailySession.sport := AcademyInfo.sport academyInfo;
     DailySession.ageGroup := AcademyInfo.ageGroup academyInfo;
     DailySession.difficulty := AcademyInfo.difficulty academyInfo;
     DailySession.activities := [SessionDetail.text sessionDetail];
     DailySession.rawContent := SessionDetail.text sessionDetail;
     DailySession.focus := [SessionDetail.type sessionDetail];
     DailySession.details := None
  |}.

(** Lines 1262-1294.  The second parameter is a 0-based week index; the
    fields are evaluated in the order of the object literal. *)
Definition createGeneralWeekSession (week : Week.t) (weekIndex : Z)
    (academyInfo : AcademyInfo.t) : outcome DailySession.t :=
  let sessionDate := calculateSessionDate clock (weekIndex + 1) "monday" in
  activities <- extractActivities (Week.content week) ;;
  drills <- extractDrills (Week.content week) ;;
  objectives <- extractObjectives (Week.content week) ;;
  equipment <- extractEquipment (Week.content week) ;;
  notes <- joinLines (Week.content week) ;;
  focus <- extractWeekFocus (Week.content week) ;;
  weekDescription <- extractWeekDescription (Week.content week) ;;
  Ok {| DailySession.weekNumber := weekIndex + 1;
        DailySession.dayNumber := 1;
        DailySession.title :=
          AcademyInfo.academyName academyInfo ++ " - Week " ++ ofZ (weekIndex + 1)
            ++ " Training Plan";
        DailySession.day := "week_plan";
        DailySession.date := sessionDate;
        DailySession.time := "08:00";
        DailySession.duration := 120;
        DailySession.location := locationOf academyInfo;
        DailySession.type := "Weekly Plan";
        DailySession.participants := estimateParticipants (AcademyInfo.ageGroup academyInfo);
        DailySession.status := "scheduled";
        DailySession.academyName := AcademyInfo.academyName academyInfo;
        DailySession.sport := AcademyInfo.sport academyInfo;
        DailySession.ageGroup := AcademyInfo.ageGroup academyInfo;
        DailySession.difficulty := AcademyInfo.difficulty academyInfo;
        DailySession.activities := activities;
        DailySession.rawContent := notes;
        DailySession.focus := focus;
        DailySession.details := Some
          {| SessionDetails.drills := drills;
             SessionDetails.objectives := objectives;
             SessionDetails.equipment := equipment;
             SessionDetails.notes := notes;
             SessionDetails.documentContent := notes;
             SessionDetails.completionRate := 0;
             SessionDetails.week :=
               orStr (Week.title week) ("Week " ++ ofZ (weekIndex + 1));
             SessionDetails.weekDescription := weekDescription |}
     |}.

(** Lines 252-288.  The fields are evaluated in the order of the object
    literal; [focus] is the only one that can raise. *)
Definition createStructuredDailySession (dayInfo : DayInfo.t) (weekNumber dayIndex : Z)
    (academyInfo : AcademyInfo.t) (content : string)
    (durationAnalysis : StructureAnalysis.DurationAnalysis) : outcome DailySession.t :=
  let dayName := normalizeDayName (DayInfo.day dayInfo) in
  let sessionDate := calculateSessionDate clock weekNumber dayName in
  let sessionDuration := extractSessionDuration content dayInfo durationAnalysis in
  focus <- extractSessionFocus (VStr content) ;;
  Ok {| DailySession.weekNumber := weekNumber;
        DailySession.dayNumber := dayIndex;
        DailySession.title :=
          AcademyInfo.academyName academyInfo ++ " - Week " ++ ofZ weekNumber ++ ", "
            ++ capitalizeFirst dayName ++ " Training";
        DailySession.day := dayName;
        DailySession.date := sessionDate;
        DailySession.time :=
          match extractSessionTime content dayInfo with
          | Some t => orStr t "08:00"
          | None => "08:00"
          end;
        DailySession.duration := sessionDuration;
        DailySession.location := locationOf academyInfo;
        DailySession.type := identifySessionType content dayInfo;
        DailySession.participants := estimateParticipants (AcademyInfo.ageGroup academyInfo);
        DailySession.status := "scheduled";
        DailySession.academyName := AcademyInfo.academyName academyInfo;
        DailySession.sport := AcademyInfo.sport academyInfo;
        DailySession.ageGroup := AcademyInfo.ageGroup academyInfo;
        DailySession.difficulty := AcademyInfo.difficulty academyInfo;
        DailySession.activities := extractActivitiesFromSection content dayInfo;
        DailySession.rawContent := content;
        DailySession.focus := focus;
        DailySession.details := Some
          {| SessionDetails.drills := extractDrillsFromSection content dayInfo;
             SessionDetails.objectives := extractObjectivesFromSection content dayInfo;
             SessionDetails.equipment := extractEquipmentFromSection content dayInfo;
             SessionDetails.notes := extractNotesFromSection content dayInfo;
             SessionDetails.documentContent := extractRelevantContent content dayInfo;
             SessionDetails.completionRate := 0;
             SessionDetails.week := "Week " ++ ofZ weekNumber;
             SessionDetails.weekDescription := substring content 0 200 |}
     |}.

(** The day markers of lines 212-228: the matches of the three patterns,
    one pattern after the other.  [day] is the first group when it is not
    empty and the whole match otherwise. *)
Definition markersOf (m : matcher) (group : string -> string) (content : string)
  : list DayInfo.t :=
  map (fun hit =>
         let whole := matched content hit in
         {| DayInfo.day := orStr (group whole) whole;
            DayInfo.position := Z.of_nat (fst hit);
            DayInfo.fullMatch := whole |})
      (execAll m content).

Definition foundDays (content : string) : list DayInfo.t :=
  markersOf weekdayPattern (fun whole => whole) content
  ++ markersOf dayNumberPattern
       (fun whole => let rest := drop 3 whole in drop (span isSpace rest) rest) content
  ++ markersOf sessionNumberPattern (fun whole => whole) content.

(** Lines 207-250. *)
Definition extractDailySessionsFromWeekSection (weekSection : WeekSection.t)
    (weekNumber : Z) (academyInfo : AcademyInfo.t)
    (durationAnalysis : StructureAnalysis.DurationAnalysis)
  : outcome (list DailySession.t) :=
  let content := WeekSection.content weekSection in
  dailySessions <-
    mapMi (fun dayInfo index =>
             createStructuredDailySession dayInfo weekNumber (index + 1) academyInfo
               content durationAnalysis)
          0 (foundDays content) ;;
  match dailySessions with
  | [] =>
      generalSession <-
        createGeneralWeekSession
          {| Week.title := WeekSection.title weekSection;
             Week.content := VStr (WeekSection.content weekSection) |}
          weekNumber academyInfo ;;
      Ok [generalSession]
  | _ => Ok dailySessions
  end.

(** [xs.sort((a, b) => key(a) - key(b))]: the sort is stable. *)
Fixpoint insertByKey {A : Type} (key : A -> Z) (x : A) (xs : list A) : list A :=
  match xs with
  | [] => [x]
  | y :: rest =>
      if Z.leb (key x) (key y) then x :: y :: rest
      else y :: insertByKey key x rest
  end.

Definition sortByKey {A : Type} (key : A -> Z) (xs : list A) : list A :=
  fold_right (insertByKey key) [] xs.

(** Lines 187-205. *)
Fixpoint sectionsFrom (text : string) (weekTitles : list WeekTitle.t)
  : list WeekSection.t :=
  match weekTitles with
  | [] => []
  | t :: rest =>
      let startPos := WeekTitle.position t in
      let endPos :=
        match rest with
        | next :: _ => WeekTitle.position next
        | [] => len text
        end in
      {| WeekSection.weekNumber := WeekTitle.number t;
         WeekSection.title := WeekTitle.title t;
         WeekSection.content := substring text startPos endPos;
         WeekSection.startPosition := startPos;
         WeekSection.endPosition := endPos |} :: sectionsFrom text rest
  end.

Definition splitTextByWeeks (text : string)
    (weekStructure : StructureAnalysis.WeekStructure) : list WeekSection.t :=
  let weekTitles :=
    sortByKey WeekTitle.position (StructureAnalysis.weekTitles weekStructure) in
  sectionsFrom text weekTitles.

(** Lines 130-165.  The object literal of the week is evaluated before
    the daily sessions are extracted. *)
Definition extractFromHighlyStructuredDocument (text : string)
    (structureAnalysis : StructureAnalysis.t) (academyInfo : AcademyInfo.t)
  : outcome (list WeekSession.t) :=
  let weekStructure := StructureAnalysis.weekStructure structureAnalysis in
  let dayStructure := StructureAnalysis.dayStructure structureAnalysis in
  let durationAnalysis := StructureAnalysis.durationAnalysis structureAnalysis in
  let weekSections := splitTextByWeeks text weekStructure in
  mapMi (fun weekSection weekIndex =>
           let weekNumber :=
             orZ (nth (Z.to_nat weekIndex)
                    (StructureAnalysis.identifiedWeeks weekStructure) 0)
                 (weekIndex + 1) in
           let content := WeekSection.content weekSection in
           let title := extractWeekTitle content weekNumber in
           description <- extractWeekDescription (VStr content) ;;
           focus <- extractWeekFocus (VStr content) ;;
           let weekSchedule := extractWeekScheduleFromStructure content dayStructure in
           dailySessions <-
             extractDailySessionsFromWeekSection weekSection weekNumber academyInfo
               durationAnalysis ;;
           Ok {| WeekSession.weekNumber := weekNumber;
                 WeekSession.title := title;
                 WeekSession.description := description;
                 WeekSession.dailySessions := dailySessions;
                 WeekSession.totalDuration := sumDurations dailySessions;
                 WeekSession.focus := focus;
                 WeekSession.notes := Some [];
                 WeekSession.academyName := AcademyInfo.academyName academyInfo;
                 WeekSession.sport := AcademyInfo.sport academyInfo;
                 WeekSession.weekSchedule := ScheduleEntries weekSchedule |})
        0 weekSections.

(** The week numbers [1 .. n] of a loop [for (weekNum = 1; weekNum <= n; weekNum++)]. *)
Definition weeksUpTo (n : Z) : list Z := map Z.of_nat (seq 1 (Z.to_nat n)).

(** Lines 419-459. *)
Definition extractWithPartialWeekStructure (text : string)
    (structureAnalysis : StructureAnalysis.t) (academyInfo : AcademyInfo.t)
  : outcome (list WeekSession.t) :=
  let weekStructure := StructureAnalysis.weekStructure structureAnalysis in
  let maxWeek := orZ (StructureAnalysis.totalWeeks weekStructure) 12 in
  mapM (fun weekNum =>
          let hasExplicitWeek :=
            existsb (Z.eqb weekNum) (StructureAnalysis.identifiedWeeks weekStructure) in
          let title :=
            if hasExplicitWeek then findWeekTitle text weekNum
            else "Week " ++ ofZ weekNum ++ " Training" in
          let description :=
            if hasExplicitWeek then extractWeekContentByNumber text weekNum
            else generateWeekDescription weekNum academyInfo in
          focus <-
            (if hasExplicitWeek then extractWeekFocusByNumber text weekNum
             else Ok (generateWeekFocus weekNum (AcademyInfo.sport academyInfo))) ;;
          let dailySessions :=
            if hasExplicitWeek then extractSessionsForSpecificWeek text weekNum academyInfo
            else generateDefaultWeekSessions weekNum academyInfo in
          Ok {| WeekSession.weekNumber := weekNum;
                WeekSession.title := title;
                WeekSession.description := description;
                WeekSession.dailySessions := dailySessions;
                WeekSession.totalDuration := sumDurations dailySessions;
                WeekSession.focus := focus;
                WeekSession.notes := None;
                WeekSession.academyName := AcademyInfo.academyName academyInfo;
                WeekSession.sport := AcademyInfo.sport academyInfo;
                WeekSession.weekSchedule := NoSchedule |})
       (weeksUpTo maxWeek).

(** [Math.ceil(a / b)] for integers and a positive [b]. *)
Definition ceilDiv (a b : Z) : Z := - ((- a) / b).

(** [xs.slice(from, to)] for indices that are not negative. *)
Definition slice {A : Type} (xs : list A) (from to : Z) : list A :=
  firstn (Z.to_nat (to - from)) (skipn (Z.to_nat from) xs).

(** Lines 462-497. *)
Definition extractWithSessionStructure (text : string)
    (structureAnalysis : StructureAnalysis.t) (academyInfo : AcademyInfo.t)
  : list WeekSession.t :=
  let sessionStructure := StructureAnalysis.sessionStructure structureAnalysis in
  let sessionsPerWeek := 3 in
  let totalSessions := StructureAnalysis.totalSessions sessionStructure in
  let totalWeeks := ceilDiv totalSessions sessionsPerWeek in
  map (fun weekNum =>
         let startSessionIndex := (weekNum - 1) * sessionsPerWeek in
         let endSessionIndex := Z.min (startSessionIndex + sessionsPerWeek) totalSessions in
         let weekSessions :=
           mapi (fun sessionDetail index =>
                   createSessionFromDetail sessionDetail weekNum (index + 1) academyInfo)
                0
                (slice (StructureAnalysis.sessionDetails sessionStructure)
                   startSessionIndex endSessionIndex) in
         {| WeekSession.weekNumber := weekNum;
            WeekSession.title := "Week " ++ ofZ weekNum ++ " Training Sessions";
            WeekSession.description :=
              "Training week with " ++ ofZ (Z.of_nat (List.length weekSessions))
                ++ " structured sessions";
            WeekSession.dailySessions := weekSessions;
            WeekSession.totalDuration := sumDurations weekSessions;
            WeekSession.focus := deriveWeekFocusFromSessions weekSessions;
            WeekSession.notes := None;
            WeekSession.academyName := AcademyInfo.academyName academyInfo;
            WeekSession.sport := AcademyInfo.sport academyInfo;
            WeekSession.weekSchedule := NoSchedule |})
      (weeksUpTo totalWeeks).

(** Lines 645-675. *)
Definition extractFromBasicStructuredDocument (text : string)
    (structureAnalysis : StructureAnalysis.t) (academyInfo : AcademyInfo.t)
  : list WeekSession.t :=
  let weekStructure := StructureAnalysis.weekStructure structureAnalysis in
  let totalWeeks := orZ (StructureAnalysis.totalWeeks weekStructure) 8 in
  map (fun weekNum =>
         let dailySessions := generateDefaultWeekSessions weekNum academyInfo in
         {| WeekSession.weekNumber := weekNum;
            WeekSession.title := "Week " ++ ofZ weekNum ++ " Training";
            WeekSession.description := "Training focus for week " ++ ofZ weekNum;
            WeekSession.dailySessions := dailySessions;
            WeekSession.totalDuration := sumDurations dailySessions;
            WeekSession.focus := generateDefaultFocus weekNum (AcademyInfo.sport academyInfo);
            WeekSession.notes := None;
            WeekSession.academyName := AcademyInfo.academyName academyInfo;
            WeekSession.sport := AcademyInfo.sport academyInfo;
            WeekSession.weekSchedule :=
              SchedulePattern ["monday"; "wednesday"; "friday"] "Three days per week" |})
      (weeksUpTo totalWeeks).

(** Lines 677-709.  [totalDuration] is the literal 270. *)
Definition extractFromUnstructuredDocument (text : string)
    (structureAnalysis : StructureAnalysis.t) (academyInfo : AcademyInfo.t)
  : list WeekSession.t :=
  let totalWeeks := 4 in
  map (fun weekNum =>
         let dailySessions :=
           [createBasicSession weekNum 1 "monday" academyInfo;
            createBasicSession weekNum 2 "wednesday" academyInfo;
            createBasicSession weekNum 3 "friday" academyInfo] in
         {| WeekSession.weekNumber := weekNum;
            WeekSession.title := "Week " ++ ofZ weekNum ++ " Training Program";
            WeekSession.description := "Training program derived from document content";
            WeekSession.dailySessions := dailySessions;
            WeekSession.totalDuration := 270;
            WeekSession.focus := generateDefaultFocus weekNum (AcademyInfo.sport academyInfo);
            WeekSession.notes := None;
            WeekSession.academyName := AcademyInfo.academyName academyInfo;
            WeekSession.sport := AcademyInfo.sport academyInfo;
            WeekSession.weekSchedule :=
              SchedulePattern ["monday"; "wednesday"; "friday"] "Standard 3-day week" |})
      (weeksUpTo totalWeeks).

(** Lines 168-184. *)
Definition extractFromModeratelyStructuredDocument (text : string)
    (structureAnalysis : StructureAnalysis.t) (academyInfo : AcademyInfo.t)
  : outcome (list WeekSession.t) :=
  let weekStructure := StructureAnalysis.weekStructure structureAnalysis in
  let sessionStructure := StructureAnalysis.sessionStructure structureAnalysis in
  if Z.gtb (StructureAnalysis.totalWeeks weekStructure) 0 then
    extractWithPartialWeekStructure text structureAnalysis academyInfo
  else if StructureAnalysis.hasStructuredSessions sessionStructure then
    Ok (extractWithSessionStructure text structureAnalysis academyInfo)
  else
    Ok (extractFromBasicStructuredDocument text structureAnalysis academyInfo).

Definition readLevel (structureAnalysis : StructureAnalysis.t) : outcome (option string) :=
  match StructureAnalysis.organizationLevel structureAnalysis with
  | Some organizationLevel => Ok (StructureAnalysis.level organizationLevel)
  | None => Throw (TypeError "Cannot read properties of undefined (reading 'level')")
  end.

Definition levelIs (level : option string) (name : string) : bool :=
  match level with
  | Some l => String.eqb l name
  | None => false
  end.

(** Lines 108-127. *)
Definition extractSessionsWithStructureAwareness (text : string)
    (structureAnalysis : StructureAnalysis.t) (academyInfo : AcademyInfo.t)
  : outcome (list WeekSession.t) :=
  level <- readLevel structureAnalysis ;;
  if levelIs level "highly_structured" then
    extractFromHighlyStructuredDocument text structureAnalysis academyInfo
  else if levelIs level "moderately_structured" then
    extractFromModeratelyStructuredDocument text structureAnalysis academyInfo
  else if levelIs level "basic_structure" then
    Ok (extractFromBasicStructuredDocument text structureAnalysis academyInfo)
  else
    Ok (extractFromUnstructuredDocument text structureAnalysis academyInfo).

(** Lines 1149-1218.  The week number is read from the text and the date
    of the general session is the value of [Calendar.calculateSessionDate];
    a week number that takes the date out of the range of [Date] makes the
    source raise a [RangeError] ([Zoned.calculateSessionDate]), which is
    outside this definition: its properties are stated of the lists it
    returns. *)
Definition attemptAlternativeWeekExtraction (text : string) (academyInfo : AcademyInfo.t)
  : outcome (list WeekSession.t) :=
  let matches := execAll weekWordPattern text in
  let nextIndexes :=
    (map (fun hit => Z.of_nat (fst hit)) (List.tl matches) ++ [len text])%list in
  mapM (fun entry =>
          let weekMatch : nat * nat := fst entry in
          let nextWeekIndex : Z := snd entry in
          let fullMatch := matched text weekMatch in
          let afterWord := drop 4 fullMatch in
          let weekNumber := parseInt (drop (span isSpace afterWord) afterWord) in
          let weekText := substring text (Z.of_nat (fst weekMatch)) nextWeekIndex in
          description <- extractWeekDescription (VArr [weekText]) ;;
          weekFocus <- extractWeekFocus (VArr [weekText]) ;;
          activities <- extractActivities (VArr [weekText]) ;;
          drills <- extractDrills (VArr [weekText]) ;;
          objectives <- extractObjectives (VArr [weekText]) ;;
          equipment <- extractEquipment (VArr [weekText]) ;;
          sessionFocus <- extractWeekFocus (VArr [weekText]) ;;
          let generalSession :=
            {| DailySession.weekNumber := weekNumber;
               DailySession.dayNumber := 1;
               DailySession.title :=
                 AcademyInfo.academyName academyInfo ++ " - Week " ++ ofZ weekNumber
                   ++ " Training Plan";
               DailySession.day := "week_plan";
               DailySession.date := calculateSessionDate clock weekNumber "monday";
               DailySession.time := "08:00";
               DailySession.duration := 120;
               DailySession.location := locationOf academyInfo;
               DailySession.type := "Weekly Plan";
               DailySession.participants :=
                 estimateParticipants (AcademyInfo.ageGroup academyInfo);
               DailySession.status := "scheduled";
               DailySession.academyName := AcademyInfo.academyName academyInfo;
               DailySession.sport := AcademyInfo.sport academyInfo;
               DailySession.ageGroup := AcademyInfo.ageGroup academyInfo;
               DailySession.difficulty := AcademyInfo.difficulty academyInfo;
               DailySession.activities := activities;
               DailySession.rawContent := weekText;
               DailySession.focus := sessionFocus;
               DailySession.details := Some
                 {| SessionDetails.drills := drills;
                    SessionDetails.objectives := objectives;
                    SessionDetails.equipment := equipment;
                    SessionDetails.notes := weekText;
                    SessionDetails.documentContent := substring weekText 0 1000;
                    SessionDetails.completionRate := 0;
                    SessionDetails.week := "Week " ++ ofZ weekNumber;
                    SessionDetails.weekDescription := substring weekText 0 200 |}
            |} in
          Ok {| WeekSession.weekNumber := weekNumber;
                WeekSession.title := "Week " ++ ofZ weekNumber ++ " Training";
                WeekSession.description := description;
                WeekSession.dailySessions := [generalSession];
                WeekSession.totalDuration := 120;
                WeekSession.focus := weekFocus;
                WeekSession.notes := Some [];
                WeekSession.academyName := AcademyInfo.academyName academyInfo;
                WeekSession.sport := AcademyInfo.sport academyInfo;
                WeekSession.weekSchedule := SchedulePattern [] "Weekly training" |})
       (combine matches nextIndexes).

(** Lines 1548-1588.  The date of an entry is computed again from the
    week number of the week and the day of the session. *)
Definition toUpcomingSession {Schedule : Type} (extractedData : ExtractionResult.t Schedule)
    (week : WeekSession.t) (session : DailySession.t) : UpcomingSession.t :=
  let details := DailySession.details session in
  {| UpcomingSession.title := DailySession.title session;
     UpcomingSession.time := DailySession.time session;
     UpcomingSession.duration := DailySession.duration session;
     UpcomingSession.date :=
       calculateSessionDate clock (WeekSession.weekNumber week) (DailySession.day session);
     UpcomingSession.location := DailySession.location session;
     UpcomingSession.type := DailySession.type session;
     UpcomingSession.participants := DailySession.participants session;
     UpcomingSession.status := DailySession.status session;
     UpcomingSession.academyName := DailySession.academyName session;
     UpcomingSession.sport := DailySession.sport session;
     UpcomingSession.ageGroup := DailySession.ageGroup session;
     UpcomingSession.difficulty := DailySession.difficulty session;
     UpcomingSession.completionRate := option_map SessionDetails.completionRate details;
     UpcomingSession.notes := option_map SessionDetails.notes details;
     UpcomingSession.activities := DailySession.activities session;
     UpcomingSession.drills := option_map SessionDetails.drills details;
     UpcomingSession.objectives := option_map SessionDetails.objectives details;
     UpcomingSession.equipment := option_map SessionDetails.equipment details;
     UpcomingSession.focus := DailySession.focus session;
     UpcomingSession.weekNumber := WeekSession.weekNumber week;
     UpcomingSession.dayNumber := DailySession.dayNumber session;
     UpcomingSession.rawContent := DailySession.rawContent session;
     UpcomingSession.sourceDocument := ExtractionResult.sourceDocument extractedData;
     UpcomingSession.sourcePlan := ExtractionResult.sourcePlan extractedData |}.

(** The entries in the order the two nested [forEach] loops push them. *)
Definition upcomingEntries {Schedule : Type} (extractedData : ExtractionResult.t Schedule)
  : list UpcomingSession.t :=
  flat_map (fun week =>
              map (toUpcomingSession extractedData week) (WeekSession.dailySessions week))
           (ExtractionResult.sessions extractedData).

(** [upcomingSessions.sort((a, b) => new Date(a.date) - new Date(b.date))] *)
Definition convertToUpcomingSessions {Schedule : Type}
    (extractedData : ExtractionResult.t Schedule) : list UpcomingSession.t :=
  sortByKey (fun entry => dateValue (UpcomingSession.date entry))
            (upcomingEntries extractedData).

End Extractor.

(** ** Academy information *)

Fixpoint firstAcademyName (lines : list string) : string :=
  match lines with
  | [] => ""
  | line :: rest =>
      match academyPattern line with
      | Some n => trim (take n line)
      | None => firstAcademyName rest
      end
  end.

Definition programOfDocumentType (structureAnalysis : option StructureAnalysis.t) : string :=
  match structureAnalysis with
  | Some analysis =>
      if String.eqb (StructureAnalysis.documentType analysis) "curriculum"
      then "Training Curriculum"
      else if String.eqb (StructureAnalysis.documentType analysis) "weekly_schedule"
      then "Weekly Training Schedule"
      else ""
  | None => ""
  end.

Definition scanSport (text : string) : string :=
  match search sportPattern text with
  | Some hit => toLowerCase (matched text hit)
  | None => ""
  end.

Definition scanAgeGroup (text : string) : string :=
  match search agePattern text with
  | Some hit => matched text hit
  | None => ""
  end.

Definition scanProgram (lines : list string) : string :=
  let programLines :=
    filter (fun line =>
              (includes line "COACHING" || includes line "PLAN"
               || includes line "PROGRAM")%bool) lines in
  match programLines with
  | first :: _ => trim first
  | [] => ""
  end.

(** Lines 1015-1073. *)
Definition extractAcademyInfo (text : string) (trainingPlan : TrainingPlan.t)
    (structureAnalysis : option StructureAnalysis.t) : AcademyInfo.t :=
  let lines := firstN 20 (splitLines text) in
  let academyName := firstAcademyName lines in
  let program := programOfDocumentType structureAnalysis in
  let sport := scanSport text in
  let ageGroup := scanAgeGroup text in
  let program' := if isEmpty program then scanProgram lines else program in
  {| AcademyInfo.academyName :=
       orStr academyName
         (orOpt (TrainingPlan.academyName trainingPlan)
            (orOpt (TrainingPlan.title trainingPlan) "Training Academy"));
     AcademyInfo.sport := orStr sport (orOpt (TrainingPlan.category trainingPlan) "soccer");
     AcademyInfo.ageGroup := orStr ageGroup "Youth";
     AcademyInfo.program :=
       orStr program' (orOpt (TrainingPlan.title trainingPlan) "Training Program");
     AcademyInfo.location := "Training Facility";
     AcademyInfo.difficulty := orOpt (TrainingPlan.difficulty trainingPlan) "intermediate" |}.

(** ** The pipeline *)

(** Lines 291-323. *)
Definition deriveSchedulePreferences (structureAnalysis : StructureAnalysis.t)
  : outcome Preferences.t :=
  let dayStructure := StructureAnalysis.dayStructure structureAnalysis in
  let durationAnalysis := StructureAnalysis.durationAnalysis structureAnalysis in
  let availableDays :=
    match StructureAnalysis.identifiedDays dayStructure with
    | [] => ["monday"; "wednesday"; "friday"]
    | days => days
    end in
  let sessionDuration := orZ (StructureAnalysis.averageDuration durationAnalysis) 90 in
  match StructureAnalysis.schedulePattern structureAnalysis with
  | None =>
      Throw (TypeError "Cannot read properties of undefined (reading 'recommendedFrequency')")
  | Some schedulePattern =>
      let frequency := StructureAnalysis.recommendedFrequency schedulePattern in
      let availableDays' :=
        if Z.eqb frequency 0 then availableDays
        else if Z.leb frequency 2 then ["monday"; "thursday"]
        else if Z.eqb frequency 3 then ["monday"; "wednesday"; "friday"]
        else ["monday"; "tuesday"; "thursday"; "friday"] in
      Ok {| Preferences.availableDays := availableDays';
            Preferences.preferredTime := "16:00";
            Preferences.sessionDuration := sessionDuration;
            Preferences.intensity := "moderate" |}
  end.

(** [sessions.reduce((sum, week) => sum + week.dailySessions.length, 0)] *)
Definition countSessions (sessions : list WeekSession.t) : Z :=
  fold_left (fun sum week => sum + Z.of_nat (List.length (WeekSession.dailySessions week)))
            sessions 0.

Section Pipeline.

Variable clock : Clock.

(** The collaborators: text extraction and structure analysis
    ([DocumentProcessor]), enhancement and schedule optimisation
    ([AIService]), error wrapping ([PlatformUtils]).  The enhancer
    returns a new array when it returns. *)
Variable Schedule : Type.
Variable extractDocumentText : Document.t -> outcome string.
Variable analyzeDocumentStructure : string -> Document.t -> outcome StructureAnalysis.t.
Variable enhanceExtractedSessions :
  list WeekSession.t -> EnhancementContext.t -> outcome (list WeekSession.t).
Variable generateOptimalSchedule :
  TrainingPlan.t -> Preferences.t -> outcome (option Schedule).
Variable handlePlatformError : error -> string -> error.

(** Lines 30-105. *)
Definition extractSessionsFromDocument (document : Document.t)
    (trainingPlan : TrainingPlan.t) : outcome (ExtractionResult.t Schedule) :=
  tryCatch
    (text <- extractDocumentText document ;;
     structureAnalysis <- analyzeDocumentStructure text document ;;
     let academyInfo := extractAcademyInfo text trainingPlan (Some structureAnalysis) in
     sessions <-
       extractSessionsWithStructureAwareness clock text structureAnalysis academyInfo ;;
     let enhancement :=
       enhanceExtractedSessions sessions
         {| EnhancementContext.ageGroup := AcademyInfo.ageGroup academyInfo;
            EnhancementContext.sport := AcademyInfo.sport academyInfo;
            EnhancementContext.experience :=
              orOpt (TrainingPlan.difficulty trainingPlan) "beginner";
            EnhancementContext.structureContext := structureAnalysis |} in
     let enhancedSessions :=
       match enhancement with
       | Ok enhanced => enhanced
       | Throw _ => sessions
       end in
     let optimizedSchedule :=
       match (schedulePreferences <- deriveSchedulePreferences structureAnalysis ;;
              generateOptimalSchedule trainingPlan schedulePreferences) with
       | Ok schedule => schedule
       | Throw _ => None
       end in
     _ <- readLevel structureAnalysis ;;
     Ok {| ExtractionResult.academyInfo := academyInfo;
           ExtractionResult.sessions := enhancedSessions;
           ExtractionResult.optimizedSchedule := optimizedSchedule;
           ExtractionResult.structureAnalysis := structureAnalysis;
           ExtractionResult.totalWeeks := Z.of_nat (List.length enhancedSessions);
           ExtractionResult.totalSessions := countSessions enhancedSessions;
           ExtractionResult.sourceDocument := Document.id document;
           ExtractionResult.sourcePlan := TrainingPlan.id trainingPlan;
           ExtractionResult.aiEnhanced :=
             match enhancement with Ok _ => true | Throw _ => false end;
           ExtractionResult.aiScheduled :=
             match optimizedSchedule with Some _ => true | None => false end;
           ExtractionResult.structureAware := true |})
    (fun error => Throw (handlePlatformError error "Enhanced Session Extraction")).

End Pipeline.

(** ** The line-based parser

    [parseDocumentStructure] and [extractWeeklySessions] read the document
    line by line.  They hand arrays of lines to the array-based helpers,
    which is what those helpers were written for. *)

(** [.*] followed by [m], read greedily: the LAST position before the
    first line terminator where [m] matches. *)
Fixpoint dotStarThenLast (m : matcher) (s : string) : option nat :=
  match s with
  | String c r =>
      if isLineTerminator c then m s
      else match dotStarThenLast m r with
           | Some n => Some (S n)
           | None => m s
           end
  | EmptyString => m s
  end.

(** [.*?] followed by [m], read lazily: the first position where [m]
    matches, as the gap skipped and the length matched by [m]. *)
Fixpoint lazyDotThen (m : matcher) (s : string) : option (nat * nat) :=
  match m s with
  | Some n => Some (O, n)
  | None =>
      match s with
      | String c r =>
          if isLineTerminator c then None
          else match lazyDotThen m r with
               | Some (gap, n) => Some (S gap, n)
               | None => None
               end
      | EmptyString => None
      end
  end.

Definition weekNumberPattern : matcher := andThen (litCI "week") (andThen spaces digits).

Definition isDash (c : ascii) : bool := (Ascii.eqb c ":" || Ascii.eqb c "-")%bool.

(** Line 893, the pattern anchored at the start of the line with the five
    alternatives [week\s*\d+], [session\s*\d+], [day\s*\d+],
    [training\s*week\s*\d+] and [week\s*\d+\s*[-:]\s*] . *)
Definition enhancedWeekPattern : matcher :=
  anyOf [weekNumberPattern;
         sessionNumberPattern;
         dayNumberPattern;
         andThen (litCI "training") (andThen spaces weekNumberPattern);
         andThen weekNumberPattern (andThen spaces (andThen (oneOf isDash) spaces))].

(** Lines 954-968. *)
Definition isWeekHeader (line nextLine : string) : bool :=
  let hasWeekIndicator :=
    (test weekNumberPattern line
     || test (andThen (litCI "training") (dotStarThen (litCI "week"))) line
     || test (andThen (litCI "session") (dotStarThen (oneOf isDigit))) line
     || testAtStart (andThen (litCI "w") digits) line)%bool in
  let isShortLine := Z.ltb (len line) 50 in
  let nextLineHasContent := Z.gtb (len nextLine) 20 in
  (hasWeekIndicator && isShortLine && nextLineHasContent)%bool.

(** [\d+\s*hours?], the second group of [trainingDayPattern]. *)
Definition hoursPattern : matcher :=
  andThen digits (andThen spaces (andThen (litCI "hour") (opt (litCI "s")))).

(** The result of a match as the loop reads it: [dayMatch[1]] and
    [dayMatch[2]], the second being [undefined] for the array built by
    [detectTrainingDay]. *)
Module DayMatch.
Record t : Type := { first : string; second : option string }.
End DayMatch.

(** [line.match(sessionPatterns.trainingDayPattern)], line 12:
    [/(sunday|monday|tuesday|wednesday|thursday|friday|saturday).*?(\d+\s*hours?)/i] *)
Fixpoint matchTrainingDay (line : string) : option DayMatch.t :=
  let here :=
    match weekdayPattern line with
    | Some nameLength =>
        match lazyDotThen hoursPattern (drop nameLength line) with
        | Some (gap, hoursLength) =>
            Some {| DayMatch.first := take nameLength line;
                    DayMatch.second :=
                      Some (take hoursLength (drop (nameLength + gap) line)) |}
        | None => None
        end
    | None => None
    end in
  match here with
  | Some found => Some found
  | None =>
      match line with
      | String _ rest => matchTrainingDay rest
      | EmptyString => None
      end
  end.

(** Lines 970-986: the first of four patterns that matches; both entries
    of the array returned are the text matched. *)
Definition detectTrainingDay (line : string) : option DayMatch.t :=
  let dayPatterns : list matcher :=
    [andThen (litCI "daily") (andThen spaces (litCI "session"));
     andThen (litCI "training") (andThen spaces (litCI "session"));
     andThen digits (andThen spaces (andThen (litCI "hour")
                                       (dotStarThenLast (litCI "session"))));
     anyOf [andThen (litCI "warm") (dotStarThenLast (litCI "up"));
            litCI "technical";
            litCI "conditioning"]] in
  match flat_map (fun pattern =>
                    match search pattern line with
                    | Some hit => [matched line hit]
                    | None => []
                    end) dayPatterns with
  | found :: _ =>
      Some {| DayMatch.first := found; DayMatch.second := None |}
  | [] => None
  end.

(** Lines 988-1002. *)
Definition extractDayName (line : string) : string :=
  match find (fun day => includes (toLowerCase line) day) weekdayNames with
  | Some foundDay => foundDay
  | None =>
      if (includes (toLowerCase line) "warm"
          || includes (toLowerCase line) "coordination")%bool
      then "training_day" else "session"
  end.

(** Lines 1004-1012; [None] is [null]. *)
Definition extractDuration (line : string) : option string :=
  match search durationPattern line with
  | Some hit =>
      let m := matched line hit in
      let value := parseInt m in
      let unit := toLowerCase (durationUnit m) in
      Some (if includes unit "hour" then ofZ value ++ " hours"
            else ofZ value ++ " minutes")
  | None => None
  end.

Module ParsedDay.
Record t : Type := {
  day : string;
  duration : string;
  lineNumber : Z;
  activities : list string;
  content : list string
}.
End ParsedDay.

Module ParsedWeek.
Record t : Type := {
  title : string;
  lineNumber : Z;
  days : list ParsedDay.t;
  content : list string
}.
End ParsedWeek.

Module ParsedStructure.
Record t : Type := {
  title : string;
  weeks : list ParsedWeek.t;
  currentWeek : option ParsedWeek.t;
  currentDay : option ParsedDay.t;
  sections : list string
}.
End ParsedStructure.

(** The state of the loop of lines 895-937.  [structure.currentDay] is
    the object last pushed on [currentWeek.days], or [null]: [dayOpen]
    says which, and a line added to the current day is added to the last
    day of the current week. *)
Module ParserState.
Record t : Type := {
  weeks : list ParsedWeek.t;
  currentWeek : option ParsedWeek.t;
  dayOpen : bool
}.
End ParserState.

Fixpoint updateLast {A : Type} (f : A -> A) (xs : list A) : list A :=
  match xs with
  | [] => []
  | [x] => [f x]
  | x :: rest => x :: updateLast f rest
  end.

Definition addToDay (line : string) (day : ParsedDay.t) : ParsedDay.t :=
  {| ParsedDay.day := ParsedDay.day day;
     ParsedDay.duration := ParsedDay.duration day;
     ParsedDay.lineNumber := ParsedDay.lineNumber day;
     ParsedDay.activities := ParsedDay.activities day;
     ParsedDay.content := (ParsedDay.content day ++ [line])%list |}.

(** [structure.weeks] once the current week is pushed. *)
Definition closeWeek (state : ParserState.t) : list ParsedWeek.t :=
  match ParserState.currentWeek state with
  | Some week => (ParserState.weeks state ++ [week])%list
  | None => ParserState.weeks state
  end.

(** Lines 900-913: a header line starts a new week. *)
Definition isHeaderOfWeek (line nextLine : string) : bool :=
  (testAtStart enhancedWeekPattern line || isWeekHeader line nextLine)%bool.

Definition startWeek (line : string) (i : Z) (state : ParserState.t) : ParserState.t :=
  {| ParserState.weeks := closeWeek state;
     ParserState.currentWeek :=
       Some {| ParsedWeek.title := line;
               ParsedWeek.lineNumber := i;
               ParsedWeek.days := [];
               ParsedWeek.content := [line] |};
     ParserState.dayOpen := false |}.

(** Lines 916-917. *)
Definition dayMatchOf (line : string) : option DayMatch.t :=
  match matchTrainingDay line with
  | Some found => Some found
  | None => detectTrainingDay line
  end.

(** Lines 919-929: a day line inside a week starts a new day. *)
Definition startDay (line : string) (i : Z) (dayMatch : DayMatch.t)
    (week : ParsedWeek.t) (state : ParserState.t) : ParserState.t :=
  let duration :=
    match DayMatch.second dayMatch with
    | Some hours => orStr hours (orOpt (extractDuration line) "")
    | None => orOpt (extractDuration line) ""
    end in
  let currentDay :=
    {| ParsedDay.day := orStr (DayMatch.first dayMatch) (extractDayName line);
       ParsedDay.duration := duration;
       ParsedDay.lineNumber := i;
       ParsedDay.activities := [];
       ParsedDay.content := [line] |} in
  {| ParserState.weeks := ParserState.weeks state;
     ParserState.currentWeek :=
       Some {| ParsedWeek.title := ParsedWeek.title week;
               ParsedWeek.lineNumber := ParsedWeek.lineNumber week;
               ParsedWeek.days := (ParsedWeek.days week ++ [currentDay])%list;
               ParsedWeek.content := ParsedWeek.content week |};
     ParserState.dayOpen := true |}.

(** Lines 931-936: any other line goes to the current day, else to the
    current week, else nowhere. *)
Definition addLine (line : string) (state : ParserState.t) : ParserState.t :=
  match ParserState.currentWeek state with
  | None => state
  | Some week =>
      {| ParserState.weeks := ParserState.weeks state;
         ParserState.currentWeek :=
           Some (if ParserState.dayOpen state
                 then {| ParsedWeek.title := ParsedWeek.title week;
                         ParsedWeek.lineNumber := ParsedWeek.lineNumber week;
                         ParsedWeek.days := updateLast (addToDay line) (ParsedWeek.days week);
                         ParsedWeek.content := ParsedWeek.content week |}
                 else {| ParsedWeek.title := ParsedWeek.title week;
                         ParsedWeek.lineNumber := ParsedWeek.lineNumber week;
                         ParsedWeek.days := ParsedWeek.days week;
                         ParsedWeek.content := (ParsedWeek.content week ++ [line])%list |});
         ParserState.dayOpen := ParserState.dayOpen state |}
  end.

Definition parseLine (line nextLine : string) (i : Z) (state : ParserState.t)
  : ParserState.t :=
  if isHeaderOfWeek line nextLine then startWeek line i state
  else match dayMatchOf line, ParserState.currentWeek state with
       | Some dayMatch, Some week => startDay line i dayMatch week state
       | _, _ => addLine line state
       end.

Fixpoint parseLines (lines : list string) (i : Z) (state : ParserState.t)
  : ParserState.t :=
  match lines with
  | [] => state
  | line :: rest =>
      parseLines rest (i + 1) (parseLine line (hd "" rest) i state)
  end.

(** [text.split('\n').map(line => line.trim()).filter(line => line.length > 0)] *)
Definition contentLines (text : string) : list string :=
  filter (fun line => Z.gtb (len line) 0) (map trim (splitLines text)).

Definition emptyParserState : ParserState.t :=
  {| ParserState.weeks := []; ParserState.currentWeek := None; ParserState.dayOpen := false |}.

(** Lines 881-950. *)
Definition parseDocumentStructure (text : string) : ParsedStructure.t :=
  let state := parseLines (contentLines text) 0 emptyParserState in
  {| ParsedStructure.title := "";
     ParsedStructure.weeks := closeWeek state;
     ParsedStructure.currentWeek := ParserState.currentWeek state;
     ParsedStructure.currentDay :=
       match ParserState.currentWeek state with
       | Some week =>
           if ParserState.dayOpen state then List.last (map Some (ParsedWeek.days week)) None
           else None
       | None => None
       end;
     ParsedStructure.sections := [] |}.

(** Lines 1220-1226; [None] is [null]. *)
Definition cleanWeekTitle (title : string) : option string :=
  if isEmpty title then None
  else
    let stripped :=
      match weekNumberPattern title with
      | Some n => drop n title
      | None => title
      end in
    Some (trim (removeChars isDash stripped)).

(** Lines 1332-1334 (the definition in force; lines 633-637 are replaced). *)
Definition isHeaderLine (line : string) : bool := testAtStart weekPattern (trim line).

(** Lines 1296-1303. *)
Definition extractSessionContent (content : list string) : string :=
  substring
    (join (String newline EmptyString)
       (filter (fun line => negb (isHeaderLine line))
          (filter (fun line => Z.gtb (len (trim line)) 10) content)))
    0 1000.

(** Lines 1384-1400. *)
Definition parseDuration (durationText : string) : Z :=
  if isEmpty durationText then 90
  else match search durationPattern durationText with
       | Some hit =>
           let m := matched durationText hit in
           let value := parseInt m in
           let unit := toLowerCase (durationUnit m) in
           if (includes unit "hour" || includes unit "hr")%bool then value * 60 else value
       | None => 90
       end.

(** Lines 1305-1326. *)
Definition extractWeekScheduleInfo (content : list string) : list ScheduleEntry.t :=
  flat_map (fun line =>
    flat_map (fun day =>
      if includes (toLowerCase line) day then
        [{| ScheduleEntry.day := capitalizeFirst day;
            ScheduleEntry.time :=
              match search (orElse clockPattern meridiemPattern) line with
              | Some hit => matched line hit
              | None => "08:00"
              end;
            ScheduleEntry.duration :=
              match search (andThen digits
                              (andThen spaces (orElse (litCI "min") (litCI "hour")))) line with
              | Some hit => matched line hit
              | None => "90min"
              end;
            ScheduleEntry.focus := trim line |}]
      else []) weekdayNames) content.

Section LineBasedExtractor.

Variable clock : Clock.

(** Lines 1228-1260.  [weekIndex] and [dayIndex] are 0-based. *)
Definition createDailySession (day : ParsedDay.t) (weekIndex dayIndex : Z)
    (academyInfo : AcademyInfo.t) (week : ParsedWeek.t) : outcome DailySession.t :=
  let sessionDate := calculateSessionDate clock (weekIndex + 1) (ParsedDay.day day) in
  let content := VArr (ParsedDay.content day) in
  activities <- extractActivities content ;;
  drills <- extractDrills content ;;
  objectives <- extractObjectives content ;;
  equipment <- extractEquipment content ;;
  focus <- extractSessionFocus content ;;
  Ok {| DailySession.weekNumber := weekIndex + 1;
        DailySession.dayNumber := dayIndex + 1;
        DailySession.title :=
          AcademyInfo.academyName academyInfo ++ " - Week " ++ ofZ (weekIndex + 1) ++ ", "
            ++ capitalizeFirst (ParsedDay.day day) ++ " Training";
        DailySession.day := toLowerCase (ParsedDay.day day);
        DailySession.date := sessionDate;
        DailySession.time :=
          match extractTime (join " " (ParsedDay.content day)) with
          | Some t => orStr t "08:00"
          | None => "08:00"
          end;
        DailySession.duration := orZ (parseDuration (ParsedDay.duration day)) 90;
        DailySession.location := locationOf academyInfo;
        DailySession.type := "Team Training";
        DailySession.participants := estimateParticipants (AcademyInfo.ageGroup academyInfo);
        DailySession.status := "scheduled";
        DailySession.academyName := AcademyInfo.academyName academyInfo;
        DailySession.sport := AcademyInfo.sport academyInfo;
        DailySession.ageGroup := AcademyInfo.ageGroup academyInfo;
        DailySession.difficulty := AcademyInfo.difficulty academyInfo;
        DailySession.activities := activities;
        DailySession.rawContent := join (String newline EmptyString) (ParsedDay.content day);
        DailySession.focus := focus;
        DailySession.details := Some
          {| SessionDetails.drills := drills;
             SessionDetails.objectives := objectives;
             SessionDetails.equipment := equipment;
             SessionDetails.notes :=
               join (String newline EmptyString) (ParsedDay.content day);
             SessionDetails.documentContent := extractSessionContent (ParsedDay.content day);
             SessionDetails.completionRate := 0;
             SessionDetails.week :=
               orStr (ParsedWeek.title week) ("Week " ++ ofZ (weekIndex + 1));
             SessionDetails.weekDescription :=
               join " " (firstN 3 (ParsedWeek.content week)) |}
     |}.

(** The body of the loop of lines 1085-1122, for the week at [weekIndex]:
    the daily sessions of the parsed days, or else one general session,
    and [totalDuration] accumulated as they are pushed. *)
Definition weekSessionOf (academyInfo : AcademyInfo.t) (week : ParsedWeek.t)
    (weekIndex : Z) : outcome WeekSession.t :=
  let content := VArr (ParsedWeek.content week) in
  description <- extractWeekDescription content ;;
  focus <- extractWeekFocus content ;;
  fromDays <-
    mapMi (fun day dayIndex => createDailySession day weekIndex dayIndex academyInfo week)
          0 (ParsedWeek.days week) ;;
  dailySessions <-
    match fromDays with
    | [] =>
        generalSession <-
          createGeneralWeekSession clock
            {| Week.title := ParsedWeek.title week; Week.content := content |}
            weekIndex academyInfo ;;
        Ok [generalSession]
    | _ => Ok fromDays
    end ;;
  Ok {| WeekSession.weekNumber := weekIndex + 1;
        WeekSession.title :=
          orOpt (cleanWeekTitle (ParsedWeek.title week))
                ("Week " ++ ofZ (weekIndex + 1) ++ " Training");
        WeekSession.description := description;
        WeekSession.dailySessions := dailySessions;
        WeekSession.totalDuration :=
          fold_left (fun total session => total + DailySession.duration session)
                    dailySessions 0;
        WeekSession.focus := focus;
        WeekSession.notes := Some (filter isNote (ParsedWeek.content week));
        WeekSession.academyName := AcademyInfo.academyName academyInfo;
        WeekSession.sport := AcademyInfo.sport academyInfo;
        WeekSession.weekSchedule :=
          ScheduleEntries (extractWeekScheduleInfo (ParsedWeek.content week)) |}.

(** Lines 1075-1145. *)
Definition extractWeeklySessions (text : string) (structure : ParsedStructure.t)
    (academyInfo : AcademyInfo.t) : outcome (list WeekSession.t) :=
  sessions <- mapMi (weekSessionOf academyInfo) 0 (ParsedStructure.weeks structure) ;;
  if (Z.ltb (Z.of_nat (List.length sessions)) 8
      && includes text "Week" && includes text "12")%bool
  then
    alternativeSessions <- attemptAlternativeWeekExtraction clock text academyInfo ;;
    if Z.gtb (Z.of_nat (List.length alternativeSessions)) (Z.of_nat (List.length sessions))
    then Ok alternativeSessions
    else Ok sessions
  else Ok sessions.

End LineBasedExtractor.

(** Lines 1336-1360. *)
Module SchedulingInfo.
Record t : Type := {
  frequency : string;
  days : list string;
  pattern : string;
  preferredTime : string
}.
End SchedulingInfo.

Definition extractSchedulingInfo (text : string) : SchedulingInfo.t :=
  let days :=
    unique (map (fun hit => toLowerCase (matched text hit))
                (execAll weekdayPattern text)) in
  let frequency :=
    if (includes text "twice" || includes text "2 times")%bool then "bi-weekly"
    else if (includes text "daily" || includes text "every day")%bool then "daily"
    else "weekly" in
  {| SchedulingInfo.frequency := frequency;
     SchedulingInfo.days := days;
     SchedulingInfo.pattern := ofZ (Z.of_nat (List.length days)) ++ " days per week";
     SchedulingInfo.preferredTime :=
       match extractTime text with
       | Some t => orStr t "08:00"
       | None => "08:00"
       end |}.

(** ** Statistics *)

(** [[...new Set(xs)]] for values that may be [undefined]. *)
Definition sameTag (a b : option string) : bool :=
  match a, b with
  | Some x, Some y => String.eqb x y
  | None, None => true
  | _, _ => false
  end.

Fixpoint distinctFrom (seen xs : list (option string)) : list (option string) :=
  match xs with
  | [] => []
  | x :: rest =>
      if existsb (sameTag x) seen then distinctFrom seen rest
      else x :: distinctFrom (x :: seen) rest
  end.

Definition distinct (xs : list (option string)) : list (option string) :=
  distinctFrom [] xs.

(** [Math.round(a / b)] for integers and a divisor that is not zero: the
    integer nearest to the quotient, the upper one at a tie. *)
Definition roundDiv (a b : Z) : Z := (2 * a + b) / (2 * b).

Module ExtractionStats.
Record t : Type := {
  totalWeeks : Z;
  totalSessions : Z;
  averageSessionsPerWeek : option Z;
  totalDuration : Z;
  sports : list string;
  ageGroups : list string;
  equipment : list (option string);
  focus : list (option string)
}.
End ExtractionStats.

(** Lines 1608-1627.  [averageSessionsPerWeek] is [None] when the
    division is by zero and the result no integer.  A session without
    [equipment] contributes [undefined], here [None], to the equipment
    list. *)
Definition getExtractionStats {Schedule : Type}
    (extractedData : ExtractionResult.t Schedule) : ExtractionStats.t :=
  let sessions := ExtractionResult.sessions extractedData in
  let allDaily := flat_map WeekSession.dailySessions sessions in
  {| ExtractionStats.totalWeeks := ExtractionResult.totalWeeks extractedData;
     ExtractionStats.totalSessions := ExtractionResult.totalSessions extractedData;
     ExtractionStats.averageSessionsPerWeek :=
       if Z.eqb (ExtractionResult.totalWeeks extractedData) 0 then None
       else Some (roundDiv (ExtractionResult.totalSessions extractedData)
                           (ExtractionResult.totalWeeks extractedData));
     ExtractionStats.totalDuration :=
       fold_left (fun sum week => sum + WeekSession.totalDuration week) sessions 0;
     ExtractionStats.sports :=
       [AcademyInfo.sport (ExtractionResult.academyInfo extractedData)];
     ExtractionStats.ageGroups :=
       [AcademyInfo.ageGroup (ExtractionResult.academyInfo extractedData)];
     ExtractionStats.equipment :=
       distinct (flat_map (fun session =>
                             match DailySession.details session with
                             | Some details => map Some (SessionDetails.equipment details)
                             | None => [None]
                             end) allDaily);
     ExtractionStats.focus :=
       distinct (flat_map (fun session => map Some (DailySession.focus session)) allDaily) |}.

(** ** The vocabulary of the properties *)

(** The strategy the dispatcher hands the document to. *)
Inductive Strategy : Type :=
| HighlyStructured      (** Strategy A *)
| PartialWeeks          (** Strategy B *)
| SessionGroups         (** Strategy C *)
| BasicStructure        (** Strategy D, document-implied week count *)
| Unstructured.         (** Strategy D', four weeks *)

(** The branch taken by lines 114-126 and, for [moderately_structured],
    by lines 174-183. *)
Definition selectStrategy (structureAnalysis : StructureAnalysis.t) : outcome Strategy :=
  level <- readLevel structureAnalysis ;;
  if levelIs level "highly_structured" then Ok HighlyStructured
  else if levelIs level "moderately_structured" then
    if Z.gtb (StructureAnalysis.totalWeeks (StructureAnalysis.weekStructure structureAnalysis)) 0
    then Ok PartialWeeks
    else if StructureAnalysis.hasStructuredSessions
              (StructureAnalysis.sessionStructure structureAnalysis)
    then Ok SessionGroups
    else Ok BasicStructure
  else if levelIs level "basic_structure" then Ok BasicStructure
  else Ok Unstructured.

Definition runStrategy (clock : Clock) (strategy : Strategy) (text : string)
    (structureAnalysis : StructureAnalysis.t) (academyInfo : AcademyInfo.t)
  : outcome (list WeekSession.t) :=
  match strategy with
  | HighlyStructured =>
      extractFromHighlyStructuredDocument clock text structureAnalysis academyInfo
  | PartialWeeks =>
      extractWithPartialWeekStructure clock text structureAnalysis academyInfo
  | SessionGroups =>
      Ok (extractWithSessionStructure clock text structureAnalysis academyInfo)
  | BasicStructure =>
      Ok (extractFromBasicStructuredDocument clock text structureAnalysis academyInfo)
  | Unstructured =>
      Ok (extractFromUnstructuredDocument clock text structureAnalysis academyInfo)
  end.

(** [organizationLevel.level], when there is an [organizationLevel]. *)
Definition levelOf (structureAnalysis : StructureAnalysis.t) : option (option string) :=
  option_map StructureAnalysis.level (StructureAnalysis.organizationLevel structureAnalysis).

Definition totalWeeksOf (structureAnalysis : StructureAnalysis.t) : Z :=
  StructureAnalysis.totalWeeks (StructureAnalysis.weekStructure structureAnalysis).

Definition hasStructuredSessionsOf (structureAnalysis : StructureAnalysis.t) : bool :=
  StructureAnalysis.hasStructuredSessions (StructureAnalysis.sessionStructure structureAnalysis).

Definition weekNumbers (sessions : list WeekSession.t) : list Z :=
  map WeekSession.weekNumber sessions.

Definition durationConsistent (week : WeekSession.t) : Prop :=
  WeekSession.totalDuration week = sumDurations (WeekSession.dailySessions week).

Definition hasDailySession (week : WeekSession.t) : Prop :=
  WeekSession.dailySessions week <> [].

Definition daysOf (week : WeekSession.t) : list string :=
  map DailySession.day (WeekSession.dailySessions week).

Definition threeDayPattern (week : WeekSession.t) : Prop :=
  daysOf week = ["monday"; "wednesday"; "friday"]
  /\ Forall (fun session => DailySession.duration session = 90)
            (WeekSession.dailySessions week).

Definition knownLevel (level : option string) : bool :=
  (levelIs level "highly_structured" || levelIs level "moderately_structured"
   || levelIs level "basic_structure")%bool.

(** What Strategy B makes of the week [week] of its loop. *)
Definition partialWeekOf (week : Z) (session : WeekSession.t) : Prop :=
  WeekSession.weekNumber session = week
  /\ durationConsistent session
  /\ hasDailySession session.

(** The order in which [sortByKey] leaves its result. *)
Definition keyOrder {A : Type} (key : A -> Z) (a b : A) : Prop := key a <= key b.

(** The days of Strategy C, by position in the week. *)
Definition rotation : list string :=
  ["monday"; "wednesday"; "friday"; "tuesday"; "thursday"; "saturday"; "sunday"].

(** The value of a plan field when it is set and not empty. *)
Definition planValue (field : option string) : option string :=
  match field with
  | Some value => if isEmpty value then None else Some value
  | None => None
  end.

(** ** Sample inputs *)

Definition sampleAcademy : AcademyInfo.t :=
  {| AcademyInfo.academyName := "Training Academy";
     AcademyInfo.sport := "soccer";
     AcademyInfo.ageGroup := "Youth";
     AcademyInfo.program := "Training Program";
     AcademyInfo.location := "Training Facility";
     AcademyInfo.difficulty := "intermediate" |}.

Definition samplePlan : TrainingPlan.t :=
  {| TrainingPlan.id := "plan-1";
     TrainingPlan.title := None;
     TrainingPlan.category := None;
     TrainingPlan.difficulty := None;
     TrainingPlan.academyName := None |}.

Definition sampleDocument : Document.t := {| Document.id := "doc-1" |}.

(** An analysis with the given organisation level, week structure and
    session structure, and nothing else of note. *)
Definition analysisOf (organizationLevel : option StructureAnalysis.OrganizationLevel)
    (totalWeeks : Z) (identifiedWeeks : list Z) (weekTitles : list WeekTitle.t)
    (hasStructuredSessions : bool) (totalSessions : Z)
    (sessionDetails : list SessionDetail.t) : StructureAnalysis.t :=
  {| StructureAnalysis.organizationLevel := organizationLevel;
     StructureAnalysis.weekStructure :=
       {| StructureAnalysis.totalWeeks := totalWeeks;
          StructureAnalysis.identifiedWeeks := identifiedWeeks;
          StructureAnalysis.weekTitles := weekTitles |};
     StructureAnalysis.dayStructure := {| StructureAnalysis.identifiedDays := [] |};
     StructureAnalysis.sessionStructure :=
       {| StructureAnalysis.hasStructuredSessions := hasStructuredSessions;
          StructureAnalysis.totalSessions := totalSessions;
          StructureAnalysis.sessionDetails := sessionDetails |};
     StructureAnalysis.durationAnalysis := {| StructureAnalysis.averageDuration := 0 |};
     StructureAnalysis.schedulePattern := None;
     StructureAnalysis.documentType := "" |}.

Definition levelNamed (name : string) : option StructureAnalysis.OrganizationLevel :=
  Some {| StructureAnalysis.level := Some name; StructureAnalysis.score := 0 |}.

(** A document classified as highly structured in which no week title
    was located. *)
Definition highlyStructuredWithoutTitles : StructureAnalysis.t :=
  analysisOf (levelNamed "highly_structured") 0 [] [] false 0 [].

Definition unstructuredAnalysis : StructureAnalysis.t :=
  analysisOf (levelNamed "unstructured") 0 [] [] false 0 [].

Definition analysisWithoutLevel : StructureAnalysis.t :=
  analysisOf None 0 [] [] false 0 [].

(** Two moderately structured analyses without weeks and with structured
    sessions, which differ in everything the dispatcher does not read. *)
Definition sessionListAnalysis : StructureAnalysis.t :=
  analysisOf (levelNamed "moderately_structured") 0 [] [] true 4 [].

Definition otherSessionListAnalysis : StructureAnalysis.t :=
  analysisOf
    (Some {| StructureAnalysis.level := Some "moderately_structured";
             StructureAnalysis.score := 55 |})
    0 [3]
    [{| WeekTitle.number := 3; WeekTitle.title := "Week 3"; WeekTitle.position := 10 |}]
    true 9
    [{| SessionDetail.text := "Session 1: passing"; SessionDetail.type := "technical" |}].

(** A moderately structured analysis of four sessions, all of them
    detailed. *)
Definition fourSessionAnalysis : StructureAnalysis.t :=
  analysisOf (levelNamed "moderately_structured") 0 [] [] true 4
    [{| SessionDetail.text := "Session 1: passing"; SessionDetail.type := "technical" |};
     {| SessionDetail.text := "Session 2: shooting"; SessionDetail.type := "technical" |};
     {| SessionDetail.text := "Session 3: pressing"; SessionDetail.type := "tactical" |};
     {| SessionDetail.text := "Session 4: match play"; SessionDetail.type := "game" |}].

(** A text that names three weeks on one line, none of them at the start
    of a line. *)
Definition inlineWeeksText : string := "Programme: Week 1, Week 2 and Week 12".

(** A two-week document with its week titles located. *)
Definition twoWeekText : string :=
  "Week 1" ++ String newline "Monday 60 minutes passing drills"
  ++ String newline "Week 2" ++ String newline "Wednesday 90 minutes shooting".

Definition twoWeekAnalysis : StructureAnalysis.t :=
  analysisOf (levelNamed "highly_structured") 2 [1; 2]
    [{| WeekTitle.number := 1; WeekTitle.title := "Week 1"; WeekTitle.position := 0 |};
     {| WeekTitle.number := 2; WeekTitle.title := "Week 2"; WeekTitle.position := 40 |}]
    false 0 [].

(** A moderately structured analysis of two weeks, the first of which is
    explicit in the text or not. *)
Definition twoWeeksFirstExplicit : StructureAnalysis.t :=
  analysisOf (levelNamed "moderately_structured") 2 [1] [] false 0 [].

Definition twoWeeksNoneExplicit : StructureAnalysis.t :=
  analysisOf (levelNamed "moderately_structured") 2 [] [] false 0 [].

(** Monday 2024-01-01, 12:00 UTC, on a device that runs on UTC. *)
Definition noonUTC : Clock :=
  {| nowMs := 19723 * msPerDay + 12 * 3600000; offsetMinutes := 0 |}.

(** Monday 2024-01-01, 01:00 local time, on a device three hours ahead of
    UTC: the instant 2023-12-31T22:00:00Z. *)
Definition afterMidnightEastOfUTC : Clock :=
  {| nowMs := 19722 * msPerDay + 22 * 3600000; offsetMinutes := 180 |}.

(** A week section without any day marker. *)
Definition overviewSection : WeekSection.t :=
  {| WeekSection.weekNumber := 1;
     WeekSection.title := "Week 1";
     WeekSection.content := "Week 1 overview of the programme";
     WeekSection.startPosition := 0;
     WeekSection.endPosition := 32 |}.

(** Collaborators for the examples: a reader that returns the empty text,
    an analyser that fails, an analyser that returns a given analysis, an
    enhancer that fails, an optimiser without a schedule, and an error
    wrapper that puts the label in front of the message. *)
Definition readEmptyText : Document.t -> outcome string := fun _ => Ok "".

Definition failingAnalyser : string -> Document.t -> outcome StructureAnalysis.t :=
  fun _ _ => Throw (External "structure analysis failed").

Definition analyserReturning (structureAnalysis : StructureAnalysis.t)
  : string -> Document.t -> outcome StructureAnalysis.t :=
  fun _ _ => Ok structureAnalysis.

Definition failingEnhancer
  : list WeekSession.t -> EnhancementContext.t -> outcome (list WeekSession.t) :=
  fun _ _ => Throw (External "enhancement failed").

Definition noSchedule : TrainingPlan.t -> Preferences.t -> outcome (option unit) :=
  fun _ _ => Ok None.

Definition labelError (e : error) (label : string) : error :=
  match e with
  | TypeError msg => TypeError (label ++ ": " ++ msg)
  | RangeError msg => RangeError (label ++ ": " ++ msg)
  | External what => External (label ++ ": " ++ what)
  end.

(** ** The vocabulary of the further properties *)

(** A reading of the local clock that the device shows at some instant:
    the offset given to the reading is the offset in force at the instant
    the reading is turned into.  The readings a zone change skips are the
    ones that are not readable. *)
Definition readable (d : Zoned.Device) (l : Z) : Prop :=
  Zoned.offsetAt d (Zoned.utcOf d l) = Zoned.offsetOfLocal d l.

(** The local time of day of the call is readable on every date. *)
Definition sameTimeReadable (d : Zoned.Device) : Prop :=
  forall k, readable d (Zoned.localTime d (Zoned.now d) + k * msPerDay).

(** The device of a clock: the same offset at every instant and at every
    reading. *)
Definition deviceOf (clock : Clock) : Zoned.Device :=
  {| Zoned.now := nowMs clock;
     Zoned.offsetAt := fun _ => offsetMinutes clock * 60000;
     Zoned.offsetOfLocal := fun _ => offsetMinutes clock * 60000 |}.

(** All characters of a string satisfy a test. *)
Fixpoint allChars (p : ascii -> bool) (s : string) : bool :=
  match s with
  | EmptyString => true
  | String c r => (p c && allChars p r)%bool
  end.

(** Every text a matcher matches is made of characters that pass a test. *)
Definition confined (p : ascii -> bool) (m : matcher) : Prop :=
  forall s n, m s = Some n -> allChars p (take n s) = true.

(** The characters that are none of the lower-case letters i, m and o. *)
Definition ageCharacter (c : ascii) : bool :=
  negb (Ascii.eqb c "i" || Ascii.eqb c "m" || Ascii.eqb c "o")%bool.

(** The text has a header of week [n]: [/week\s*n/i] matches somewhere. *)
Definition mentionsWeek (text : string) (n : Z) : bool := test (weekHeader n) text.

(** A week that Strategy B reads from the text. *)
Definition readFromText (text : string) (structureAnalysis : StructureAnalysis.t)
    (week : Z) : bool :=
  (existsb (Z.eqb week)
     (StructureAnalysis.identifiedWeeks (StructureAnalysis.weekStructure structureAnalysis))
   && mentionsWeek text week)%bool.

(** A daily session at position [k] of week [w] as the generated
    strategies build it. *)
Definition regularSession (clock : Clock) (w : Z) (k : nat) (session : DailySession.t)
  : Prop :=
  DailySession.weekNumber session = w
  /\ DailySession.dayNumber session = Z.of_nat k + 1
  /\ In (DailySession.day session) dayNames
  /\ DailySession.date session = calculateSessionDate clock w (DailySession.day session)
  /\ DailySession.duration session = 90
  /\ DailySession.time session = "08:00"
  /\ DailySession.status session = "scheduled".

Definition regularWeek (clock : Clock) (week : WeekSession.t) : Prop :=
  WeekSession.totalDuration week
  = 90 * Z.of_nat (List.length (WeekSession.dailySessions week))
  /\ forall k session,
       nth_error (WeekSession.dailySessions week) k = Some session ->
       regularSession clock (WeekSession.weekNumber week) k session.

(** The lines a parsed week holds: its own, then those of its days. *)
Definition linesOfWeek (week : ParsedWeek.t) : list string :=
  (ParsedWeek.content week ++ List.concat (map ParsedDay.content (ParsedWeek.days week)))%list.

Definition allLines (weeks : list ParsedWeek.t) : list string :=
  List.concat (map linesOfWeek weeks).

(** The state of the parser has a day open exactly when its current week
    has a day. *)
Definition wellFormed (state : ParserState.t) : Prop :=
  match ParserState.currentWeek state with
  | Some week =>
      if ParserState.dayOpen state then ParsedWeek.days week <> []
      else ParsedWeek.days week = []
  | None => ParserState.dayOpen state = false
  end.

(** The lines the parser takes for headers of a week, each line tested
    with the line that follows it. *)
Fixpoint headerLines (lines : list string) : list string :=
  match lines with
  | [] => []
  | line :: rest =>
      if isHeaderOfWeek line (hd "" rest) then line :: headerLines rest
      else headerLines rest
  end.

(** The lines from the first header on. *)
Fixpoint fromFirstHeader (lines : list string) : list string :=
  match lines with
  | [] => []
  | line :: rest =>
      if isHeaderOfWeek line (hd "" rest) then lines else fromFirstHeader rest
  end.

(** Collaborators for the further examples: an optimiser that always has
    a schedule and an enhancer that returns the sessions it is given. *)
Definition alwaysSchedules : TrainingPlan.t -> Preferences.t -> outcome (option unit) :=
  fun _ _ => Ok (Some tt).

Definition returningEnhancer
  : list WeekSession.t -> EnhancementContext.t -> outcome (list WeekSession.t) :=
  fun sessions _ => Ok sessions.

(** An analysis with a recommended frequency and identified days. *)
Definition analysisWithFrequency (frequency : Z) (days : list string) : StructureAnalysis.t :=
  {| StructureAnalysis.organizationLevel := levelNamed "unstructured";
     StructureAnalysis.weekStructure :=
       {| StructureAnalysis.totalWeeks := 0;
          StructureAnalysis.identifiedWeeks := [];
          StructureAnalysis.weekTitles := [] |};
     StructureAnalysis.dayStructure := {| StructureAnalysis.identifiedDays := days |};
     StructureAnalysis.sessionStructure :=
       {| StructureAnalysis.hasStructuredSessions := false;
          StructureAnalysis.totalSessions := 0;
          StructureAnalysis.sessionDetails := [] |};
     StructureAnalysis.durationAnalysis := {| StructureAnalysis.averageDuration := 0 |};
     StructureAnalysis.schedulePattern :=
       Some {| StructureAnalysis.recommendedFrequency := frequency |};
     StructureAnalysis.documentType := "" |}.

Definition hourMs : Z := 3600000.

(** A device in New York at 2024-03-10T00:30:00Z, the evening of Saturday
    9 March there: five hours behind UTC until 07:00Z of 10 March (day
    19792), four hours behind from then on; the local readings from 02:00
    to 03:00 of that day are skipped and read with the earlier offset. *)
Definition springForward : Z := 19792 * msPerDay + 7 * hourMs.

Definition newYork : Zoned.Device :=
  {| Zoned.now := 19792 * msPerDay + 30 * 60000;
     Zoned.offsetAt := fun t => if Z.ltb t springForward then - 5 * hourMs else - 4 * hourMs;
     Zoned.offsetOfLocal :=
       fun l => if Z.ltb l (springForward - 4 * hourMs) then - 5 * hourMs else - 4 * hourMs |}.

(** A device in London at 2024-03-25T00:30:00Z, a Monday: on UTC until
    01:00Z of 31 March (day 19813), one hour ahead from then on. *)
Definition summerTime : Z := 19813 * msPerDay + hourMs.

Definition london : Zoned.Device :=
  {| Zoned.now := 19807 * msPerDay + 30 * 60000;
     Zoned.offsetAt := fun t => if Z.ltb t summerTime then 0 else hourMs;
     Zoned.offsetOfLocal := fun l => if Z.ltb l (summerTime + hourMs) then 0 else hourMs |}.

(** ** Loops that can raise *)

Section Loops.

Context {A B : Type}.

Lemma mapM_ok (f : A -> outcome B) (xs : list A) (ys : list B) :
  mapM f xs = Ok ys -> Forall2 (fun x y => f x = Ok y) xs ys.
Proof.
  revert ys. induction xs as [| x rest IH]; intros ys H; simpl in H.
  - injection H as <-. constructor.
  - destruct (f x) as [y |] eqn:Hx; simpl in H; [| discriminate].
    destruct (mapM f rest) as [ys' |] eqn:Hrest; simpl in H; [| discriminate].
    injection H as <-. constructor; auto.
Qed.

Lemma mapMi_ok (f : A -> Z -> outcome B) (i : Z) (xs : list A) (ys : list B) :
  mapMi f i xs = Ok ys -> List.length ys = List.length xs.
Proof.
  revert i ys. induction xs as [| x rest IH]; intros i ys H; simpl in H.
  - injection H as <-. reflexivity.
  - destruct (f x i) as [y |]; simpl in H; [| discriminate].
    destruct (mapMi f (i + 1) rest) as [ys' |] eqn:Hrest; simpl in H; [| discriminate].
    injection H as <-. simpl. f_equal. eauto.
Qed.

(** A loop whose body always raises completes only on the empty list. *)
Lemma mapMi_raising (f : A -> Z -> outcome B) (i : Z) (xs : list A) (ys : list B) :
  (forall x k, exists e, f x k = Throw e) ->
  mapMi f i xs = Ok ys -> xs = [] /\ ys = [].
Proof.
  intros Hf H. destruct xs as [| x rest]; simpl in H.
  - injection H as <-. split; reflexivity.
  - destruct (Hf x i) as [e He]. rewrite He in H. discriminate.
Qed.

Lemma mapMi_first_raises (f : A -> Z -> outcome B) (i : Z) (x : A) (rest : list A)
    (e : error) :
  f x i = Throw e -> mapMi f i (x :: rest) = Throw e.
Proof. intros H. simpl. rewrite H. reflexivity. Qed.

Lemma mapi_length (f : A -> Z -> B) (i : Z) (xs : list A) :
  List.length (mapi f i xs) = List.length xs.
Proof. revert i. induction xs; intros i; simpl; auto. Qed.

Lemma mapi_nth_error (f : A -> Z -> B) (i : Z) (xs : list A) (k : nat) (y : B) :
  nth_error (mapi f i xs) k = Some y ->
  exists x, nth_error xs k = Some x /\ y = f x (i + Z.of_nat k).
Proof.
  revert i k. induction xs as [| x rest IH]; intros i k H.
  - destruct k; discriminate.
  - destruct k as [| k]; simpl in H.
    + injection H as <-. exists x. split; [reflexivity |].
      f_equal. simpl. lia.
    + apply IH in H. destruct H as [x' [Hx' ->]]. exists x'. split; [exact Hx' |].
      f_equal. lia.
Qed.

End Loops.

(** ** Week numbers of a counting loop *)

Lemma seq_increasing (start count : nat) :
  StronglySorted Z.lt (map Z.of_nat (seq start count)).
Proof.
  revert start. induction count as [| n IH]; intros start; simpl.
  - constructor.
  - constructor; [apply IH |].
    apply Forall_forall. intros z Hz.
    apply in_map_iff in Hz. destruct Hz as [k [<- Hk]].
    apply in_seq in Hk. lia.
Qed.

Lemma weeksUpTo_increasing (n : Z) : StronglySorted Z.lt (weeksUpTo n).
Proof. apply seq_increasing. Qed.

Lemma weeksUpTo_length (n : Z) : List.length (weeksUpTo n) = Z.to_nat n.
Proof. unfold weeksUpTo. rewrite length_map, length_seq. reflexivity. Qed.

Lemma weeksUpTo_nonempty (n : Z) : 1 <= n -> weeksUpTo n <> [].
Proof.
  intros Hn H. apply (f_equal (@List.length Z)) in H.
  rewrite weeksUpTo_length in H. simpl in H. lia.
Qed.

Lemma weeksUpTo_positive (n w : Z) : In w (weeksUpTo n) -> 1 <= w <= n.
Proof.
  unfold weeksUpTo. intros H. apply in_map_iff in H.
  destruct H as [k [<- Hk]]. apply in_seq in Hk. lia.
Qed.

(** ** The dispatcher *)

Lemma dispatcher_runs_selected_strategy (clock : Clock) (text : string)
    (structureAnalysis : StructureAnalysis.t) (academyInfo : AcademyInfo.t) :
  extractSessionsWithStructureAwareness clock text structureAnalysis academyInfo
  = (strategy <- selectStrategy structureAnalysis ;;
     runStrategy clock strategy text structureAnalysis academyInfo).
Proof.
  unfold extractSessionsWithStructureAwareness, selectStrategy,
    extractFromModeratelyStructuredDocument.
  destruct (readLevel structureAnalysis) as [level |]; simpl; [| reflexivity].
  destruct (levelIs level "highly_structured"); [reflexivity |].
  destruct (levelIs level "moderately_structured").
  - destruct (Z.gtb _ 0); [reflexivity |].
    destruct (StructureAnalysis.hasStructuredSessions _); reflexivity.
  - destruct (levelIs level "basic_structure"); reflexivity.
Qed.

Lemma readLevel_levelOf (sa1 sa2 : StructureAnalysis.t) :
  levelOf sa1 = levelOf sa2 -> readLevel sa1 = readLevel sa2.
Proof.
  unfold levelOf, readLevel.
  destruct (StructureAnalysis.organizationLevel sa1),
           (StructureAnalysis.organizationLevel sa2); simpl; congruence.
Qed.

(** C8.  The dispatcher runs the strategy given by [selectStrategy], and
    [selectStrategy] reads nothing but [organizationLevel.level],
    [weekStructure.totalWeeks] and [sessionStructure.hasStructuredSessions]:
    two analyses that agree on the three select the same strategy (or raise
    the same error when [organizationLevel] is missing), whatever the text,
    the academy information and the rest of the analyses. *)
Theorem C8_dispatcher_is_a_function_of_three_fields
    (sa1 sa2 : StructureAnalysis.t) :
  levelOf sa1 = levelOf sa2 ->
  totalWeeksOf sa1 = totalWeeksOf sa2 ->
  hasStructuredSessionsOf sa1 = hasStructuredSessionsOf sa2 ->
  selectStrategy sa1 = selectStrategy sa2
  /\ forall clock text1 text2 academyInfo1 academyInfo2,
       extractSessionsWithStructureAwareness clock text1 sa1 academyInfo1
       = (strategy <- selectStrategy sa1 ;;
          runStrategy clock strategy text1 sa1 academyInfo1)
       /\ extractSessionsWithStructureAwareness clock text2 sa2 academyInfo2
          = (strategy <- selectStrategy sa1 ;;
             runStrategy clock strategy text2 sa2 academyInfo2).
Proof.
  intros Hlevel Hweeks Hsessions.
  assert (Hsame : selectStrategy sa1 = selectStrategy sa2).
  { unfold selectStrategy.
    unfold totalWeeksOf in Hweeks. unfold hasStructuredSessionsOf in Hsessions.
    rewrite (readLevel_levelOf _ _ Hlevel), Hweeks, Hsessions. reflexivity. }
  split; [exact Hsame |].
  intros clock text1 text2 academyInfo1 academyInfo2. split.
  - apply dispatcher_runs_selected_strategy.
  - rewrite Hsame. apply dispatcher_runs_selected_strategy.
Qed.

Lemma C8_dispatcher_is_a_function_of_three_fields_witness :
  levelOf sessionListAnalysis = levelOf otherSessionListAnalysis
  /\ totalWeeksOf sessionListAnalysis = totalWeeksOf otherSessionListAnalysis
  /\ hasStructuredSessionsOf sessionListAnalysis
     = hasStructuredSessionsOf otherSessionListAnalysis
  /\ selectStrategy sessionListAnalysis = selectStrategy otherSessionListAnalysis
  /\ selectStrategy sessionListAnalysis = Ok SessionGroups.
Proof.
  split; [reflexivity |]. split; [reflexivity |]. split; [reflexivity |].
  split; [| reflexivity].
  apply (C8_dispatcher_is_a_function_of_three_fields sessionListAnalysis
           otherSessionListAnalysis); reflexivity.
Defined.

(** ** Strategy A *)

Lemma insertByKey_length {A : Type} (key : A -> Z) (x : A) (xs : list A) :
  List.length (insertByKey key x xs) = S (List.length xs).
Proof.
  induction xs as [| y rest IH]; simpl; [reflexivity |].
  destruct (Z.leb (key x) (key y)); simpl; auto.
Qed.

Lemma sortByKey_length {A : Type} (key : A -> Z) (xs : list A) :
  List.length (sortByKey key xs) = List.length xs.
Proof.
  induction xs as [| x rest IH]; simpl; [reflexivity |].
  rewrite insertByKey_length. auto.
Qed.

Lemma sectionsFrom_length (text : string) (weekTitles : list WeekTitle.t) :
  List.length (sectionsFrom text weekTitles) = List.length weekTitles.
Proof. induction weekTitles; simpl; auto. Qed.

Lemma splitTextByWeeks_length (text : string)
    (weekStructure : StructureAnalysis.WeekStructure) :
  List.length (splitTextByWeeks text weekStructure)
  = List.length (StructureAnalysis.weekTitles weekStructure).
Proof.
  unfold splitTextByWeeks. rewrite sectionsFrom_length. apply sortByKey_length.
Qed.

(** One week title is enough for Strategy A to raise: the description of
    the first section is asked of the array-based [extractWeekDescription]
    with the section's string. *)
Lemma highly_structured_raises_on_a_title (clock : Clock) (text : string)
    (structureAnalysis : StructureAnalysis.t) (academyInfo : AcademyInfo.t) :
  StructureAnalysis.weekTitles (StructureAnalysis.weekStructure structureAnalysis) <> [] ->
  extractFromHighlyStructuredDocument clock text structureAnalysis academyInfo
  = Throw (notAFunction "content.filter").
Proof.
  intros Htitles. unfold extractFromHighlyStructuredDocument.
  destruct (splitTextByWeeks text (StructureAnalysis.weekStructure structureAnalysis))
    as [| section rest] eqn:Hsplit.
  - apply (f_equal (@List.length WeekSection.t)) in Hsplit.
    rewrite splitTextByWeeks_length in Hsplit.
    destruct (StructureAnalysis.weekTitles _); [congruence | discriminate].
  - reflexivity.
Qed.

(** The two-week document: both titles are located, and the first
    section already raises. *)
Example two_week_document_raises :
  map WeekSection.content (splitTextByWeeks twoWeekText
                             (StructureAnalysis.weekStructure twoWeekAnalysis))
  = ["Week 1" ++ String newline "Monday 60 minutes passing drills" ++ String newline "";
     "Week 2" ++ String newline "Wednesday 90 minutes shooting"]
  /\ extractSessionsWithStructureAwareness noonUTC twoWeekText twoWeekAnalysis sampleAcademy
     = Throw (TypeError "content.filter is not a function").
Proof. split; reflexivity. Qed.

Lemma highly_structured_returns (clock : Clock) (text : string)
    (structureAnalysis : StructureAnalysis.t) (academyInfo : AcademyInfo.t)
    (sessions : list WeekSession.t) :
  extractFromHighlyStructuredDocument clock text structureAnalysis academyInfo = Ok sessions ->
  sessions = []
  /\ StructureAnalysis.weekTitles (StructureAnalysis.weekStructure structureAnalysis) = [].
Proof.
  intros H.
  destruct (StructureAnalysis.weekTitles (StructureAnalysis.weekStructure structureAnalysis))
    as [| t rest] eqn:Htitles.
  - split; [| reflexivity].
    unfold extractFromHighlyStructuredDocument, splitTextByWeeks in H.
    rewrite Htitles in H. simpl in H. congruence.
  - rewrite highly_structured_raises_on_a_title in H; [discriminate |].
    rewrite Htitles. discriminate.
Qed.

(** ** Generated sessions *)

Lemma weekNumbers_of_map (f : Z -> WeekSession.t) (weeks : list Z) :
  (forall w, WeekSession.weekNumber (f w) = w) ->
  weekNumbers (map f weeks) = weeks.
Proof.
  intros Hf. unfold weekNumbers. rewrite map_map.
  rewrite (map_ext _ (fun w => w)); [apply map_id | exact Hf].
Qed.

Lemma generateDefaultWeekSessions_pattern (clock : Clock) (weekNumber : Z)
    (academyInfo : AcademyInfo.t) :
  map DailySession.day (generateDefaultWeekSessions clock weekNumber academyInfo)
  = ["monday"; "wednesday"; "friday"]
  /\ Forall (fun session => DailySession.duration session = 90)
            (generateDefaultWeekSessions clock weekNumber academyInfo).
Proof. split; [reflexivity | repeat constructor]. Qed.

Lemma basic_sessions_nonempty (clock : Clock) (weekNumber : Z)
    (academyInfo : AcademyInfo.t) (days : list string) :
  days <> [] ->
  mapi (fun day index => createBasicSession clock weekNumber (index + 1) day academyInfo)
       0 days <> [].
Proof. destruct days; [congruence | discriminate]. Qed.

Lemma extractSessionsForSpecificWeek_nonempty (clock : Clock) (text : string)
    (weekNumber : Z) (academyInfo : AcademyInfo.t) :
  extractSessionsForSpecificWeek clock text weekNumber academyInfo <> [].
Proof.
  unfold extractSessionsForSpecificWeek.
  destruct (weekBlock text weekNumber) as [weekContent |]; [| discriminate].
  destruct (map _ (execAll weekdayPattern weekContent)) as [| day days] eqn:Hdays;
    discriminate.
Qed.

(** ** Strategy B *)

Lemma partial_weeks_returns (clock : Clock) (text : string)
    (structureAnalysis : StructureAnalysis.t) (academyInfo : AcademyInfo.t)
    (sessions : list WeekSession.t) :
  extractWithPartialWeekStructure clock text structureAnalysis academyInfo = Ok sessions ->
  Forall2 partialWeekOf
    (weeksUpTo (orZ (totalWeeksOf structureAnalysis) 12)) sessions.
Proof.
  intros H. unfold extractWithPartialWeekStructure in H.
  apply mapM_ok in H. unfold totalWeeksOf.
  eapply Forall2_impl; [| exact H].
  intros week session Hbody. simpl in Hbody.
  destruct (existsb (Z.eqb week) _).
  - destruct (extractWeekFocusByNumber text week) as [focus |]; simpl in Hbody;
      [| discriminate].
    injection Hbody as <-. unfold partialWeekOf, durationConsistent, hasDailySession.
    simpl. repeat split. apply extractSessionsForSpecificWeek_nonempty.
  - simpl in Hbody. injection Hbody as <-.
    unfold partialWeekOf, durationConsistent, hasDailySession.
    simpl. repeat split. discriminate.
Qed.

(** Strategy B returns when no week of the loop is explicit, or when the
    explicit week has no header in the text; it raises when an explicit
    week has one, the focus of its block being asked of the array-based
    [extractWeekFocus] with a string. *)
Example partial_weeks_generated :
  exists sessions,
    extractWithPartialWeekStructure noonUTC twoWeekText twoWeeksNoneExplicit sampleAcademy
    = Ok sessions
    /\ weekNumbers sessions = [1; 2]
    /\ map daysOf sessions = repeat ["monday"; "wednesday"; "friday"] 2
    /\ map WeekSession.totalDuration sessions = [270; 270].
Proof. eexists. split; [reflexivity |]. repeat split. Qed.

Example partial_weeks_explicit_without_header :
  exists sessions,
    extractWithPartialWeekStructure noonUTC "Monday and Friday" twoWeeksFirstExplicit
      sampleAcademy = Ok sessions
    /\ map WeekSession.focus sessions = [["general training"]; ["passing"]].
Proof. eexists. split; reflexivity. Qed.

Example partial_weeks_explicit_with_header :
  extractWithPartialWeekStructure noonUTC twoWeekText twoWeeksFirstExplicit sampleAcademy
  = Throw (TypeError "content.join is not a function").
Proof. reflexivity. Qed.

Lemma Forall2_weekNumbers (weeks : list Z) (sessions : list WeekSession.t) :
  Forall2 partialWeekOf weeks sessions -> weekNumbers sessions = weeks.
Proof.
  induction 1 as [| w s ws ss [Hw _] _ IH]; simpl; [reflexivity |].
  rewrite Hw. f_equal. exact IH.
Qed.

Lemma Forall2_right {A B : Type} (R : A -> B -> Prop) (P : B -> Prop)
    (xs : list A) (ys : list B) :
  (forall x y, R x y -> P y) -> Forall2 R xs ys -> Forall P ys.
Proof. intros HR. induction 1; constructor; eauto. Qed.

(** ** Strategies C, D and D' *)

Lemma session_groups_weekNumbers (clock : Clock) (text : string)
    (structureAnalysis : StructureAnalysis.t) (academyInfo : AcademyInfo.t) :
  weekNumbers (extractWithSessionStructure clock text structureAnalysis academyInfo)
  = weeksUpTo
      (ceilDiv (StructureAnalysis.totalSessions
                  (StructureAnalysis.sessionStructure structureAnalysis)) 3).
Proof. apply weekNumbers_of_map. reflexivity. Qed.

Lemma session_groups_consistent (clock : Clock) (text : string)
    (structureAnalysis : StructureAnalysis.t) (academyInfo : AcademyInfo.t) :
  Forall durationConsistent
    (extractWithSessionStructure clock text structureAnalysis academyInfo).
Proof.
  apply Forall_forall. intros week Hweek.
  apply in_map_iff in Hweek. destruct Hweek as [w [<- _]]. reflexivity.
Qed.

Lemma basic_weekNumbers (clock : Clock) (text : string)
    (structureAnalysis : StructureAnalysis.t) (academyInfo : AcademyInfo.t) :
  weekNumbers (extractFromBasicStructuredDocument clock text structureAnalysis academyInfo)
  = weeksUpTo (orZ (totalWeeksOf structureAnalysis) 8).
Proof. apply weekNumbers_of_map. reflexivity. Qed.

Lemma basic_weeks (clock : Clock) (text : string)
    (structureAnalysis : StructureAnalysis.t) (academyInfo : AcademyInfo.t) :
  Forall (fun week => durationConsistent week /\ threeDayPattern week)
    (extractFromBasicStructuredDocument clock text structureAnalysis academyInfo).
Proof.
  apply Forall_forall. intros week Hweek.
  apply in_map_iff in Hweek. destruct Hweek as [w [<- _]].
  split; [reflexivity |]. apply generateDefaultWeekSessions_pattern.
Qed.

Lemma unstructured_weekNumbers (clock : Clock) (text : string)
    (structureAnalysis : StructureAnalysis.t) (academyInfo : AcademyInfo.t) :
  weekNumbers (extractFromUnstructuredDocument clock text structureAnalysis academyInfo)
  = [1; 2; 3; 4].
Proof. reflexivity. Qed.

Lemma unstructured_weeks (clock : Clock) (text : string)
    (structureAnalysis : StructureAnalysis.t) (academyInfo : AcademyInfo.t) :
  Forall (fun week => durationConsistent week /\ threeDayPattern week)
    (extractFromUnstructuredDocument clock text structureAnalysis academyInfo).
Proof.
  repeat constructor.
Qed.

Lemma threeDayPattern_hasDailySession (week : WeekSession.t) :
  threeDayPattern week -> hasDailySession week.
Proof.
  intros [Hdays _] Hnil. unfold daysOf in Hdays. rewrite Hnil in Hdays. discriminate.
Qed.

(** ** The alternative week extraction *)

Lemma alternative_extraction_weeks (clock : Clock) (text : string)
    (academyInfo : AcademyInfo.t) (sessions : list WeekSession.t) :
  attemptAlternativeWeekExtraction clock text academyInfo = Ok sessions ->
  Forall (fun week => durationConsistent week
                      /\ List.length (WeekSession.dailySessions week) = 1%nat
                      /\ Forall (fun daily => DailySession.duration daily = 120)
                                (WeekSession.dailySessions week))
         sessions.
Proof.
  unfold attemptAlternativeWeekExtraction. intros Hrun.
  apply mapM_ok in Hrun.
  eapply Forall2_right; [| exact Hrun].
  intros entry week Hweek. simpl in Hweek. injection Hweek as <-.
  split; [reflexivity |]. split; [reflexivity |].
  constructor; [reflexivity | constructor].
Qed.

(** ** Properties of the returned week list *)

Lemma dispatcher_returns (clock : Clock) (text : string)
    (structureAnalysis : StructureAnalysis.t) (academyInfo : AcademyInfo.t)
    (sessions : list WeekSession.t) :
  extractSessionsWithStructureAwareness clock text structureAnalysis academyInfo
  = Ok sessions ->
  exists strategy,
    selectStrategy structureAnalysis = Ok strategy
    /\ runStrategy clock strategy text structureAnalysis academyInfo = Ok sessions.
Proof.
  rewrite dispatcher_runs_selected_strategy.
  destruct (selectStrategy structureAnalysis) as [strategy |]; simpl; [| discriminate].
  intros H. exists strategy. split; [reflexivity | exact H].
Qed.

Lemma selected_partial_weeks (structureAnalysis : StructureAnalysis.t) :
  selectStrategy structureAnalysis = Ok PartialWeeks ->
  1 <= totalWeeksOf structureAnalysis
  /\ orZ (totalWeeksOf structureAnalysis) 12 = totalWeeksOf structureAnalysis.
Proof.
  unfold selectStrategy, totalWeeksOf, orZ.
  destruct (readLevel structureAnalysis) as [level |]; simpl; [| discriminate].
  destruct (levelIs level "highly_structured"); [discriminate |].
  destruct (levelIs level "moderately_structured").
  - destruct (Z.gtb_spec
                (StructureAnalysis.totalWeeks
                   (StructureAnalysis.weekStructure structureAnalysis)) 0) as [Hpos | Hneg].
    + intros _. split; [lia |].
      destruct (Z.eqb_spec
                  (StructureAnalysis.totalWeeks
                     (StructureAnalysis.weekStructure structureAnalysis)) 0); [lia | reflexivity].
    + destruct (StructureAnalysis.hasStructuredSessions _); discriminate.
  - destruct (levelIs level "basic_structure"); discriminate.
Qed.

Lemma slice_length {A : Type} (xs : list A) (from to : Z) :
  0 <= from -> from < to -> to <= Z.of_nat (List.length xs) ->
  List.length (slice xs from to) = Z.to_nat (to - from).
Proof.
  intros Hfrom Hlt Hto. unfold slice.
  rewrite firstn_length_le; [reflexivity |].
  rewrite length_skipn. lia.
Qed.

Lemma ceilDiv_bounds (a : Z) : 3 * (ceilDiv a 3 - 1) < a <= 3 * ceilDiv a 3.
Proof.
  unfold ceilDiv.
  pose proof (Z.div_mod (- a) 3 ltac:(lia)) as Hdiv.
  pose proof (Z.mod_pos_bound (- a) 3 ltac:(lia)) as Hmod.
  lia.
Qed.

Lemma session_groups_have_sessions (clock : Clock) (text : string)
    (structureAnalysis : StructureAnalysis.t) (academyInfo : AcademyInfo.t) :
  StructureAnalysis.totalSessions (StructureAnalysis.sessionStructure structureAnalysis)
  <= Z.of_nat (List.length (StructureAnalysis.sessionDetails
                              (StructureAnalysis.sessionStructure structureAnalysis))) ->
  Forall hasDailySession
    (extractWithSessionStructure clock text structureAnalysis academyInfo).
Proof.
  intros Hdetails. apply Forall_forall. intros week Hweek.
  unfold extractWithSessionStructure in Hweek.
  apply in_map_iff in Hweek. destruct Hweek as [w [<- Hw]].
  apply weeksUpTo_positive in Hw.
  pose proof (ceilDiv_bounds
                (StructureAnalysis.totalSessions
                   (StructureAnalysis.sessionStructure structureAnalysis))) as Hceil.
  unfold hasDailySession. simpl. intros Hnil.
  apply (f_equal (@List.length DailySession.t)) in Hnil.
  rewrite mapi_length in Hnil.
  rewrite slice_length in Hnil by lia.
  simpl in Hnil. lia.
Qed.

(** C2, as amended.  When the dispatcher returns a list under the
    partial-week, basic or unstructured strategy, every week of the list
    has a daily session, and the list itself is not empty (four weeks
    under the unstructured strategy; under the basic strategy when
    [totalWeeks] is not negative).  Strategy A returns one week per week
    title, so the list it returns is as long as [weekTitles].  Strategy C
    returns the weeks [1 .. ceil(totalSessions / 3)], and each of them has a
    daily session when [sessionDetails] holds at least [totalSessions]
    entries. *)
Theorem C2_returned_weeks_per_strategy (clock : Clock) (text : string)
    (structureAnalysis : StructureAnalysis.t) (academyInfo : AcademyInfo.t)
    (strategy : Strategy) (sessions : list WeekSession.t) :
  selectStrategy structureAnalysis = Ok strategy ->
  extractSessionsWithStructureAwareness clock text structureAnalysis academyInfo
  = Ok sessions ->
  match strategy with
  | HighlyStructured =>
      List.length sessions
      = List.length (StructureAnalysis.weekTitles
                       (StructureAnalysis.weekStructure structureAnalysis))
  | PartialWeeks => sessions <> [] /\ Forall hasDailySession sessions
  | SessionGroups =>
      weekNumbers sessions
      = weeksUpTo (ceilDiv (StructureAnalysis.totalSessions
                              (StructureAnalysis.sessionStructure structureAnalysis)) 3)
      /\ (StructureAnalysis.totalSessions
            (StructureAnalysis.sessionStructure structureAnalysis)
          <= Z.of_nat (List.length (StructureAnalysis.sessionDetails
                                      (StructureAnalysis.sessionStructure structureAnalysis)))
          -> Forall hasDailySession sessions)
  | BasicStructure =>
      (0 <= totalWeeksOf structureAnalysis -> sessions <> [])
      /\ Forall hasDailySession sessions
  | Unstructured => List.length sessions = 4%nat /\ Forall hasDailySession sessions
  end.
Proof.
  intros Hselect Hrun.
  rewrite dispatcher_runs_selected_strategy, Hselect in Hrun. simpl in Hrun.
  destruct strategy; simpl in Hrun.
  - apply highly_structured_returns in Hrun. destruct Hrun as [-> ->]. reflexivity.
  - apply partial_weeks_returns in Hrun.
    destruct (selected_partial_weeks _ Hselect) as [Hpos Hmax]. rewrite Hmax in Hrun.
    split.
    + intros ->. inversion Hrun as [Hweeks |]. symmetry in Hweeks.
      revert Hweeks. apply weeksUpTo_nonempty. exact Hpos.
    + eapply Forall2_right; [| exact Hrun]. intros w s [_ [_ Hs]]. exact Hs.
  - injection Hrun as <-. split.
    + apply session_groups_weekNumbers.
    + apply session_groups_have_sessions.
  - injection Hrun as <-. split.
    + intros Hnonneg Hnil.
      apply (f_equal weekNumbers) in Hnil. rewrite basic_weekNumbers in Hnil.
      revert Hnil. apply weeksUpTo_nonempty. unfold orZ.
      destruct (Z.eqb_spec (totalWeeksOf structureAnalysis) 0); lia.
    + eapply Forall_impl; [| apply basic_weeks].
      intros week [_ Hpattern]. apply threeDayPattern_hasDailySession. exact Hpattern.
  - injection Hrun as <-. split; [reflexivity |].
    eapply Forall_impl; [| apply unstructured_weeks].
    intros week [_ Hpattern]. apply threeDayPattern_hasDailySession. exact Hpattern.
Qed.

Lemma C2_returned_weeks_per_strategy_witness :
  selectStrategy unstructuredAnalysis = Ok Unstructured
  /\ extractSessionsWithStructureAwareness noonUTC "" unstructuredAnalysis sampleAcademy
     = Ok (extractFromUnstructuredDocument noonUTC "" unstructuredAnalysis sampleAcademy)
  /\ List.length (extractFromUnstructuredDocument noonUTC "" unstructuredAnalysis
                    sampleAcademy) = 4%nat
  /\ Forall hasDailySession
       (extractFromUnstructuredDocument noonUTC "" unstructuredAnalysis sampleAcademy).
Proof.
  split; [reflexivity |]. split; [reflexivity |].
  apply (C2_returned_weeks_per_strategy noonUTC "" unstructuredAnalysis sampleAcademy
           Unstructured); reflexivity.
Defined.

(** C2, as stated, fails: a document classified as highly structured
    without week titles goes to Strategy A, which returns the empty
    list. *)
Lemma C2_highly_structured_without_titles_returns_no_week :
  extractSessionsWithStructureAwareness noonUTC "" highlyStructuredWithoutTitles
    sampleAcademy = Ok []
  /\ ~ (exists sessions,
          extractSessionsWithStructureAwareness noonUTC "" highlyStructuredWithoutTitles
            sampleAcademy = Ok sessions
          /\ sessions <> []
          /\ Forall hasDailySession sessions).
Proof.
  split; [reflexivity |].
  intros [sessions [Hrun [Hnonempty _]]].
  change (Ok (@nil WeekSession.t) = Ok sessions) in Hrun.
  injection Hrun as <-. apply Hnonempty. reflexivity.
Qed.

(** C3.  In every week produced by Strategy A, B, C, D or D', and in
    every week of every list the alternative week extraction returns,
    [totalDuration] is the sum of the durations of the week's daily
    sessions. *)
Theorem C3_total_duration_is_the_sum_of_daily_durations (clock : Clock) (text : string)
    (structureAnalysis : StructureAnalysis.t) (academyInfo : AcademyInfo.t) :
  (forall sessions,
      extractFromHighlyStructuredDocument clock text structureAnalysis academyInfo
      = Ok sessions -> Forall durationConsistent sessions)
  /\ (forall sessions,
        extractWithPartialWeekStructure clock text structureAnalysis academyInfo
        = Ok sessions -> Forall durationConsistent sessions)
  /\ Forall durationConsistent
       (extractWithSessionStructure clock text structureAnalysis academyInfo)
  /\ Forall durationConsistent
       (extractFromBasicStructuredDocument clock text structureAnalysis academyInfo)
  /\ Forall durationConsistent
       (extractFromUnstructuredDocument clock text structureAnalysis academyInfo)
  /\ (forall sessions,
        attemptAlternativeWeekExtraction clock text academyInfo = Ok sessions ->
        Forall durationConsistent sessions)
  /\ (forall sessions,
        extractSessionsWithStructureAwareness clock text structureAnalysis academyInfo
        = Ok sessions -> Forall durationConsistent sessions).
Proof.
  assert (HA : forall sessions,
             extractFromHighlyStructuredDocument clock text structureAnalysis academyInfo
             = Ok sessions -> Forall durationConsistent sessions).
  { intros sessions H. apply highly_structured_returns in H.
    destruct H as [-> _]. constructor. }
  assert (HB : forall sessions,
             extractWithPartialWeekStructure clock text structureAnalysis academyInfo
             = Ok sessions -> Forall durationConsistent sessions).
  { intros sessions H. apply partial_weeks_returns in H.
    eapply Forall2_right; [| exact H]. intros w s [_ [Hs _]]. exact Hs. }
  assert (HD : Forall durationConsistent
                 (extractFromBasicStructuredDocument clock text structureAnalysis academyInfo)).
  { eapply Forall_impl; [| apply basic_weeks]. intros week [Hweek _]. exact Hweek. }
  assert (HU : Forall durationConsistent
                 (extractFromUnstructuredDocument clock text structureAnalysis academyInfo)).
  { eapply Forall_impl; [| apply unstructured_weeks]. intros week [Hweek _]. exact Hweek. }
  repeat split; auto.
  - apply session_groups_consistent.
  - intros sessions Hrun.
    eapply Forall_impl; [| exact (alternative_extraction_weeks _ _ _ _ Hrun)].
    intros week [Hweek _]. exact Hweek.
  - intros sessions H. apply dispatcher_returns in H.
    destruct H as [strategy [_ Hrun]].
    destruct strategy; simpl in Hrun; auto; injection Hrun as <-; auto.
    apply session_groups_consistent.
Qed.

(** The alternative extraction on a text of two weeks: it returns two
    weeks, each of one session of 120 minutes and a total of 120. *)
Lemma C3_total_duration_is_the_sum_of_daily_durations_witness :
  exists sessions,
    attemptAlternativeWeekExtraction noonUTC twoWeekText sampleAcademy = Ok sessions
    /\ map WeekSession.totalDuration sessions = [120; 120]
    /\ Forall durationConsistent sessions.
Proof.
  exists (match attemptAlternativeWeekExtraction noonUTC twoWeekText sampleAcademy with
          | Ok sessions => sessions
          | Throw _ => []
          end).
  split; [vm_compute; reflexivity |]. split; [vm_compute; reflexivity |].
  destruct (C3_total_duration_is_the_sum_of_daily_durations noonUTC twoWeekText
              unstructuredAnalysis sampleAcademy) as [_ [_ [_ [_ [_ [Halternative _]]]]]].
  apply Halternative. vm_compute. reflexivity.
Defined.

(** ** Week numbers *)

Lemma increasing_adjacent (numbers : list Z) :
  StronglySorted Z.lt numbers ->
  forall i a b,
    nth_error numbers i = Some a -> nth_error numbers (S i) = Some b -> a < b.
Proof.
  induction 1 as [| x rest Hsorted IH Hall]; intros i a b Ha Hb.
  - destruct i; discriminate.
  - destruct i as [| i].
    + injection Ha as <-. change (nth_error rest 0 = Some b) in Hb.
      apply nth_error_In in Hb. rewrite Forall_forall in Hall. auto.
    + change (nth_error rest i = Some a) in Ha.
      change (nth_error rest (S i) = Some b) in Hb. eauto.
Qed.

(** C7.  In every list of weeks returned by the dispatcher, whichever
    strategy produced it, the week numbers increase strictly: each is
    smaller than every later one, and [sessions[i].weekNumber <
    sessions[i+1].weekNumber] for all [i]. *)
Theorem C7_week_numbers_strictly_increase (clock : Clock) (text : string)
    (structureAnalysis : StructureAnalysis.t) (academyInfo : AcademyInfo.t)
    (sessions : list WeekSession.t) :
  extractSessionsWithStructureAwareness clock text structureAnalysis academyInfo
  = Ok sessions ->
  StronglySorted Z.lt (weekNumbers sessions)
  /\ forall i a b,
       nth_error (weekNumbers sessions) i = Some a ->
       nth_error (weekNumbers sessions) (S i) = Some b ->
       a < b.
Proof.
  intros H.
  assert (Hsorted : StronglySorted Z.lt (weekNumbers sessions)).
  { apply dispatcher_returns in H. destruct H as [strategy [_ Hrun]].
    destruct strategy; simpl in Hrun.
    - apply highly_structured_returns in Hrun. destruct Hrun as [-> _]. constructor.
    - apply partial_weeks_returns in Hrun. apply Forall2_weekNumbers in Hrun.
      rewrite Hrun. apply weeksUpTo_increasing.
    - injection Hrun as <-. rewrite session_groups_weekNumbers.
      apply weeksUpTo_increasing.
    - injection Hrun as <-. rewrite basic_weekNumbers. apply weeksUpTo_increasing.
    - injection Hrun as <-. rewrite unstructured_weekNumbers.
      apply (weeksUpTo_increasing 4). }
  split; [exact Hsorted | apply increasing_adjacent; exact Hsorted].
Qed.

Lemma C7_week_numbers_strictly_increase_witness :
  extractSessionsWithStructureAwareness noonUTC "" unstructuredAnalysis sampleAcademy
  = Ok (extractFromUnstructuredDocument noonUTC "" unstructuredAnalysis sampleAcademy)
  /\ StronglySorted Z.lt
       (weekNumbers
          (extractFromUnstructuredDocument noonUTC "" unstructuredAnalysis sampleAcademy)).
Proof.
  split; [reflexivity |].
  apply (C7_week_numbers_strictly_increase noonUTC "" unstructuredAnalysis sampleAcademy).
  reflexivity.
Defined.

(** ** The pipeline *)

Lemma dispatcher_unknown_level (clock : Clock) (text : string)
    (structureAnalysis : StructureAnalysis.t) (academyInfo : AcademyInfo.t)
    (level : option string) :
  levelOf structureAnalysis = Some level ->
  knownLevel level = false ->
  readLevel structureAnalysis = Ok level
  /\ extractSessionsWithStructureAwareness clock text structureAnalysis academyInfo
     = Ok (extractFromUnstructuredDocument clock text structureAnalysis academyInfo).
Proof.
  unfold levelOf, knownLevel, extractSessionsWithStructureAwareness, readLevel.
  destruct (StructureAnalysis.organizationLevel structureAnalysis) as [ol |]; simpl;
    [| discriminate].
  intros Hlevel Hknown. injection Hlevel as <-.
  apply orb_false_elim in Hknown. destruct Hknown as [Hknown Hbasic].
  apply orb_false_elim in Hknown. destruct Hknown as [Hhigh Hmoderate].
  rewrite Hhigh, Hmoderate, Hbasic. split; reflexivity.
Qed.

Lemma dispatcher_without_level (clock : Clock) (text : string)
    (structureAnalysis : StructureAnalysis.t) (academyInfo : AcademyInfo.t) :
  StructureAnalysis.organizationLevel structureAnalysis = None ->
  extractSessionsWithStructureAwareness clock text structureAnalysis academyInfo
  = Throw (TypeError "Cannot read properties of undefined (reading 'level')").
Proof.
  intros H. unfold extractSessionsWithStructureAwareness, readLevel. rewrite H. reflexivity.
Qed.

Section PipelineProperties.

Variable clock : Clock.
Variable Schedule : Type.
Variable extractDocumentText : Document.t -> outcome string.
Variable analyzeDocumentStructure : string -> Document.t -> outcome StructureAnalysis.t.
Variable enhanceExtractedSessions :
  list WeekSession.t -> EnhancementContext.t -> outcome (list WeekSession.t).
Variable generateOptimalSchedule :
  TrainingPlan.t -> Preferences.t -> outcome (option Schedule).
Variable handlePlatformError : error -> string -> error.

(** C1, as amended.  Once the text is read: when the structure analysis
    raises, the pipeline returns no result and raises the error wrapped by
    [handlePlatformError] under the label ['Enhanced Session Extraction'];
    so it does when the analysis comes without [organizationLevel] (the
    wrapped error is then the [TypeError] of reading [level]).  The
    unstructured fallback is what runs when the analysis has an
    [organizationLevel] whose level is none of the three known ones: the
    pipeline then returns a result built from four weeks of
    Monday/Wednesday/Friday sessions of 90 minutes, and, when the enhancer
    has failed, these are the sessions of the result and [totalWeeks] is
    4. *)
Theorem C1_analysis_failure_is_rethrown_and_unknown_level_falls_back
    (document : Document.t) (trainingPlan : TrainingPlan.t) (text : string) :
  extractDocumentText document = Ok text ->
  (forall e,
      analyzeDocumentStructure text document = Throw e ->
      extractSessionsFromDocument clock Schedule extractDocumentText
        analyzeDocumentStructure enhanceExtractedSessions generateOptimalSchedule
        handlePlatformError document trainingPlan
      = Throw (handlePlatformError e "Enhanced Session Extraction"))
  /\ (forall structureAnalysis,
        analyzeDocumentStructure text document = Ok structureAnalysis ->
        StructureAnalysis.organizationLevel structureAnalysis = None ->
        extractSessionsFromDocument clock Schedule extractDocumentText
          analyzeDocumentStructure enhanceExtractedSessions generateOptimalSchedule
          handlePlatformError document trainingPlan
        = Throw (handlePlatformError
                   (TypeError "Cannot read properties of undefined (reading 'level')")
                   "Enhanced Session Extraction"))
  /\ (forall structureAnalysis level,
        analyzeDocumentStructure text document = Ok structureAnalysis ->
        levelOf structureAnalysis = Some level ->
        knownLevel level = false ->
        let baseline :=
          extractFromUnstructuredDocument clock text structureAnalysis
            (extractAcademyInfo text trainingPlan (Some structureAnalysis)) in
        List.length baseline = 4%nat
        /\ Forall threeDayPattern baseline
        /\ exists result,
             extractSessionsFromDocument clock Schedule extractDocumentText
               analyzeDocumentStructure enhanceExtractedSessions generateOptimalSchedule
               handlePlatformError document trainingPlan = Ok result
             /\ (ExtractionResult.aiEnhanced result = false ->
                 ExtractionResult.sessions result = baseline
                 /\ ExtractionResult.totalWeeks result = 4)).
Proof.
  intros Htext. unfold extractSessionsFromDocument. rewrite Htext. simpl.
  split; [| split].
  - intros e He. rewrite He. reflexivity.
  - intros structureAnalysis Hsa Hnone. rewrite Hsa. simpl.
    rewrite dispatcher_without_level by exact Hnone. reflexivity.
  - intros structureAnalysis level Hsa Hlevel Hknown.
    split; [reflexivity |].
    split.
    { eapply Forall_impl; [| apply unstructured_weeks]. intros week [_ H]. exact H. }
    rewrite Hsa. simpl.
    destruct (dispatcher_unknown_level clock text structureAnalysis
                (extractAcademyInfo text trainingPlan (Some structureAnalysis))
                level Hlevel Hknown) as [Hread Hrun].
    rewrite Hrun, Hread. simpl.
    eexists. split; [reflexivity |]. simpl.
    destruct (enhanceExtractedSessions _ _); [discriminate |].
    intros _. split; reflexivity.
Qed.

End PipelineProperties.

Lemma C1_analysis_failure_is_rethrown_and_unknown_level_falls_back_witness :
  readEmptyText sampleDocument = Ok ""
  /\ extractSessionsFromDocument noonUTC unit readEmptyText failingAnalyser failingEnhancer
       noSchedule labelError sampleDocument samplePlan
     = Throw (labelError (External "structure analysis failed")
                "Enhanced Session Extraction").
Proof.
  split; [reflexivity |].
  apply (C1_analysis_failure_is_rethrown_and_unknown_level_falls_back noonUTC unit
           readEmptyText failingAnalyser failingEnhancer noSchedule labelError
           sampleDocument samplePlan ""); reflexivity.
Defined.

(** C1, as stated, fails: with an analyser that raises, the pipeline
    raises too and returns no result at all. *)
Lemma C1_analyser_failure_reaches_the_caller :
  extractSessionsFromDocument noonUTC unit readEmptyText failingAnalyser failingEnhancer
    noSchedule labelError sampleDocument samplePlan
  = Throw (External "Enhanced Session Extraction: structure analysis failed")
  /\ ~ (exists result,
          extractSessionsFromDocument noonUTC unit readEmptyText failingAnalyser
            failingEnhancer noSchedule labelError sampleDocument samplePlan = Ok result
          /\ ExtractionResult.totalWeeks result = 4).
Proof.
  split; [reflexivity |].
  intros [result [Hrun _]].
  change (Throw (External "Enhanced Session Extraction: structure analysis failed")
          = Ok result) in Hrun.
  discriminate.
Qed.

(** The fallback of the unstructured strategy, seen through the whole
    pipeline: an analysis whose level is none of the known ones, an
    enhancer that fails. *)
Example pipeline_with_unknown_level :
  exists result,
    extractSessionsFromDocument noonUTC unit readEmptyText
      (analyserReturning unstructuredAnalysis) failingEnhancer noSchedule labelError
      sampleDocument samplePlan = Ok result
    /\ ExtractionResult.totalWeeks result = 4
    /\ ExtractionResult.totalSessions result = 12
    /\ map daysOf (ExtractionResult.sessions result)
       = repeat ["monday"; "wednesday"; "friday"] 4.
Proof. eexists. split; [reflexivity |]. repeat split. Qed.

(** ** The date calculator *)

(** On a device whose local calendar is the UTC calendar the date
    returned for a weekday name falls on that weekday, in the seven days
    that start [weekNumber - 1] weeks from today. *)
Lemma calculateSessionDate_on_utc_device (clock : Clock) (weekNumber : Z)
    (dayName : string) (dayIndex : Z) :
  offsetMinutes clock = 0 ->
  indexOf dayNames (toLowerCase dayName) = dayIndex ->
  0 <= dayIndex <= 6 ->
  weekday (calculateSessionDate clock weekNumber dayName) = dayIndex
  /\ utcDay (nowMs clock) + (weekNumber - 1) * 7
     <= calculateSessionDate clock weekNumber dayName
     <= utcDay (nowMs clock) + (weekNumber - 1) * 7 + 6.
Proof.
  intros Hoffset Hindex Hrange.
  unfold calculateSessionDate, getDay, localDay, addDays, utcDay, weekday.
  rewrite Hoffset, Hindex. simpl (0 * 60000). rewrite Z.add_0_r.
  rewrite !Z.div_add by (unfold msPerDay; lia).
  set (today := nowMs clock / msPerDay).
  set (shift := (weekNumber - 1) * 7).
  assert (Hcurrent : 0 <= (today + shift + 4) mod 7 < 7)
    by (apply Z.mod_pos_bound; lia).
  rewrite Z.rem_mod_nonneg by lia.
  pose proof (Z.mod_pos_bound (dayIndex - (today + shift + 4) mod 7 + 7) 7 ltac:(lia))
    as Hadd.
  split; [| lia].
  rewrite <- Z.add_assoc, (Z.add_comm _ 4), Z.add_assoc.
  rewrite Z.add_mod_idemp_r by lia.
  replace (today + shift + 4 + (dayIndex - (today + shift + 4) mod 7 + 7))
    with (dayIndex + ((today + shift + 4) - (today + shift + 4) mod 7) + 1 * 7) by lia.
  rewrite Z.mod_add by lia.
  pose proof (Z.div_mod (today + shift + 4) 7 ltac:(lia)) as Hdiv.
  replace ((today + shift + 4) - (today + shift + 4) mod 7)
    with (((today + shift + 4) / 7) * 7) by lia.
  rewrite Z.mod_add by lia.
  apply Z.mod_small. lia.
Qed.

Lemma calculateSessionDate_on_utc_device_witness :
  weekday (calculateSessionDate noonUTC 2 "friday") = 5
  /\ utcDay (nowMs noonUTC) + (2 - 1) * 7
     <= calculateSessionDate noonUTC 2 "friday"
     <= utcDay (nowMs noonUTC) + (2 - 1) * 7 + 6.
Proof.
  apply (calculateSessionDate_on_utc_device noonUTC 2 "friday" 5);
    [reflexivity | reflexivity | lia].
Defined.

(** C4 fails on a device ahead of UTC in the first hours of the local
    day.  On Monday 2024-01-01 at 01:00, three hours ahead of UTC,
    [calculateSessionDate(1, 'monday')] finds that today is a Monday, adds
    no day, and prints the UTC date of the instant: 2023-12-31 (day
    19722), a Sunday, one day before the local today (day 19723). *)
Theorem C4_monday_after_local_midnight_is_dated_sunday :
  indexOf dayNames "monday" = 1
  /\ getDay afterMidnightEastOfUTC (nowMs afterMidnightEastOfUTC) = 1
  /\ localDay afterMidnightEastOfUTC (nowMs afterMidnightEastOfUTC) = 19723
  /\ calculateSessionDate afterMidnightEastOfUTC 1 "monday" = 19722
  /\ weekday (calculateSessionDate afterMidnightEastOfUTC 1 "monday") = 0.
Proof. repeat split. Qed.

(** ** The fallback session of a week section *)

(** [createGeneralWeekSession] raises on every week whose content is a
    string: its first field read through [content] is [activities]. *)
Lemma createGeneralWeekSession_raises_on_a_string (clock : Clock) (title content : string)
    (weekIndex : Z) (academyInfo : AcademyInfo.t) :
  createGeneralWeekSession clock {| Week.title := title; Week.content := VStr content |}
    weekIndex academyInfo
  = Throw (notAFunction "content.forEach").
Proof. reflexivity. Qed.

(** [createStructuredDailySession] raises on every marker: [focus] is
    asked of the array-based [extractSessionFocus] with a string. *)
Lemma createStructuredDailySession_raises (clock : Clock) (dayInfo : DayInfo.t)
    (weekNumber dayIndex : Z) (academyInfo : AcademyInfo.t) (content : string)
    (durationAnalysis : StructureAnalysis.DurationAnalysis) :
  createStructuredDailySession clock dayInfo weekNumber dayIndex academyInfo content
    durationAnalysis
  = Throw (notAFunction "content.join").
Proof. reflexivity. Qed.

Lemma week_section_without_markers_raises (clock : Clock) (weekSection : WeekSection.t)
    (weekNumber : Z) (academyInfo : AcademyInfo.t)
    (durationAnalysis : StructureAnalysis.DurationAnalysis) :
  foundDays (WeekSection.content weekSection) = [] ->
  extractDailySessionsFromWeekSection clock weekSection weekNumber academyInfo
    durationAnalysis
  = Throw (notAFunction "content.forEach").
Proof.
  intros Hnone. unfold extractDailySessionsFromWeekSection. rewrite Hnone. reflexivity.
Qed.

Lemma week_section_with_markers_raises (clock : Clock) (weekSection : WeekSection.t)
    (weekNumber : Z) (academyInfo : AcademyInfo.t)
    (durationAnalysis : StructureAnalysis.DurationAnalysis) :
  foundDays (WeekSection.content weekSection) <> [] ->
  extractDailySessionsFromWeekSection clock weekSection weekNumber academyInfo
    durationAnalysis
  = Throw (notAFunction "content.join").
Proof.
  intros Hsome. unfold extractDailySessionsFromWeekSection.
  destruct (foundDays (WeekSection.content weekSection)) as [| dayInfo rest];
    [congruence | reflexivity].
Qed.

(** C5 fails.  The week section "Week 1 overview of the programme" has
    no day marker, and [extractDailySessionsFromWeekSection] raises a
    [TypeError] on it instead of returning one overview session:
    [createGeneralWeekSession] calls [forEach] on the section's content,
    a string.  Given the array of lines it was written for, the same call
    for week 1 numbers the session week 2, because its second parameter is
    a 0-based index. *)
Theorem C5_section_without_markers_raises :
  foundDays (WeekSection.content overviewSection) = []
  /\ extractDailySessionsFromWeekSection noonUTC overviewSection 1 sampleAcademy
       {| StructureAnalysis.averageDuration := 0 |}
     = Throw (TypeError "content.forEach is not a function")
  /\ exists session,
       createGeneralWeekSession noonUTC
         {| Week.title := "Week 1";
            Week.content := VArr ["Week 1 overview of the programme"] |}
         1 sampleAcademy = Ok session
       /\ DailySession.weekNumber session = 2.
Proof.
  split; [reflexivity |].
  split; [apply week_section_without_markers_raises; reflexivity |].
  eexists. split; reflexivity.
Qed.

(** ** Strategy C *)

Lemma mapSessionToDay_rotation (k : nat) :
  (k < 7)%nat -> mapSessionToDay (Z.of_nat k + 1) = nth k rotation "monday".
Proof.
  intros Hk.
  do 7 (destruct k as [| k]; [reflexivity |]). lia.
Qed.

Lemma slice_at_most {A : Type} (xs : list A) (from to : Z) :
  (List.length (slice xs from to) <= Z.to_nat (to - from))%nat.
Proof. unfold slice. apply firstn_le_length. Qed.

Lemma slice_nth_error {A : Type} (xs : list A) (from to : Z) (k : nat) :
  0 <= from ->
  nth_error (slice xs from to) k
  = if Z.ltb (Z.of_nat k) (to - from) then nth_error xs (Z.to_nat from + k) else None.
Proof.
  intros Hfrom. unfold slice.
  destruct (Z.ltb_spec (Z.of_nat k) (to - from)) as [Hin | Hout].
  - rewrite nth_error_firstn.
    destruct (Nat.ltb_spec k (Z.to_nat (to - from))) as [_ | Hge]; [| lia].
    apply nth_error_skipn.
  - rewrite nth_error_firstn.
    destruct (Nat.ltb_spec k (Z.to_nat (to - from))) as [Hlt | _]; [lia | reflexivity].
Qed.

Lemma mapi_nth_error_at {A B : Type} (f : A -> Z -> B) (xs : list A) :
  forall (i : Z) (k : nat),
    nth_error (mapi f i xs) k
    = option_map (fun x => f x (i + Z.of_nat k)) (nth_error xs k).
Proof.
  induction xs as [| x rest IH]; intros i k.
  - destruct k; reflexivity.
  - destruct k as [| k].
    + simpl. rewrite Z.add_0_r. reflexivity.
    + cbn [mapi nth_error]. rewrite IH. destruct (nth_error rest k); [| reflexivity].
      simpl. do 2 f_equal. lia.
Qed.

Lemma weeksUpTo_nth_error (n : Z) (i : nat) (w : Z) :
  nth_error (weeksUpTo n) i = Some w -> w = Z.of_nat i + 1 /\ w <= n.
Proof.
  unfold weeksUpTo. intros H.
  rewrite nth_error_map in H.
  destruct (nth_error (seq 1 (Z.to_nat n)) i) as [m |] eqn:Hm; [| discriminate].
  injection H as <-.
  assert (Hlt : (i < List.length (seq 1 (Z.to_nat n)))%nat)
    by (apply nth_error_Some; congruence).
  rewrite length_seq in Hlt.
  apply (nth_error_nth _ _ 0%nat) in Hm.
  rewrite seq_nth in Hm by exact Hlt. subst m. lia.
Qed.

(** The week at position [i] of Strategy C: its daily sessions, position
    by position, in terms of the positions of [sessionDetails]. *)
Lemma session_group_at (clock : Clock) (text : string)
    (structureAnalysis : StructureAnalysis.t) (academyInfo : AcademyInfo.t)
    (i : nat) (week : WeekSession.t) :
  let sessionStructure := StructureAnalysis.sessionStructure structureAnalysis in
  let totalSessions := StructureAnalysis.totalSessions sessionStructure in
  let sessionDetails := StructureAnalysis.sessionDetails sessionStructure in
  nth_error (extractWithSessionStructure clock text structureAnalysis academyInfo) i
  = Some week ->
  WeekSession.weekNumber week = Z.of_nat i + 1
  /\ forall k,
       nth_error (WeekSession.dailySessions week) k
       = if (Z.ltb (Z.of_nat k) 3
             && Z.ltb (3 * Z.of_nat i + Z.of_nat k) totalSessions)%bool
         then option_map
                (fun detail =>
                   createSessionFromDetail clock detail (Z.of_nat i + 1) (Z.of_nat k + 1)
                     academyInfo)
                (nth_error sessionDetails (3 * i + k))
         else None.
Proof.
  intros sessionStructure totalSessions sessionDetails Hweek.
  unfold extractWithSessionStructure in Hweek.
  rewrite nth_error_map in Hweek.
  fold sessionStructure in Hweek. fold totalSessions in Hweek.
  destruct (nth_error (weeksUpTo (ceilDiv totalSessions 3)) i) as [w |] eqn:Hw;
    [| discriminate].
  apply weeksUpTo_nth_error in Hw. destruct Hw as [-> _].
  injection Hweek as <-. cbn [WeekSession.weekNumber WeekSession.dailySessions].
  split; [reflexivity |].
  intros k. fold sessionDetails.
  rewrite mapi_nth_error_at, slice_nth_error by lia.
  replace (Z.to_nat ((Z.of_nat i + 1 - 1) * 3) + k)%nat with (3 * i + k)%nat by lia.
  replace (Z.ltb (Z.of_nat k)
             (Z.min ((Z.of_nat i + 1 - 1) * 3 + 3) totalSessions
              - (Z.of_nat i + 1 - 1) * 3))
    with (Z.ltb (Z.of_nat k) 3 && Z.ltb (3 * Z.of_nat i + Z.of_nat k) totalSessions)%bool.
  - destruct (Z.ltb (Z.of_nat k) 3 && Z.ltb (3 * Z.of_nat i + Z.of_nat k) totalSessions)%bool;
      [| reflexivity].
    destruct (nth_error sessionDetails (3 * i + k)); reflexivity.
  - destruct (Z.ltb_spec (Z.of_nat k) 3), (Z.ltb_spec (3 * Z.of_nat i + Z.of_nat k) totalSessions),
             (Z.ltb_spec (Z.of_nat k)
                (Z.min ((Z.of_nat i + 1 - 1) * 3 + 3) totalSessions
                 - (Z.of_nat i + 1 - 1) * 3));
      simpl; try reflexivity; lia.
Qed.

(** C6.  Strategy C returns [ceil(totalSessions / 3)] weeks ([ceilDiv] is
    the least integer whose triple reaches [totalSessions]), numbered 1, 2,
    ... by position.  The weeks are the consecutive batches of three of
    [sessionDetails]: position [k] of the week at position [i] (week
    [i + 1]) holds the daily session built from [sessionDetails[3 i + k]],
    for [k < 3], [3 i + k < totalSessions] and as far as [sessionDetails]
    reaches, and nothing otherwise; so every detail at an index below
    [totalSessions] is in exactly that week at exactly that position, and a
    week holds at most three sessions.  Every daily session of a week lasts
    90 minutes, starts at 08:00, is numbered [k + 1] and falls on the day
    at position [k] of the rotation monday, wednesday, friday, tuesday,
    thursday, saturday, sunday. *)
Theorem C6_session_groups_of_three (clock : Clock) (text : string)
    (structureAnalysis : StructureAnalysis.t) (academyInfo : AcademyInfo.t) :
  let sessionStructure := StructureAnalysis.sessionStructure structureAnalysis in
  let totalSessions := StructureAnalysis.totalSessions sessionStructure in
  let sessionDetails := StructureAnalysis.sessionDetails sessionStructure in
  let sessions := extractWithSessionStructure clock text structureAnalysis academyInfo in
  weekNumbers sessions = weeksUpTo (ceilDiv totalSessions 3)
  /\ List.length sessions = Z.to_nat (ceilDiv totalSessions 3)
  /\ 3 * (ceilDiv totalSessions 3 - 1) < totalSessions <= 3 * ceilDiv totalSessions 3
  /\ (forall i week,
        nth_error sessions i = Some week ->
        WeekSession.weekNumber week = Z.of_nat i + 1
        /\ (List.length (WeekSession.dailySessions week) <= 3)%nat
        /\ forall k,
             nth_error (WeekSession.dailySessions week) k
             = if (Z.ltb (Z.of_nat k) 3
                   && Z.ltb (3 * Z.of_nat i + Z.of_nat k) totalSessions)%bool
               then option_map
                      (fun detail =>
                         createSessionFromDetail clock detail (Z.of_nat i + 1)
                           (Z.of_nat k + 1) academyInfo)
                      (nth_error sessionDetails (3 * i + k))
               else None)
  /\ (forall j detail,
        nth_error sessionDetails j = Some detail ->
        Z.of_nat j < totalSessions ->
        exists week,
          nth_error sessions (j / 3) = Some week
          /\ nth_error (WeekSession.dailySessions week) (j mod 3)
             = Some (createSessionFromDetail clock detail (Z.of_nat (j / 3) + 1)
                       (Z.of_nat (j mod 3) + 1) academyInfo))
  /\ Forall
       (fun week =>
          forall k session,
            nth_error (WeekSession.dailySessions week) k = Some session ->
            DailySession.duration session = 90
            /\ DailySession.time session = "08:00"
            /\ DailySession.dayNumber session = Z.of_nat k + 1
            /\ DailySession.day session = nth k rotation "monday")
       sessions.
Proof.
  intros sessionStructure totalSessions sessionDetails sessions.
  assert (Hlength : List.length sessions = Z.to_nat (ceilDiv totalSessions 3)).
  { unfold sessions, extractWithSessionStructure.
    rewrite length_map. apply weeksUpTo_length. }
  assert (Hat : forall i week,
             nth_error sessions i = Some week ->
             WeekSession.weekNumber week = Z.of_nat i + 1
             /\ forall k,
                  nth_error (WeekSession.dailySessions week) k
                  = if (Z.ltb (Z.of_nat k) 3
                        && Z.ltb (3 * Z.of_nat i + Z.of_nat k) totalSessions)%bool
                    then option_map
                           (fun detail =>
                              createSessionFromDetail clock detail (Z.of_nat i + 1)
                                (Z.of_nat k + 1) academyInfo)
                           (nth_error sessionDetails (3 * i + k))
                    else None).
  { intros i week Hweek.
    apply (session_group_at clock text structureAnalysis academyInfo i week Hweek). }
  split; [apply session_groups_weekNumbers |].
  split; [exact Hlength |].
  split; [apply ceilDiv_bounds |].
  split; [| split].
  - intros i week Hweek. destruct (Hat i week Hweek) as [Hnumber Hdaily].
    split; [exact Hnumber |]. split; [| exact Hdaily].
    destruct (Nat.le_gt_cases (List.length (WeekSession.dailySessions week)) 3)
      as [Hle | Hgt]; [exact Hle |].
    apply nth_error_Some in Hgt. rewrite Hdaily in Hgt.
    contradiction Hgt. reflexivity.
  - intros j detail Hdetail Hbelow.
    pose proof (ceilDiv_bounds totalSessions) as Hceil.
    pose proof (Nat.div_mod_eq j 3) as Hj.
    pose proof (Nat.mod_upper_bound j 3 ltac:(lia)) as Hmod.
    assert (Hweek : (j / 3 < List.length sessions)%nat) by (rewrite Hlength; lia).
    apply nth_error_Some in Hweek.
    destruct (nth_error sessions (j / 3)) as [week |] eqn:Hnth; [| congruence].
    exists week. split; [reflexivity |].
    destruct (Hat (j / 3)%nat week Hnth) as [_ Hdaily].
    rewrite Hdaily.
    replace (3 * (j / 3) + j mod 3)%nat with j by lia.
    destruct (Z.ltb_spec (Z.of_nat (j mod 3)) 3) as [_ | Hout]; [| lia].
    destruct (Z.ltb_spec (3 * Z.of_nat (j / 3) + Z.of_nat (j mod 3)) totalSessions)
      as [_ | Hout]; [| lia].
    rewrite Hdetail. reflexivity.
  - apply Forall_forall. intros week Hweek.
    apply In_nth_error in Hweek. destruct Hweek as [i Hweek].
    destruct (Hat i week Hweek) as [_ Hdaily].
    intros k session Hk. rewrite Hdaily in Hk.
    destruct (Z.ltb_spec (Z.of_nat k) 3) as [Hlt | _]; [| discriminate].
    destruct (Z.ltb (3 * Z.of_nat i + Z.of_nat k) totalSessions); [| discriminate].
    destruct (nth_error sessionDetails (3 * i + k)) as [detail |]; [| discriminate].
    injection Hk as <-.
    repeat split.
    apply mapSessionToDay_rotation. lia.
Qed.

(** Four session details in two weeks: the fourth detail opens the
    second week. *)
Lemma C6_session_groups_of_three_witness :
  exists week,
    nth_error (extractWithSessionStructure noonUTC "" fourSessionAnalysis sampleAcademy) 1
    = Some week
    /\ WeekSession.dailySessions week
       = [createSessionFromDetail noonUTC
            {| SessionDetail.text := "Session 4: match play"; SessionDetail.type := "game" |}
            2 1 sampleAcademy].
Proof.
  destruct (C6_session_groups_of_three noonUTC "" fourSessionAnalysis sampleAcademy)
    as [_ [_ [_ [_ [Hplaced _]]]]].
  destruct (Hplaced 3%nat
              {| SessionDetail.text := "Session 4: match play"; SessionDetail.type := "game" |}
              eq_refl eq_refl) as [week [Hweek _]].
  exists week. split; [exact Hweek |].
  vm_compute in Hweek. injection Hweek as <-. reflexivity.
Defined.

(** ** Academy information *)

Lemma orOpt_absent (fallback : string) : orOpt None fallback = fallback.
Proof. reflexivity. Qed.

Lemma orOpt_empty (fallback : string) : orOpt (Some "") fallback = fallback.
Proof. reflexivity. Qed.

Lemma orOpt_present (value fallback : string) :
  value <> "" -> orOpt (Some value) fallback = value.
Proof. destruct value; [congruence | reflexivity]. Qed.

Lemma orStr_present (value fallback : string) :
  value <> "" -> orStr value fallback = value.
Proof. destruct value; [congruence | reflexivity]. Qed.

Lemma orOpt_planValue (field : option string) (fallback : string) :
  orOpt field fallback
  = match planValue field with Some value => value | None => fallback end.
Proof. destruct field as [[| c r] |]; reflexivity. Qed.

(** C9.  [extractAcademyInfo] is a total function of the text, the plan
    and the analysis (every operation it uses is total on strings, so it
    has no error case).  A field found in the text keeps the value found.
    A field not found falls back to the plan and then to the default:
    [academyName] to the plan's [academyName], then the plan's [title],
    then ['Training Academy']; [sport] to the plan's [category], then
    ['soccer']; [ageGroup], for which the plan has no field, to ['Youth'].
    [difficulty] is not looked for in the text: it is the plan's
    [difficulty], then ['intermediate']. *)
Theorem C9_academy_info_fallbacks (text : string) (trainingPlan : TrainingPlan.t)
    (structureAnalysis : option StructureAnalysis.t) :
  let info := extractAcademyInfo text trainingPlan structureAnalysis in
  let scannedName := firstAcademyName (firstN 20 (splitLines text)) in
  (AcademyInfo.academyName info
   = if isEmpty scannedName then
       match planValue (TrainingPlan.academyName trainingPlan),
             planValue (TrainingPlan.title trainingPlan) with
       | Some name, _ => name
       | None, Some title => title
       | None, None => "Training Academy"
       end
     else scannedName)
  /\ (AcademyInfo.sport info
      = if isEmpty (scanSport text) then
          match planValue (TrainingPlan.category trainingPlan) with
          | Some category => category
          | None => "soccer"
          end
        else scanSport text)
  /\ (AcademyInfo.ageGroup info
      = if isEmpty (scanAgeGroup text) then "Youth" else scanAgeGroup text)
  /\ (AcademyInfo.difficulty info
      = match planValue (TrainingPlan.difficulty trainingPlan) with
        | Some difficulty => difficulty
        | None => "intermediate"
        end).
Proof.
  intros info scannedName. unfold info, extractAcademyInfo. simpl.
  fold scannedName. unfold orStr.
  rewrite !orOpt_planValue.
  repeat split.
Qed.

(** The four defaults together: nothing in the text, nothing in the plan. *)
Example academy_info_defaults :
  extractAcademyInfo "" samplePlan None
  = {| AcademyInfo.academyName := "Training Academy";
       AcademyInfo.sport := "soccer";
       AcademyInfo.ageGroup := "Youth";
       AcademyInfo.program := "Training Program";
       AcademyInfo.location := "Training Facility";
       AcademyInfo.difficulty := "intermediate" |}.
Proof. reflexivity. Qed.

(** ** The upcoming sessions *)

Section SortByKey.

Context {A : Type}.
Variable key : A -> Z.

Lemma insertByKey_permutation (x : A) (xs : list A) :
  Permutation (insertByKey key x xs) (x :: xs).
Proof.
  induction xs as [| y rest IH]; simpl; [apply Permutation_refl |].
  destruct (Z.leb (key x) (key y)); [apply Permutation_refl |].
  eapply Permutation_trans; [apply perm_skip, IH | apply perm_swap].
Qed.

Lemma sortByKey_permutation (xs : list A) : Permutation (sortByKey key xs) xs.
Proof.
  induction xs as [| x rest IH]; simpl; [constructor |].
  eapply Permutation_trans; [apply insertByKey_permutation |].
  apply perm_skip, IH.
Qed.

Lemma insertByKey_sorted (x : A) (xs : list A) :
  StronglySorted (keyOrder key) xs -> StronglySorted (keyOrder key) (insertByKey key x xs).
Proof.
  induction 1 as [| y rest Hsorted IH Hall]; simpl.
  - repeat constructor.
  - destruct (Z.leb_spec (key x) (key y)) as [Hle | Hgt].
    + constructor; [constructor; assumption |].
      constructor; [exact Hle |].
      eapply Forall_impl; [| exact Hall]. unfold keyOrder. intros z Hz. lia.
    + constructor; [exact IH |].
      eapply Permutation_Forall.
      * apply Permutation_sym, insertByKey_permutation.
      * constructor; [unfold keyOrder; lia | exact Hall].
Qed.

Lemma sortByKey_sorted (xs : list A) : StronglySorted (keyOrder key) (sortByKey key xs).
Proof.
  induction xs as [| x rest IH]; simpl; [constructor |].
  apply insertByKey_sorted, IH.
Qed.

End SortByKey.

Lemma StronglySorted_weaken {A : Type} (R S : A -> A -> Prop) (xs : list A) :
  (forall a b, R a b -> S a b) -> StronglySorted R xs -> StronglySorted S xs.
Proof.
  intros HRS. induction 1 as [| x rest Hsorted IH Hall]; constructor; [exact IH |].
  eapply Forall_impl; [| exact Hall]. intros b. apply HRS.
Qed.

Lemma flat_map_count {A B : Type} (f : A -> list B) (xs : list A) :
  List.length (flat_map f xs) = list_sum (map (fun x => List.length (f x)) xs).
Proof.
  induction xs as [| x rest IH]; simpl; [reflexivity |].
  rewrite length_app, IH. reflexivity.
Qed.

(** C10.  [convertToUpcomingSessions] returns the entries of all daily
    sessions of all weeks, each once: its result is a permutation of the
    entries in week and session order, as long as the sum of the lengths
    of the [dailySessions].  The result is in ascending order of [date].
    The [date] of the entry of a session is [calculateSessionDate] of the
    week number of its week and of its [day], not the [date] stored in the
    session. *)
Theorem C10_upcoming_sessions_sorted_by_recomputed_date (clock : Clock)
    (Schedule : Type) (extractedData : ExtractionResult.t Schedule) :
  let upcoming := convertToUpcomingSessions clock extractedData in
  let weeks := ExtractionResult.sessions extractedData in
  List.length upcoming
  = list_sum (map (fun week => List.length (WeekSession.dailySessions week)) weeks)
  /\ Permutation upcoming
       (flat_map (fun week =>
                    map (toUpcomingSession clock extractedData week)
                        (WeekSession.dailySessions week)) weeks)
  /\ StronglySorted
       (fun a b => UpcomingSession.date a <= UpcomingSession.date b) upcoming
  /\ forall week session,
       UpcomingSession.date (toUpcomingSession clock extractedData week session)
       = calculateSessionDate clock (WeekSession.weekNumber week) (DailySession.day session).
Proof.
  intros upcoming weeks.
  assert (Hperm : Permutation upcoming (upcomingEntries clock extractedData))
    by apply sortByKey_permutation.
  split; [| split; [exact Hperm | split]].
  - rewrite (Permutation_length Hperm). unfold upcomingEntries.
    rewrite flat_map_count. fold weeks.
    f_equal. apply map_ext. intros week. apply length_map.
  - eapply StronglySorted_weaken;
      [| apply (sortByKey_sorted (fun entry => dateValue (UpcomingSession.date entry)))].
    unfold keyOrder, dateValue, msPerDay. intros a b Hab. simpl in Hab. lia.
  - reflexivity.
Qed.

(** The stored date and the recomputed one differ for the overview
    session of a week: it is stored with the date of the Monday and listed
    with the date computed for the day name ['week_plan'], which is no
    weekday name. *)
Example overview_session_is_redated :
  calculateSessionDate noonUTC 1 "monday" = 19723
  /\ calculateSessionDate noonUTC 1 "week_plan" = 19728.
Proof. split; reflexivity. Qed.

(** * Further properties *)

(** ** The date calculator, on every device *)

Lemma weekday_range (d : Z) : 0 <= weekday d <= 6.
Proof. unfold weekday. pose proof (Z.mod_pos_bound (d + 4) 7 ltac:(lia)). lia. Qed.

Lemma indexOfFrom_range (i : Z) (x : string) (xs : list string) :
  indexOfFrom i x xs = -1
  \/ i <= indexOfFrom i x xs < i + Z.of_nat (List.length xs).
Proof.
  revert i. induction xs as [| y rest IH]; intros i; simpl; [left; reflexivity |].
  destruct (String.eqb x y); [right; lia |].
  destruct (IH (i + 1)) as [H | H]; [left; exact H | right; lia].
Qed.

Lemma dayIndex_range (dayName : string) :
  -1 <= indexOf dayNames (toLowerCase dayName) <= 6.
Proof.
  unfold indexOf.
  pose proof (indexOfFrom_range 0 (toLowerCase dayName) dayNames) as H.
  change (Z.of_nat (List.length dayNames)) with 7 in H. lia.
Qed.

Lemma weekday_plus_week (d k : Z) : weekday (d + k * 7) = weekday d.
Proof.
  unfold weekday. replace (d + k * 7 + 4) with (d + 4 + k * 7) by lia.
  apply Z.mod_add. lia.
Qed.

(** The days added to a day reach the weekday asked for. *)
Lemma weekday_reached (start index : Z) :
  weekday (start + (index - weekday start + 7) mod 7) = index mod 7.
Proof.
  unfold weekday.
  rewrite <- Z.add_assoc, (Z.add_comm _ 4), Z.add_assoc.
  rewrite Z.add_mod_idemp_r by lia.
  pose proof (Z.div_mod (start + 4) 7 ltac:(lia)) as Hdiv.
  replace (start + 4 + (index - (start + 4) mod 7 + 7))
    with (index + ((start + 4) / 7 + 1) * 7) by lia.
  apply Z.mod_add. lia.
Qed.

Lemma days_added_range (start index : Z) : 0 <= (index - weekday start + 7) mod 7 <= 6.
Proof.
  pose proof (Z.mod_pos_bound (index - weekday start + 7) 7 ltac:(lia)). lia.
Qed.

Lemma div_add_days (l k : Z) : (l + k * msPerDay) / msPerDay = l / msPerDay + k.
Proof. unfold msPerDay. apply Z.div_add. lia. Qed.

(** The UTC day of an instant that is [m] days and [drift] milliseconds
    after another. *)
Lemma utcDay_after (t0 m drift : Z) :
  (drift = 0 -> utcDay (t0 + m * msPerDay + drift) = utcDay t0 + m)
  /\ (- msPerDay <= drift <= msPerDay ->
      utcDay t0 + m - 1 <= utcDay (t0 + m * msPerDay + drift) <= utcDay t0 + m + 1).
Proof.
  unfold utcDay, msPerDay.
  pose proof (Z.div_mod t0 86400000 ltac:(lia)) as H0.
  pose proof (Z.mod_pos_bound t0 86400000 ltac:(lia)) as B0.
  pose proof (Z.div_mod (t0 + m * 86400000 + drift) 86400000 ltac:(lia)) as H1.
  pose proof (Z.mod_pos_bound (t0 + m * 86400000 + drift) 86400000 ltac:(lia)) as B1.
  split; intros Hdrift; lia.
Qed.

Lemma timeClip_some (t u : Z) : Zoned.timeClip t = Some u -> u = t.
Proof.
  unfold Zoned.timeClip. destruct (Z.leb (Z.abs t) Zoned.maxTime); congruence.
Qed.

Lemma session_date_instant (d : Zoned.Device) (weekNumber : Z) (dayName : string) (a : Z) :
  Zoned.calculateSessionDate d weekNumber dayName = Ok a ->
  exists t, Zoned.calculateSessionInstant d weekNumber dayName = Some t /\ a = utcDay t.
Proof.
  unfold Zoned.calculateSessionDate.
  destruct (Zoned.calculateSessionInstant d weekNumber dayName) as [t |]; [| discriminate].
  intros H. injection H as <-. exists t. split; reflexivity.
Qed.

(** The local reading of the instant computed: the reading of the call,
    moved by the weeks asked for and by the days to the weekday. *)
Lemma session_instant_local (d : Zoned.Device) (weekNumber : Z) (dayName : string)
    (t : Z) :
  sameTimeReadable d ->
  Zoned.calculateSessionInstant d weekNumber dayName = Some t ->
  Zoned.localTime d t
  = Zoned.localTime d (Zoned.now d)
    + ((weekNumber - 1) * 7
       + (indexOf dayNames (toLowerCase dayName)
          - weekday (Zoned.localDay d (Zoned.now d) + (weekNumber - 1) * 7) + 7) mod 7)
      * msPerDay.
Proof.
  intros Hreadable. unfold Zoned.calculateSessionInstant, Zoned.setDateBy.
  pose proof (dayIndex_range dayName) as Hindex.
  generalize dependent (indexOf dayNames (toLowerCase dayName)). intros index Hindex.
  generalize ((weekNumber - 1) * 7). intros k.
  destruct (Zoned.timeClip (Zoned.utcOf d (Zoned.localTime d (Zoned.now d) + k * msPerDay)))
    as [t1 |] eqn:Hfirst; [| discriminate].
  apply timeClip_some in Hfirst.
  assert (Hlocal1 : Zoned.localTime d t1 = Zoned.localTime d (Zoned.now d) + k * msPerDay).
  { subst t1. pose proof (Hreadable k) as Hk. unfold readable in Hk.
    unfold Zoned.localTime at 1. rewrite Hk. unfold Zoned.utcOf. ring. }
  unfold Zoned.getDay, Zoned.localDay at 1. rewrite Hlocal1, div_add_days.
  fold (Zoned.localDay d (Zoned.now d)).
  pose proof (weekday_range (Zoned.localDay d (Zoned.now d) + k)) as Hday.
  rewrite Z.rem_mod_nonneg by lia.
  generalize ((index - weekday (Zoned.localDay d (Zoned.now d) + k) + 7) mod 7). intros n.
  intros Hsecond. apply timeClip_some in Hsecond. subst t.
  pose proof (Hreadable (k + n)) as Hkn. unfold readable in Hkn.
  replace (Zoned.localTime d (Zoned.now d) + k * msPerDay + n * msPerDay)
    with (Zoned.localTime d (Zoned.now d) + (k + n) * msPerDay) by ring.
  unfold Zoned.localTime at 1. rewrite Hkn. unfold Zoned.utcOf. ring.
Qed.

Lemma session_instant_weekday (d : Zoned.Device) (weekNumber : Z) (dayName : string)
    (t : Z) :
  sameTimeReadable d ->
  Zoned.calculateSessionInstant d weekNumber dayName = Some t ->
  weekday (Zoned.localDay d t) = indexOf dayNames (toLowerCase dayName) mod 7.
Proof.
  intros Hreadable Ht.
  pose proof (session_instant_local d weekNumber dayName t Hreadable Ht) as Hlocal.
  unfold Zoned.localDay at 1. rewrite Hlocal, div_add_days.
  fold (Zoned.localDay d (Zoned.now d)).
  rewrite Z.add_assoc. apply weekday_reached.
Qed.

Lemma local_day_near_utc_day (d : Zoned.Device) (t : Z) :
  (Zoned.offsetAt d t = 0 -> Zoned.localDay d t = utcDay t)
  /\ (- msPerDay <= Zoned.offsetAt d t <= msPerDay ->
      utcDay t - 1 <= Zoned.localDay d t <= utcDay t + 1).
Proof.
  unfold Zoned.localDay, Zoned.localTime.
  destruct (utcDay_after t 0 (Zoned.offsetAt d t)) as [Hsame Hnear].
  replace (t + 0 * msPerDay + Zoned.offsetAt d t) with (t + Zoned.offsetAt d t)
    in Hsame, Hnear by ring.
  fold (utcDay (t + Zoned.offsetAt d t)).
  split; intros Hoffset; [rewrite Hsame by exact Hoffset; lia |].
  assert (H := Hnear Hoffset). lia.
Qed.

(** The two calculators agree on a device of fixed offset, whenever the
    instants stay in the range of [Date]. *)
Lemma fixed_offset_readable (clock : Clock) : sameTimeReadable (deviceOf clock).
Proof. intros k. reflexivity. Qed.

Lemma calculateSessionDate_on_a_fixed_offset (clock : Clock) (weekNumber : Z)
    (dayName : string) (a : Z) :
  Zoned.calculateSessionDate (deviceOf clock) weekNumber dayName = Ok a ->
  a = calculateSessionDate clock weekNumber dayName.
Proof.
  unfold Zoned.calculateSessionDate, Zoned.calculateSessionInstant, Zoned.setDateBy.
  destruct (Zoned.timeClip _) as [t1 |] eqn:Hfirst; [| discriminate].
  apply timeClip_some in Hfirst.
  destruct (Zoned.timeClip _) as [t2 |] eqn:Hsecond; [| discriminate].
  apply timeClip_some in Hsecond.
  intros H. injection H as <-.
  unfold calculateSessionDate, addDays, getDay, localDay.
  unfold Zoned.getDay, Zoned.localDay, Zoned.localTime, Zoned.utcOf in *.
  cbn [deviceOf Zoned.now Zoned.offsetAt Zoned.offsetOfLocal] in *.
  subst t2 t1. f_equal.
  match goal with
  | |- ?x + ?o + ?n * msPerDay - ?o = _ =>
      replace (x + o + n * msPerDay - o) with (x + n * msPerDay) by ring
  end.
  replace (nowMs clock + offsetMinutes clock * 60000 + (weekNumber - 1) * 7 * msPerDay
           - offsetMinutes clock * 60000)
    with (nowMs clock + (weekNumber - 1) * 7 * msPerDay) by ring.
  reflexivity.
Qed.

Lemma newYork_readable : sameTimeReadable newYork.
Proof.
  intros k. unfold readable.
  remember (Zoned.localTime newYork (Zoned.now newYork)) as l0 eqn:Hl0.
  vm_compute in Hl0. subst l0.
  unfold Zoned.utcOf. cbn [newYork Zoned.offsetAt Zoned.offsetOfLocal].
  unfold springForward, hourMs, msPerDay.
  repeat match goal with
         | |- context [Z.ltb ?x ?y] => destruct (Z.ltb_spec x y)
         end; try reflexivity; lia.
Qed.

Lemma london_readable : sameTimeReadable london.
Proof.
  intros k. unfold readable.
  remember (Zoned.localTime london (Zoned.now london)) as l0 eqn:Hl0.
  vm_compute in Hl0. subst l0.
  unfold Zoned.utcOf. cbn [london Zoned.offsetAt Zoned.offsetOfLocal].
  unfold summerTime, hourMs, msPerDay.
  repeat match goal with
         | |- context [Z.ltb ?x ?y] => destruct (Z.ltb_spec x y)
         end; try reflexivity; lia.
Qed.

Lemma newYork_offsets (t u : Z) :
  - msPerDay <= Zoned.offsetAt newYork t - Zoned.offsetAt newYork u <= msPerDay.
Proof.
  cbn [newYork Zoned.offsetAt]. unfold hourMs, msPerDay.
  destruct (Z.ltb t springForward), (Z.ltb u springForward); lia.
Qed.

Lemma london_offsets (t : Z) : - msPerDay <= Zoned.offsetAt london t <= msPerDay.
Proof.
  cbn [london Zoned.offsetAt]. unfold hourMs, msPerDay.
  destruct (Z.ltb t summerTime); lia.
Qed.

(** X1.  On every device on which the local time of day of the call is
    readable on every date, when [calculateSessionDate] returns for a week
    and for the next: the two sessions are seven days apart on the local
    calendar; the two dates returned are seven days apart when the zone
    offset is the same at the two sessions, and six to eight days apart
    when it has changed by at most a day. *)
Theorem calculateSessionDate_of_the_next_week (d : Zoned.Device) (weekNumber : Z)
    (dayName : string) (a b : Z) :
  sameTimeReadable d ->
  Zoned.calculateSessionDate d weekNumber dayName = Ok a ->
  Zoned.calculateSessionDate d (weekNumber + 1) dayName = Ok b ->
  exists t t',
    Zoned.calculateSessionInstant d weekNumber dayName = Some t
    /\ Zoned.calculateSessionInstant d (weekNumber + 1) dayName = Some t'
    /\ Zoned.localDay d t' = Zoned.localDay d t + 7
    /\ (Zoned.offsetAt d t' = Zoned.offsetAt d t -> b = a + 7)
    /\ (- msPerDay <= Zoned.offsetAt d t' - Zoned.offsetAt d t <= msPerDay ->
        a + 6 <= b <= a + 8).
Proof.
  intros Hreadable Ha Hb.
  apply session_date_instant in Ha. destruct Ha as [t [Ht ->]].
  apply session_date_instant in Hb. destruct Hb as [t' [Ht' ->]].
  exists t, t'. split; [exact Ht |]. split; [exact Ht' |].
  pose proof (session_instant_local d weekNumber dayName t Hreadable Ht) as Hlocal.
  pose proof (session_instant_local d (weekNumber + 1) dayName t' Hreadable Ht') as Hlocal'.
  replace (Zoned.localDay d (Zoned.now d) + (weekNumber + 1 - 1) * 7)
    with (Zoned.localDay d (Zoned.now d) + (weekNumber - 1) * 7 + 1 * 7) in Hlocal' by ring.
  rewrite weekday_plus_week in Hlocal'.
  revert Hlocal Hlocal'.
  generalize ((indexOf dayNames (toLowerCase dayName)
               - weekday (Zoned.localDay d (Zoned.now d) + (weekNumber - 1) * 7) + 7) mod 7).
  intros n Hlocal Hlocal'.
  assert (Hweek : Zoned.localTime d t' = Zoned.localTime d t + 7 * msPerDay)
    by (rewrite Hlocal, Hlocal'; ring).
  split.
  { unfold Zoned.localDay. rewrite Hweek. apply div_add_days. }
  unfold Zoned.localTime in Hweek. clear Hlocal Hlocal'.
  assert (Hlater : t' = t + 7 * msPerDay + (Zoned.offsetAt d t - Zoned.offsetAt d t'))
    by (unfold msPerDay in *; lia).
  destruct (utcDay_after t 7 (Zoned.offsetAt d t - Zoned.offsetAt d t')) as [Hsame Hnear].
  rewrite <- Hlater in Hsame, Hnear.
  split.
  - intros Hoffset. apply Hsame. lia.
  - intros Hoffset. assert (H := Hnear ltac:(unfold msPerDay in *; lia)). lia.
Qed.

(** In New York, across the change of 10 March 2024: Saturday 9 March
    and Saturday 16 March on the local calendar, printed as 10 March and
    16 March, six days apart. *)
Lemma calculateSessionDate_of_the_next_week_witness :
  Zoned.calculateSessionDate newYork 1 "saturday" = Ok 19792
  /\ Zoned.calculateSessionDate newYork 2 "saturday" = Ok 19798
  /\ exists t t',
       Zoned.calculateSessionInstant newYork 1 "saturday" = Some t
       /\ Zoned.calculateSessionInstant newYork 2 "saturday" = Some t'
       /\ Zoned.localDay newYork t' = Zoned.localDay newYork t + 7
       /\ 19792 + 6 <= 19798 <= 19792 + 8.
Proof.
  split; [reflexivity |]. split; [reflexivity |].
  destruct (calculateSessionDate_of_the_next_week newYork 1 "saturday" 19792 19798
              newYork_readable eq_refl eq_refl) as [t [t' [Ht [Ht' [Hlocal [_ Hnear]]]]]].
  exists t, t'. split; [exact Ht |]. split; [exact Ht' |]. split; [exact Hlocal |].
  apply Hnear. apply newYork_offsets.
Defined.

(** X2.  On every device on which the local time of day of the call is
    readable on every date, a date [calculateSessionDate] returns, for a
    weekday name or not, lies in the seven days that start
    [weekNumber - 1] weeks after today's UTC date when the zone offset at
    the session is the offset at the call, and at most one day outside
    them when the offset has changed by at most a day. *)
Theorem calculateSessionDate_is_in_the_week_asked_for (d : Zoned.Device)
    (weekNumber : Z) (dayName : string) (a : Z) :
  sameTimeReadable d ->
  Zoned.calculateSessionDate d weekNumber dayName = Ok a ->
  exists t,
    Zoned.calculateSessionInstant d weekNumber dayName = Some t
    /\ (Zoned.offsetAt d t = Zoned.offsetAt d (Zoned.now d) ->
        utcDay (Zoned.now d) + (weekNumber - 1) * 7
        <= a <= utcDay (Zoned.now d) + (weekNumber - 1) * 7 + 6)
    /\ (- msPerDay <= Zoned.offsetAt d t - Zoned.offsetAt d (Zoned.now d) <= msPerDay ->
        utcDay (Zoned.now d) + (weekNumber - 1) * 7 - 1
        <= a <= utcDay (Zoned.now d) + (weekNumber - 1) * 7 + 7).
Proof.
  intros Hreadable Ha.
  apply session_date_instant in Ha. destruct Ha as [t [Ht ->]].
  exists t. split; [exact Ht |].
  pose proof (session_instant_local d weekNumber dayName t Hreadable Ht) as Hlocal.
  pose proof (days_added_range (Zoned.localDay d (Zoned.now d) + (weekNumber - 1) * 7)
                (indexOf dayNames (toLowerCase dayName))) as Hadded.
  revert Hlocal Hadded.
  generalize ((indexOf dayNames (toLowerCase dayName)
               - weekday (Zoned.localDay d (Zoned.now d) + (weekNumber - 1) * 7) + 7) mod 7).
  intros n Hlocal Hadded.
  unfold Zoned.localTime in Hlocal.
  assert (Hlater : t = Zoned.now d + ((weekNumber - 1) * 7 + n) * msPerDay
                       + (Zoned.offsetAt d (Zoned.now d) - Zoned.offsetAt d t))
    by (unfold msPerDay in *; lia).
  destruct (utcDay_after (Zoned.now d) ((weekNumber - 1) * 7 + n)
              (Zoned.offsetAt d (Zoned.now d) - Zoned.offsetAt d t)) as [Hsame Hnear].
  rewrite <- Hlater in Hsame, Hnear. clear Hlater Hlocal.
  split.
  - intros Hoffset. rewrite Hsame by lia. lia.
  - intros Hoffset. assert (H := Hnear ltac:(unfold msPerDay in *; lia)). lia.
Qed.

(** In New York, across the change of 10 March 2024: the Saturday of
    week 2 is printed as 16 March, the day before the seven days that
    start on 17 March. *)
Lemma calculateSessionDate_is_in_the_week_asked_for_witness :
  Zoned.calculateSessionDate newYork 2 "saturday" = Ok 19798
  /\ utcDay (Zoned.now newYork) + (2 - 1) * 7 - 1
     <= 19798 <= utcDay (Zoned.now newYork) + (2 - 1) * 7 + 7.
Proof.
  split; [reflexivity |].
  destruct (calculateSessionDate_is_in_the_week_asked_for newYork 2 "saturday" 19798
              newYork_readable eq_refl) as [t [_ [_ Hnear]]].
  apply Hnear. apply newYork_offsets.
Defined.

(** X3.  On every device on which the local time of day of the call is
    readable on every date, a date [calculateSessionDate] returns is the
    UTC date of an instant that falls, on the local calendar, on the
    weekday asked for; a name that is no weekday name, whose index is -1,
    lands on a Saturday. *)
Theorem calculateSessionDate_falls_on_the_local_weekday (d : Zoned.Device)
    (weekNumber : Z) (dayName : string) (a : Z) :
  sameTimeReadable d ->
  Zoned.calculateSessionDate d weekNumber dayName = Ok a ->
  exists t,
    Zoned.calculateSessionInstant d weekNumber dayName = Some t
    /\ a = utcDay t
    /\ - 1 <= indexOf dayNames (toLowerCase dayName) <= 6
    /\ weekday (Zoned.localDay d t)
       = (if Z.eqb (indexOf dayNames (toLowerCase dayName)) (- 1) then 6
          else indexOf dayNames (toLowerCase dayName)).
Proof.
  intros Hreadable Ha.
  apply session_date_instant in Ha. destruct Ha as [t [Ht ->]].
  exists t. split; [exact Ht |]. split; [reflexivity |].
  pose proof (dayIndex_range dayName) as Hindex. split; [exact Hindex |].
  rewrite (session_instant_weekday d weekNumber dayName t Hreadable Ht).
  destruct (Z.eqb_spec (indexOf dayNames (toLowerCase dayName)) (- 1)) as [-> | Hvalid];
    [reflexivity |].
  apply Z.mod_small. lia.
Qed.

(** In New York, the Monday of week 2 is printed as 18 March 2024 and is
    a Monday there. *)
Lemma calculateSessionDate_falls_on_the_local_weekday_witness :
  Zoned.calculateSessionDate newYork 2 "monday" = Ok 19800
  /\ exists t,
       Zoned.calculateSessionInstant newYork 2 "monday" = Some t
       /\ 19800 = utcDay t
       /\ weekday (Zoned.localDay newYork t) = 1.
Proof.
  split; [reflexivity |].
  destruct (calculateSessionDate_falls_on_the_local_weekday newYork 2 "monday" 19800
              newYork_readable eq_refl) as [t [Ht [Hdate [_ Hweekday]]]].
  exists t. split; [exact Ht |]. split; [exact Hdate | exact Hweekday].
Defined.

(** X4.  On every device on which the local time of day of the call is
    readable on every date, a date [calculateSessionDate] returns for a
    weekday name is at most one day off: when the zone offset at the
    session is at most a day, the date falls on the weekday asked for or
    on the day before or after it, and it falls on the weekday itself when
    the offset at the session (not at the call) is 0. *)
Theorem calculateSessionDate_is_at_most_one_day_off (d : Zoned.Device)
    (weekNumber : Z) (dayName : string) (a : Z) :
  sameTimeReadable d ->
  0 <= indexOf dayNames (toLowerCase dayName) ->
  Zoned.calculateSessionDate d weekNumber dayName = Ok a ->
  exists t,
    Zoned.calculateSessionInstant d weekNumber dayName = Some t
    /\ (- msPerDay <= Zoned.offsetAt d t <= msPerDay ->
        exists shift,
          - 1 <= shift <= 1
          /\ weekday (a + shift) = indexOf dayNames (toLowerCase dayName))
    /\ (Zoned.offsetAt d t = 0 -> weekday a = indexOf dayNames (toLowerCase dayName)).
Proof.
  intros Hreadable Hindex Ha.
  apply session_date_instant in Ha. destruct Ha as [t [Ht ->]].
  exists t. split; [exact Ht |].
  pose proof (session_instant_weekday d weekNumber dayName t Hreadable Ht) as Hweekday.
  pose proof (dayIndex_range dayName) as Hrange.
  rewrite Z.mod_small in Hweekday by lia.
  destruct (local_day_near_utc_day d t) as [Hsame Hnear].
  split.
  - intros Hoffset. exists (Zoned.localDay d t - utcDay t).
    split; [assert (H := Hnear Hoffset); lia |].
    replace (utcDay t + (Zoned.localDay d t - utcDay t)) with (Zoned.localDay d t) by ring.
    exact Hweekday.
  - intros Hoffset. rewrite <- (Hsame Hoffset). exact Hweekday.
Qed.

(** In London, called on UTC on 25 March 2024: the Monday of week 2 is
    1 April on the local calendar, in summer time, and is printed as
    31 March, a Sunday. *)
Lemma calculateSessionDate_is_at_most_one_day_off_witness :
  Zoned.offsetAt london (Zoned.now london) = 0
  /\ Zoned.calculateSessionDate london 2 "monday" = Ok 19813
  /\ weekday 19813 = 0
  /\ exists shift, - 1 <= shift <= 1 /\ weekday (19813 + shift) = 1.
Proof.
  split; [reflexivity |]. split; [reflexivity |]. split; [reflexivity |].
  destruct (calculateSessionDate_is_at_most_one_day_off london 2 "monday" 19813
              london_readable) as [t [_ [Hnear _]]];
    [vm_compute; intros Hgt; discriminate Hgt | reflexivity |].
  apply Hnear. apply london_offsets.
Defined.

(** ** What a match is made of *)

Lemma searchFrom_found (m : matcher) (pos : nat) (s : string) (hit : nat * nat) :
  searchFrom m pos s = Some hit ->
  exists i, fst hit = (pos + i)%nat /\ m (drop i s) = Some (snd hit).
Proof.
  revert pos. induction s as [| c r IH]; intros pos H; simpl in H.
  - destruct (m EmptyString) as [n |] eqn:Hm; [| discriminate].
    injection H as <-. exists O. split; [simpl; lia | exact Hm].
  - destruct (m (String c r)) as [n |] eqn:Hm.
    + injection H as <-. exists O. split; [simpl; lia | exact Hm].
    + apply IH in H. destruct H as [i [Hpos Hat]].
      exists (S i). split; [lia | exact Hat].
Qed.

Lemma search_found (m : matcher) (s : string) (hit : nat * nat) :
  search m s = Some hit ->
  exists i, matched s hit = take (snd hit) (drop i s) /\ m (drop i s) = Some (snd hit).
Proof.
  intros H. apply searchFrom_found in H. destruct H as [i [Hpos Hat]].
  exists i. split; [| exact Hat]. unfold matched. rewrite Hpos. reflexivity.
Qed.

Lemma execAllFrom_found (m : matcher) (pos skip : nat) (s : string) (hit : nat * nat) :
  In hit (execAllFrom m pos skip s) ->
  exists i, fst hit = (pos + i)%nat /\ m (drop i s) = Some (snd hit).
Proof.
  revert pos skip. induction s as [| c r IH]; intros pos skip H; simpl in H; [contradiction |].
  assert (Hrest : forall k,
             In hit (execAllFrom m (S pos) k r) ->
             exists i, fst hit = (pos + i)%nat /\ m (drop i (String c r)) = Some (snd hit)).
  { intros k Hk. apply IH in Hk. destruct Hk as [i [Hpos Hat]].
    exists (S i). split; [lia | exact Hat]. }
  destruct skip as [| k]; [| eapply Hrest; exact H].
  destruct (m (String c r)) as [[| n] |] eqn:Hm; try (eapply Hrest; exact H).
  destruct H as [<- | H]; [| eapply Hrest; exact H].
  exists O. split; [simpl; lia | exact Hm].
Qed.

Lemma execAll_found (m : matcher) (s : string) (hit : nat * nat) :
  In hit (execAll m s) ->
  exists i, matched s hit = take (snd hit) (drop i s) /\ m (drop i s) = Some (snd hit).
Proof.
  intros H. apply execAllFrom_found in H. destruct H as [i [Hpos Hat]].
  exists i. split; [| exact Hat]. unfold matched. rewrite Hpos. reflexivity.
Qed.

Lemma anyOf_found (ms : list matcher) (s : string) (n : nat) :
  anyOf ms s = Some n -> exists m, In m ms /\ m s = Some n.
Proof.
  induction ms as [| m rest IH]; simpl; [discriminate |].
  unfold orElse. destruct (m s) as [k |] eqn:Hm.
  - intros H. injection H as <-. exists m. split; [left; reflexivity | exact Hm].
  - intros H. apply IH in H. destruct H as [m' [Hin Hm']].
    exists m'. split; [right; exact Hin | exact Hm'].
Qed.

(** A character that folds to a lower-case letter has that letter as its
    lower case. *)
Lemma lowerChar_of_fold (c : ascii) : isLower (fold c) = true -> lowerChar c = fold c.
Proof.
  destruct c as [[] [] [] [] [] [] [] []]; vm_compute; intros H;
    first [discriminate H | reflexivity].
Qed.

(** The text matched by a lower-case literal under the [i] flag is the
    literal up to case. *)
Lemma litCI_matched (w s : string) (n : nat) :
  allChars isLower w = true ->
  litCI w s = Some n ->
  n = String.length w /\ toLowerCase (take n s) = w.
Proof.
  revert s n. induction w as [| p w' IH]; intros s n Hlower H; simpl in H.
  - injection H as <-. split; reflexivity.
  - simpl in Hlower. apply andb_prop in Hlower. destruct Hlower as [Hp Hw'].
    destruct s as [| c s']; [discriminate |].
    destruct (Ascii.eqb_spec (fold c) p) as [Hfold | Hfold]; [| discriminate].
    destruct (litCI w' s') as [k |] eqn:Hrest; [| discriminate].
    simpl in H. injection H as <-.
    destruct (IH s' k Hw' Hrest) as [Hk Htext].
    split; [simpl; congruence |].
    simpl. rewrite Htext. f_equal.
    rewrite lowerChar_of_fold; [exact Hfold | rewrite Hfold; exact Hp].
Qed.

Lemma litCI_alternatives_matched (names : list string) (s : string) (n : nat) :
  Forall (fun w => allChars isLower w = true) names ->
  anyOf (map litCI names) s = Some n ->
  In (toLowerCase (take n s)) names.
Proof.
  intros Hlower H. apply anyOf_found in H. destruct H as [m [Hin Hm]].
  apply in_map_iff in Hin. destruct Hin as [w [<- Hw]].
  rewrite Forall_forall in Hlower.
  destruct (litCI_matched w s n (Hlower w Hw) Hm) as [_ Htext].
  rewrite Htext. exact Hw.
Qed.

Lemma weekday_hits_are_names (s : string) (hit : nat * nat) :
  In hit (execAll weekdayPattern s) ->
  In (toLowerCase (matched s hit)) weekdayNames.
Proof.
  intros H. apply execAll_found in H. destruct H as [i [-> Hat]].
  apply (litCI_alternatives_matched weekdayNames); [| exact Hat].
  repeat constructor.
Qed.

(** ** Academy information: more *)

(** X5.  The sport read from the text is one of the six sport names, in
    lower case, or the empty string when the text names none. *)
Theorem scanSport_is_a_known_sport (text : string) :
  scanSport text = "" \/ In (scanSport text) sportNames.
Proof.
  unfold scanSport.
  destruct (search sportPattern text) as [hit |] eqn:Hsearch; [right | left; reflexivity].
  apply search_found in Hsearch. destruct Hsearch as [i [-> Hat]].
  apply (litCI_alternatives_matched sportNames); [| exact Hat].
  repeat constructor.
Qed.

Lemma orStr_nonempty (a b : string) : b <> "" -> orStr a b <> "".
Proof. intros Hb. unfold orStr. destruct a; simpl; [exact Hb | discriminate]. Qed.

Lemma orOpt_nonempty (a : option string) (b : string) : b <> "" -> orOpt a b <> "".
Proof. intros Hb. destruct a as [s |]; simpl; [apply orStr_nonempty |]; exact Hb. Qed.

(** X6.  No field of the academy information is ever the empty string,
    whatever the text, the plan and the analysis. *)
Theorem extractAcademyInfo_fields_are_never_empty (text : string)
    (trainingPlan : TrainingPlan.t) (structureAnalysis : option StructureAnalysis.t) :
  let info := extractAcademyInfo text trainingPlan structureAnalysis in
  AcademyInfo.academyName info <> ""
  /\ AcademyInfo.sport info <> ""
  /\ AcademyInfo.ageGroup info <> ""
  /\ AcademyInfo.program info <> ""
  /\ AcademyInfo.location info <> ""
  /\ AcademyInfo.difficulty info <> "".
Proof.
  simpl. repeat split;
    repeat first [apply orStr_nonempty | apply orOpt_nonempty]; discriminate.
Qed.

(** ** The characters of an age group *)

Lemma take_plus (n k : nat) (s : string) :
  take (n + k) s = take n s ++ take k (drop n s).
Proof.
  revert s. induction n as [| n IH]; intros s; simpl; [reflexivity |].
  destruct s as [| c r]; simpl.
  - destruct k; reflexivity.
  - rewrite IH. reflexivity.
Qed.

Lemma allChars_append (p : ascii -> bool) (a b : string) :
  allChars p (a ++ b) = (allChars p a && allChars p b)%bool.
Proof.
  induction a as [| c r IH]; simpl; [reflexivity |].
  rewrite IH. apply andb_assoc.
Qed.

Lemma allChars_drop (p : ascii -> bool) (n : nat) (s : string) :
  allChars p s = true -> allChars p (drop n s) = true.
Proof.
  revert s. induction n as [| n IH]; intros s H; simpl; [exact H |].
  destruct s as [| c r]; [reflexivity |].
  simpl in H. apply andb_prop in H. apply IH. tauto.
Qed.

Lemma allChars_take (p : ascii -> bool) (n : nat) (s : string) :
  allChars p s = true -> allChars p (take n s) = true.
Proof.
  revert s. induction n as [| n IH]; intros s H; simpl; [reflexivity |].
  destruct s as [| c r]; [reflexivity |].
  simpl in H. apply andb_prop in H. destruct H as [Hc Hr].
  simpl. rewrite Hc. apply IH. exact Hr.
Qed.

Lemma allChars_span (p q : ascii -> bool) (s : string) :
  (forall c, q c = true -> p c = true) ->
  allChars p (take (span q s) s) = true.
Proof.
  intros Hqp. induction s as [| c r IH]; simpl; [reflexivity |].
  destruct (q c) eqn:Hq; simpl; [| reflexivity].
  rewrite (Hqp c Hq). exact IH.
Qed.

Lemma prefix_allChars (p : ascii -> bool) (w s : string) :
  String.prefix w s = true -> allChars p s = true -> allChars p w = true.
Proof.
  revert s. induction w as [| a w' IH]; intros s Hprefix Hs; simpl; [reflexivity |].
  destruct s as [| b s']; simpl in Hprefix; [discriminate |].
  destruct (ascii_dec a b) as [-> | _]; [| discriminate].
  simpl in Hs. apply andb_prop in Hs. destruct Hs as [Hb Hs'].
  rewrite Hb. simpl. eapply IH; eassumption.
Qed.

Lemma includes_cons (c : ascii) (r w : string) :
  includes (String c r) w = (String.prefix w (String c r) || includes r w)%bool.
Proof. reflexivity. Qed.

(** A string holds a substring only if it holds all its characters. *)
Lemma includes_allChars (p : ascii -> bool) (s w : string) :
  includes s w = true -> allChars p s = true -> allChars p w = true.
Proof.
  induction s as [| c r IH]; intros Hinc Hs.
  - destruct w; [reflexivity | discriminate].
  - rewrite includes_cons in Hinc. apply orb_prop in Hinc.
    destruct Hinc as [Hprefix | Hlater].
    + eapply prefix_allChars; [exact Hprefix | exact Hs].
    + simpl in Hs. apply andb_prop in Hs. apply IH; tauto.
Qed.

Section Confined.

Variable p : ascii -> bool.

Lemma confined_andThen (m1 m2 : matcher) :
  confined p m1 -> confined p m2 -> confined p (andThen m1 m2).
Proof.
  intros H1 H2 s n H. unfold andThen in H.
  destruct (m1 s) as [a |] eqn:Ha; [| discriminate].
  destruct (m2 (drop a s)) as [b |] eqn:Hb; [| discriminate].
  injection H as <-. rewrite take_plus, allChars_append.
  rewrite (H1 s a Ha), (H2 (drop a s) b Hb). reflexivity.
Qed.

Lemma confined_orElse (m1 m2 : matcher) :
  confined p m1 -> confined p m2 -> confined p (orElse m1 m2).
Proof.
  intros H1 H2 s n H. unfold orElse in H.
  destruct (m1 s) as [a |] eqn:Ha.
  - injection H as <-. eauto.
  - eauto.
Qed.

Lemma confined_anyOf (ms : list matcher) :
  Forall (confined p) ms -> confined p (anyOf ms).
Proof.
  induction 1 as [| m rest Hm _ IH]; simpl.
  - intros s n H. discriminate.
  - apply confined_orElse; assumption.
Qed.

Lemma confined_opt (m : matcher) : confined p m -> confined p (opt m).
Proof.
  intros Hm s n H. unfold opt in H.
  destruct (m s) as [a |] eqn:Ha; injection H as <-; [eauto | reflexivity].
Qed.

Lemma confined_spaces : (forall c, isSpace c = true -> p c = true) -> confined p spaces.
Proof.
  intros Hp s n H. unfold spaces in H. injection H as <-. apply allChars_span. exact Hp.
Qed.

Lemma confined_digits : (forall c, isDigit c = true -> p c = true) -> confined p digits.
Proof.
  intros Hp s n H. unfold digits in H.
  destruct (span isDigit s) as [| k] eqn:Hspan; [discriminate |].
  injection H as <-. rewrite <- Hspan. apply allChars_span. exact Hp.
Qed.

Lemma confined_lit (w : string) : allChars p w = true -> confined p (lit w).
Proof.
  intros Hw s n H. unfold lit in H.
  destruct (String.prefix w s) eqn:Hprefix; [| discriminate].
  injection H as <-. revert s Hprefix.
  induction w as [| a w' IH]; intros s Hprefix; [reflexivity |].
  destruct s as [| b s']; simpl in Hprefix; [discriminate |].
  destruct (ascii_dec a b) as [-> | _]; [| discriminate].
  simpl in Hw. apply andb_prop in Hw. destruct Hw as [Hb Hw'].
  simpl. rewrite Hb. simpl. apply IH; assumption.
Qed.

Lemma confined_litCI (w : string) :
  (forall c, p (fold c) = true -> p c = true) ->
  allChars p w = true -> confined p (litCI w).
Proof.
  intros Hfold. induction w as [| a w' IH]; intros Hw s n H; simpl in H.
  - injection H as <-. reflexivity.
  - simpl in Hw. apply andb_prop in Hw. destruct Hw as [Ha Hw'].
    destruct s as [| c s']; [discriminate |].
    destruct (Ascii.eqb_spec (fold c) a) as [Hc | Hc]; [| discriminate].
    destruct (litCI w' s') as [k |] eqn:Hrest; [| discriminate].
    simpl in H. injection H as <-. simpl.
    rewrite (Hfold c) by (rewrite Hc; exact Ha). simpl.
    exact (IH Hw' s' k Hrest).
Qed.

End Confined.

Lemma ageCharacter_of_digit (c : ascii) : isDigit c = true -> ageCharacter c = true.
Proof.
  destruct c as [[] [] [] [] [] [] [] []]; vm_compute; intros H;
    first [discriminate H | reflexivity].
Qed.

Lemma ageCharacter_of_space (c : ascii) : isSpace c = true -> ageCharacter c = true.
Proof.
  destruct c as [[] [] [] [] [] [] [] []]; vm_compute; intros H;
    first [discriminate H | reflexivity].
Qed.

Lemma ageCharacter_of_fold (c : ascii) :
  ageCharacter (fold c) = true -> ageCharacter c = true.
Proof.
  destruct c as [[] [] [] [] [] [] [] []]; vm_compute; intros H;
    first [discriminate H | reflexivity].
Qed.

Lemma agePattern_confined : confined ageCharacter agePattern.
Proof.
  pose proof (confined_digits ageCharacter ageCharacter_of_digit) as Hdigits.
  pose proof (confined_spaces ageCharacter ageCharacter_of_space) as Hspaces.
  assert (Hword : forall w, allChars ageCharacter w = true ->
                            confined ageCharacter (litCI w)).
  { intros w. apply confined_litCI. exact ageCharacter_of_fold. }
  assert (Hyears : confined ageCharacter yearsPattern).
  { unfold yearsPattern.
    repeat first [apply confined_andThen | apply confined_opt];
      first [exact Hspaces | apply Hword; reflexivity]. }
  unfold agePattern. apply confined_anyOf.
  repeat apply Forall_cons; [| | | | apply Forall_nil];
    repeat apply confined_andThen;
    first [exact Hdigits | exact Hspaces | exact Hyears
          | apply Hword; reflexivity
          | apply confined_opt; apply Hword; reflexivity
          | apply confined_lit; reflexivity].
Qed.

Lemma estimateParticipants_of_age_characters (ageGroup : string) :
  allChars ageCharacter ageGroup = true -> estimateParticipants ageGroup = 15.
Proof.
  intros Hchars. unfold estimateParticipants.
  assert (Hnone : forall w, allChars ageCharacter w = false -> includes ageGroup w = false).
  { intros w Hw. destruct (includes ageGroup w) eqn:Hinc; [| reflexivity].
    rewrite (includes_allChars ageCharacter ageGroup w Hinc Hchars) in Hw. discriminate. }
  rewrite !Hnone by reflexivity. reflexivity.
Qed.

(** X7.  Whatever the text, the plan and the analysis, the participants
    estimated from the age group of the academy information are 15: an age
    group read from the text is made of digits, spaces, a hyphen and the
    letters of "years" and "under", the default is ['Youth'] with a capital,
    and none of these holds a keyword of the two smaller estimates. *)
Theorem participants_of_the_academy_are_always_15 (text : string)
    (trainingPlan : TrainingPlan.t) (structureAnalysis : option StructureAnalysis.t) :
  estimateParticipants
    (AcademyInfo.ageGroup (extractAcademyInfo text trainingPlan structureAnalysis)) = 15.
Proof.
  simpl. unfold scanAgeGroup.
  destruct (search agePattern text) as [hit |] eqn:Hsearch; [| reflexivity].
  apply search_found in Hsearch. destruct Hsearch as [i [Hmatched Hat]].
  pose proof (agePattern_confined (drop i text) (snd hit) Hat) as Hchars.
  rewrite <- Hmatched in Hchars.
  destruct (matched text hit) as [| c r] eqn:Hm; [reflexivity |].
  apply estimateParticipants_of_age_characters. exact Hchars.
Qed.

(** ** The sessions the dispatcher returns *)

Lemma sumDurations_from (sessions : list DailySession.t) (start : Z) :
  Forall (fun session => DailySession.duration session = 90) sessions ->
  fold_left (fun sum s => sum + DailySession.duration s) sessions start
  = start + 90 * Z.of_nat (List.length sessions).
Proof.
  intros Hall. revert start.
  induction Hall as [| session rest Hsession _ IH]; intros start; simpl fold_left.
  - simpl. lia.
  - rewrite IH, Hsession. rewrite length_cons, Nat2Z.inj_succ. lia.
Qed.

Lemma weekday_name_is_a_day_name (name : string) :
  In name weekdayNames -> In name dayNames.
Proof. simpl. intuition. Qed.

Lemma mapSessionToDay_is_a_day_name (dayNumber : Z) : In (mapSessionToDay dayNumber) dayNames.
Proof.
  unfold mapSessionToDay.
  destruct (Z.leb_spec 1 dayNumber) as [Hlow | Hlow]; simpl; [| intuition].
  destruct (Z.leb_spec dayNumber 7) as [Hhigh | Hhigh]; simpl; [| intuition].
  assert (Hcases : dayNumber = 1 \/ dayNumber = 2 \/ dayNumber = 3 \/ dayNumber = 4
                   \/ dayNumber = 5 \/ dayNumber = 6 \/ dayNumber = 7) by lia.
  repeat (destruct Hcases as [-> | Hcases]; [simpl; intuition |]).
  subst. simpl. intuition.
Qed.

Lemma basic_sessions_regular (clock : Clock) (w : Z) (academyInfo : AcademyInfo.t)
    (days : list string) (k : nat) (session : DailySession.t) :
  Forall (fun day => In day dayNames) days ->
  nth_error
    (mapi (fun day index => createBasicSession clock w (index + 1) day academyInfo) 0 days) k
  = Some session ->
  regularSession clock w k session.
Proof.
  intros Hdays Hk. apply mapi_nth_error in Hk. destruct Hk as [day [Hday ->]].
  rewrite Forall_forall in Hdays. apply nth_error_In in Hday.
  unfold regularSession. simpl.
  repeat split; try reflexivity; try lia. exact (Hdays day Hday).
Qed.

Lemma basic_sessions_last_90 (clock : Clock) (w : Z) (academyInfo : AcademyInfo.t)
    (days : list string) :
  Forall (fun session => DailySession.duration session = 90)
    (mapi (fun day index => createBasicSession clock w (index + 1) day academyInfo) 0 days).
Proof.
  generalize 0. induction days as [| day rest IH]; intros i; simpl; constructor;
    [reflexivity | apply IH].
Qed.

(** A week whose daily sessions are basic sessions on weekday names and
    whose total is their sum. *)
Lemma basic_week_regular (clock : Clock) (academyInfo : AcademyInfo.t)
    (days : list string) (week : WeekSession.t) :
  Forall (fun day => In day dayNames) days ->
  WeekSession.dailySessions week
  = mapi (fun day index =>
            createBasicSession clock (WeekSession.weekNumber week) (index + 1) day academyInfo)
         0 days ->
  WeekSession.totalDuration week = sumDurations (WeekSession.dailySessions week) ->
  regularWeek clock week.
Proof.
  intros Hdays Hsessions Htotal. split.
  - rewrite Htotal, Hsessions. unfold sumDurations.
    rewrite sumDurations_from by apply basic_sessions_last_90. lia.
  - intros k session Hk. rewrite Hsessions in Hk.
    eapply basic_sessions_regular; eassumption.
Qed.

Lemma default_days_are_day_names :
  Forall (fun day => In day dayNames) ["monday"; "wednesday"; "friday"].
Proof. repeat apply Forall_cons; try apply Forall_nil; simpl; intuition. Qed.

Lemma extractSessionsForSpecificWeek_days (clock : Clock) (text : string) (w : Z)
    (academyInfo : AcademyInfo.t) :
  exists days,
    Forall (fun day => In day dayNames) days
    /\ extractSessionsForSpecificWeek clock text w academyInfo
       = mapi (fun day index => createBasicSession clock w (index + 1) day academyInfo)
              0 days.
Proof.
  unfold extractSessionsForSpecificWeek.
  destruct (weekBlock text w) as [weekContent |];
    [| exists ["monday"; "wednesday"; "friday"]; split;
       [apply default_days_are_day_names | reflexivity]].
  destruct (map (fun hit => toLowerCase (matched weekContent hit))
                (execAll weekdayPattern weekContent)) as [| day days] eqn:Hdays.
  - exists ["monday"; "wednesday"; "friday"]. split;
      [apply default_days_are_day_names | reflexivity].
  - exists (day :: days). split; [| reflexivity].
    rewrite <- Hdays. apply Forall_forall. intros name Hname.
    apply in_map_iff in Hname. destruct Hname as [hit [<- Hhit]].
    apply weekday_name_is_a_day_name, weekday_hits_are_names. exact Hhit.
Qed.

Lemma partial_weeks_regular (clock : Clock) (text : string)
    (structureAnalysis : StructureAnalysis.t) (academyInfo : AcademyInfo.t)
    (sessions : list WeekSession.t) :
  extractWithPartialWeekStructure clock text structureAnalysis academyInfo = Ok sessions ->
  Forall (regularWeek clock) sessions.
Proof.
  intros H. unfold extractWithPartialWeekStructure in H. apply mapM_ok in H.
  eapply Forall2_right; [| exact H].
  intros w week Hbody. simpl in Hbody.
  destruct (existsb (Z.eqb w) _).
  - destruct (extractWeekFocusByNumber text w) as [focus |]; simpl in Hbody;
      [| discriminate].
    injection Hbody as <-.
    destruct (extractSessionsForSpecificWeek_days clock text w academyInfo)
      as [days [Hdays Heq]].
    eapply (basic_week_regular clock academyInfo days); [exact Hdays | exact Heq | reflexivity].
  - simpl in Hbody. injection Hbody as <-.
    eapply (basic_week_regular clock academyInfo ["monday"; "wednesday"; "friday"]);
      [apply default_days_are_day_names | reflexivity | reflexivity].
Qed.

Lemma detail_sessions_last_90 (clock : Clock) (w : Z) (academyInfo : AcademyInfo.t)
    (details : list SessionDetail.t) :
  Forall (fun session => DailySession.duration session = 90)
    (mapi (fun detail index =>
             createSessionFromDetail clock detail w (index + 1) academyInfo) 0 details).
Proof.
  generalize 0. induction details as [| detail rest IH]; intros i; simpl; constructor;
    [reflexivity | apply IH].
Qed.

Lemma session_groups_regular (clock : Clock) (text : string)
    (structureAnalysis : StructureAnalysis.t) (academyInfo : AcademyInfo.t) :
  Forall (regularWeek clock)
    (extractWithSessionStructure clock text structureAnalysis academyInfo).
Proof.
  apply Forall_forall. intros week Hweek.
  unfold extractWithSessionStructure in Hweek.
  apply in_map_iff in Hweek. destruct Hweek as [w [<- _]].
  split; cbn [WeekSession.totalDuration WeekSession.dailySessions WeekSession.weekNumber].
  - unfold sumDurations. rewrite sumDurations_from by apply detail_sessions_last_90. lia.
  - intros k session Hk. apply mapi_nth_error in Hk. destruct Hk as [detail [_ ->]].
    unfold regularSession, createSessionFromDetail.
    cbn [DailySession.weekNumber DailySession.dayNumber DailySession.day DailySession.date
         DailySession.duration DailySession.time DailySession.status].
    repeat split; try reflexivity; try lia.
    apply mapSessionToDay_is_a_day_name.
Qed.

Lemma basic_structure_regular (clock : Clock) (text : string)
    (structureAnalysis : StructureAnalysis.t) (academyInfo : AcademyInfo.t) :
  Forall (regularWeek clock)
    (extractFromBasicStructuredDocument clock text structureAnalysis academyInfo).
Proof.
  apply Forall_forall. intros week Hweek.
  unfold extractFromBasicStructuredDocument in Hweek.
  apply in_map_iff in Hweek. destruct Hweek as [w [<- _]].
  eapply (basic_week_regular clock academyInfo ["monday"; "wednesday"; "friday"]);
    [apply default_days_are_day_names | reflexivity | reflexivity].
Qed.

Lemma unstructured_regular (clock : Clock) (text : string)
    (structureAnalysis : StructureAnalysis.t) (academyInfo : AcademyInfo.t) :
  Forall (regularWeek clock)
    (extractFromUnstructuredDocument clock text structureAnalysis academyInfo).
Proof.
  apply Forall_forall. intros week Hweek.
  unfold extractFromUnstructuredDocument in Hweek.
  apply in_map_iff in Hweek. destruct Hweek as [w [<- _]].
  eapply (basic_week_regular clock academyInfo ["monday"; "wednesday"; "friday"]);
    [apply default_days_are_day_names | reflexivity | reflexivity].
Qed.

Lemma dispatcher_weeks_regular (clock : Clock) (text : string)
    (structureAnalysis : StructureAnalysis.t) (academyInfo : AcademyInfo.t)
    (sessions : list WeekSession.t) :
  extractSessionsWithStructureAwareness clock text structureAnalysis academyInfo
  = Ok sessions ->
  Forall (regularWeek clock) sessions.
Proof.
  intros H. apply dispatcher_returns in H. destruct H as [strategy [_ Hrun]].
  destruct strategy; simpl in Hrun.
  - apply highly_structured_returns in Hrun. destruct Hrun as [-> _]. constructor.
  - eapply partial_weeks_regular; exact Hrun.
  - injection Hrun as <-. apply session_groups_regular.
  - injection Hrun as <-. apply basic_structure_regular.
  - injection Hrun as <-. apply unstructured_regular.
Qed.

(** X8.  Every daily session of every week the dispatcher returns,
    whatever the text and the analysis, carries the number of its week and
    its 1-based position in the week, is on a weekday name, is dated by
    [calculateSessionDate] of that week and day, lasts 90 minutes, starts at
    08:00 and is scheduled; the week's [totalDuration] is 90 times the
    number of its sessions.  No duration or time written in the document
    reaches a returned session. *)
Theorem dispatcher_returns_only_generated_sessions (clock : Clock) (text : string)
    (structureAnalysis : StructureAnalysis.t) (academyInfo : AcademyInfo.t)
    (sessions : list WeekSession.t) :
  extractSessionsWithStructureAwareness clock text structureAnalysis academyInfo
  = Ok sessions ->
  Forall (fun week =>
            WeekSession.totalDuration week
            = 90 * Z.of_nat (List.length (WeekSession.dailySessions week))
            /\ forall k session,
                 nth_error (WeekSession.dailySessions week) k = Some session ->
                 DailySession.weekNumber session = WeekSession.weekNumber week
                 /\ DailySession.dayNumber session = Z.of_nat k + 1
                 /\ In (DailySession.day session) dayNames
                 /\ DailySession.date session
                    = calculateSessionDate clock (WeekSession.weekNumber week)
                        (DailySession.day session)
                 /\ DailySession.duration session = 90
                 /\ DailySession.time session = "08:00"
                 /\ DailySession.status session = "scheduled")
         sessions.
Proof. apply dispatcher_weeks_regular. Qed.

Lemma dispatcher_returns_only_generated_sessions_witness :
  extractSessionsWithStructureAwareness noonUTC twoWeekText twoWeeksNoneExplicit
    sampleAcademy
  = extractWithPartialWeekStructure noonUTC twoWeekText twoWeeksNoneExplicit sampleAcademy
  /\ exists sessions,
       extractWithPartialWeekStructure noonUTC twoWeekText twoWeeksNoneExplicit
         sampleAcademy = Ok sessions
       /\ Forall (fun week =>
                    WeekSession.totalDuration week
                    = 90 * Z.of_nat (List.length (WeekSession.dailySessions week)))
                 sessions.
Proof.
  split; [reflexivity |].
  eexists. split; [reflexivity |].
  eapply Forall_impl;
    [| apply (dispatcher_returns_only_generated_sessions noonUTC twoWeekText
                twoWeeksNoneExplicit sampleAcademy); reflexivity].
  intros week [Htotal _]. exact Htotal.
Defined.

(** X10.  [convertToUpcomingSessions] leaves the dates of the sessions the
    dispatcher returns as they are: the date it computes again for an
    entry is the date stored in the session. *)
Theorem upcoming_sessions_keep_returned_dates (clock : Clock) (Schedule : Type)
    (extractedData : ExtractionResult.t Schedule) (text : string)
    (structureAnalysis : StructureAnalysis.t) (academyInfo : AcademyInfo.t) :
  extractSessionsWithStructureAwareness clock text structureAnalysis academyInfo
  = Ok (ExtractionResult.sessions extractedData) ->
  forall week session,
    In week (ExtractionResult.sessions extractedData) ->
    In session (WeekSession.dailySessions week) ->
    UpcomingSession.date (toUpcomingSession clock extractedData week session)
    = DailySession.date session.
Proof.
  intros H week session Hweek Hsession.
  apply dispatcher_weeks_regular in H. rewrite Forall_forall in H.
  destruct (H week Hweek) as [_ Hregular].
  apply In_nth_error in Hsession. destruct Hsession as [k Hk].
  destruct (Hregular k session Hk) as [_ [_ [_ [Hdate _]]]].
  simpl. symmetry. exact Hdate.
Qed.

Lemma upcoming_sessions_keep_returned_dates_witness :
  exists extractedData : ExtractionResult.t unit,
    extractSessionsWithStructureAwareness noonUTC "" unstructuredAnalysis sampleAcademy
    = Ok (ExtractionResult.sessions extractedData)
    /\ map UpcomingSession.date (upcomingEntries noonUTC extractedData)
       = [19723; 19725; 19727; 19730; 19732; 19734; 19737; 19739; 19741;
          19744; 19746; 19748]
    /\ forall week session,
         In week (ExtractionResult.sessions extractedData) ->
         In session (WeekSession.dailySessions week) ->
         UpcomingSession.date (toUpcomingSession noonUTC extractedData week session)
         = DailySession.date session.
Proof.
  exists {| ExtractionResult.academyInfo := sampleAcademy;
            ExtractionResult.sessions :=
              extractFromUnstructuredDocument noonUTC "" unstructuredAnalysis sampleAcademy;
            ExtractionResult.optimizedSchedule := None;
            ExtractionResult.structureAnalysis := unstructuredAnalysis;
            ExtractionResult.totalWeeks := 4;
            ExtractionResult.totalSessions := 12;
            ExtractionResult.sourceDocument := "doc-1";
            ExtractionResult.sourcePlan := "plan-1";
            ExtractionResult.aiEnhanced := false;
            ExtractionResult.aiScheduled := false;
            ExtractionResult.structureAware := true |}.
  split; [reflexivity |]. split; [reflexivity |].
  apply (upcoming_sessions_keep_returned_dates noonUTC unit _ "" unstructuredAnalysis
           sampleAcademy).
  reflexivity.
Defined.

(** ** When the strategies raise *)

(** X11.  Strategy A returns the empty list when the analysis has no week
    title and raises the [TypeError] of [content.filter] when it has one:
    it never returns a week. *)
Theorem highly_structured_never_returns_a_week (clock : Clock) (text : string)
    (structureAnalysis : StructureAnalysis.t) (academyInfo : AcademyInfo.t) :
  extractFromHighlyStructuredDocument clock text structureAnalysis academyInfo
  = match StructureAnalysis.weekTitles
            (StructureAnalysis.weekStructure structureAnalysis) with
    | [] => Ok []
    | _ :: _ => Throw (TypeError "content.filter is not a function")
    end.
Proof.
  destruct (StructureAnalysis.weekTitles (StructureAnalysis.weekStructure structureAnalysis))
    as [| t rest] eqn:Htitles.
  - unfold extractFromHighlyStructuredDocument, splitTextByWeeks.
    rewrite Htitles. reflexivity.
  - apply highly_structured_raises_on_a_title. rewrite Htitles. discriminate.
Qed.

(** X12.  [extractDailySessionsFromWeekSection] never returns, whatever
    the week section: with a day marker it raises the [TypeError] of [content.join],
    asked by the first marker's session for its focus, and without one the
    [TypeError] of [content.forEach], asked by the general session for its
    activities. *)
Theorem extractDailySessionsFromWeekSection_always_raises (clock : Clock)
    (weekSection : WeekSection.t) (weekNumber : Z) (academyInfo : AcademyInfo.t)
    (durationAnalysis : StructureAnalysis.DurationAnalysis) :
  extractDailySessionsFromWeekSection clock weekSection weekNumber academyInfo
    durationAnalysis
  = match foundDays (WeekSection.content weekSection) with
    | [] => Throw (TypeError "content.forEach is not a function")
    | _ :: _ => Throw (TypeError "content.join is not a function")
    end.
Proof.
  unfold extractDailySessionsFromWeekSection.
  destruct (foundDays (WeekSection.content weekSection)); reflexivity.
Qed.

Lemma weekBlock_mentionsWeek (text : string) (n : Z) :
  mentionsWeek text n = match weekBlock text n with Some _ => true | None => false end.
Proof.
  unfold mentionsWeek, test, weekBlock.
  destruct (search (weekHeader n) text) as [[start headerLength] |]; reflexivity.
Qed.

Lemma partial_weeks_loop (clock : Clock) (text : string)
    (structureAnalysis : StructureAnalysis.t) (academyInfo : AcademyInfo.t)
    (weeks : list Z) :
  let body := fun weekNum =>
    let hasExplicitWeek :=
      existsb (Z.eqb weekNum)
        (StructureAnalysis.identifiedWeeks
           (StructureAnalysis.weekStructure structureAnalysis)) in
    focus <-
      (if hasExplicitWeek then extractWeekFocusByNumber text weekNum
       else Ok (generateWeekFocus weekNum (AcademyInfo.sport academyInfo))) ;;
    let dailySessions :=
      if hasExplicitWeek then extractSessionsForSpecificWeek clock text weekNum academyInfo
      else generateDefaultWeekSessions clock weekNum academyInfo in
    Ok {| WeekSession.weekNumber := weekNum;
          WeekSession.title :=
            if hasExplicitWeek then findWeekTitle text weekNum
            else "Week " ++ ofZ weekNum ++ " Training";
          WeekSession.description :=
            if hasExplicitWeek then extractWeekContentByNumber text weekNum
            else generateWeekDescription weekNum academyInfo;
          WeekSession.dailySessions := dailySessions;
          WeekSession.totalDuration := sumDurations dailySessions;
          WeekSession.focus := focus;
          WeekSession.notes := None;
          WeekSession.academyName := AcademyInfo.academyName academyInfo;
          WeekSession.sport := AcademyInfo.sport academyInfo;
          WeekSession.weekSchedule := NoSchedule |} in
  if existsb (readFromText text structureAnalysis) weeks
  then mapM body weeks = Throw (TypeError "content.join is not a function")
  else exists sessions, mapM body weeks = Ok sessions /\ weekNumbers sessions = weeks.
Proof.
  intros body. induction weeks as [| w rest IH]; simpl existsb.
  - exists []. split; reflexivity.
  - assert (Hbody : if readFromText text structureAnalysis w
                    then body w = Throw (TypeError "content.join is not a function")
                    else exists week, body w = Ok week /\ WeekSession.weekNumber week = w).
    { unfold readFromText, body. rewrite weekBlock_mentionsWeek.
      unfold extractWeekFocusByNumber.
      destruct (existsb (Z.eqb w) _); simpl.
      - destruct (weekBlock text w); simpl; [reflexivity |].
        eexists. split; reflexivity.
      - eexists. split; reflexivity. }
    destruct (readFromText text structureAnalysis w); simpl orb.
    + simpl. rewrite Hbody. reflexivity.
    + destruct Hbody as [week [Hweek Hnumber]].
      destruct (existsb (readFromText text structureAnalysis) rest).
      * simpl. rewrite Hweek, IH. reflexivity.
      * destruct IH as [sessions [Hrest Hnumbers]].
        exists (week :: sessions). split.
        -- simpl. rewrite Hweek, Hrest. reflexivity.
        -- simpl. rewrite Hnumber, Hnumbers. reflexivity.
Qed.

(** X13.  Strategy B raises the [TypeError] of [content.join] exactly when
    one of the weeks [1 .. totalWeeks] (12 when [totalWeeks] is 0) is among
    the identified weeks and has a header [week n] in the text; otherwise it
    returns one week per week number, in order. *)
Theorem partial_weeks_raise_when_a_week_is_read_from_the_text (clock : Clock)
    (text : string) (structureAnalysis : StructureAnalysis.t)
    (academyInfo : AcademyInfo.t) :
  let weeks := weeksUpTo (orZ (totalWeeksOf structureAnalysis) 12) in
  if existsb (readFromText text structureAnalysis) weeks
  then extractWithPartialWeekStructure clock text structureAnalysis academyInfo
       = Throw (TypeError "content.join is not a function")
  else exists sessions,
         extractWithPartialWeekStructure clock text structureAnalysis academyInfo
         = Ok sessions
         /\ weekNumbers sessions = weeks.
Proof.
  intros weeks.
  exact (partial_weeks_loop clock text structureAnalysis academyInfo weeks).
Qed.

(** ** The order of the upcoming sessions *)

Lemma insertByKey_keeps_order {A : Type} (key : A -> Z) (d : Z) (x : A) (xs : list A) :
  filter (fun y => Z.eqb (key y) d) (insertByKey key x xs)
  = filter (fun y => Z.eqb (key y) d) (x :: xs).
Proof.
  induction xs as [| y rest IH]; [reflexivity |].
  simpl insertByKey. destruct (Z.leb_spec (key x) (key y)) as [Hle | Hgt]; [reflexivity |].
  simpl filter at 1. rewrite IH. simpl.
  destruct (Z.eqb_spec (key x) d) as [Hx | Hx];
    destruct (Z.eqb_spec (key y) d) as [Hy | Hy]; try reflexivity.
  lia.
Qed.

Lemma sortByKey_stable {A : Type} (key : A -> Z) (d : Z) (xs : list A) :
  filter (fun y => Z.eqb (key y) d) (sortByKey key xs)
  = filter (fun y => Z.eqb (key y) d) xs.
Proof.
  induction xs as [| x rest IH]; [reflexivity |].
  simpl sortByKey. rewrite insertByKey_keeps_order. simpl. rewrite IH. reflexivity.
Qed.

(** X14.  The sort of [convertToUpcomingSessions] is stable: the entries
    of one date come out in the order of the weeks and of the sessions in
    each week. *)
Theorem upcoming_sessions_of_one_date_keep_their_order (clock : Clock)
    (Schedule : Type) (extractedData : ExtractionResult.t Schedule) (date : Z) :
  filter (fun entry => Z.eqb (UpcomingSession.date entry) date)
         (convertToUpcomingSessions clock extractedData)
  = filter (fun entry => Z.eqb (UpcomingSession.date entry) date)
      (flat_map (fun week =>
                   map (toUpcomingSession clock extractedData week)
                       (WeekSession.dailySessions week))
                (ExtractionResult.sessions extractedData)).
Proof.
  unfold convertToUpcomingSessions.
  pose proof (sortByKey_stable (fun entry => dateValue (UpcomingSession.date entry))
                (dateValue date) (upcomingEntries clock extractedData)) as Hstable.
  assert (Hsame : forall l : list UpcomingSession.t,
             filter (fun y => Z.eqb (dateValue (UpcomingSession.date y)) (dateValue date)) l
             = filter (fun entry => Z.eqb (UpcomingSession.date entry) date) l).
  { intros l. apply filter_ext. intros entry. unfold dateValue, msPerDay.
    destruct (Z.eqb_spec (UpcomingSession.date entry) date) as [-> | Hne].
    - apply Z.eqb_refl.
    - apply Z.eqb_neq. lia. }
  rewrite !Hsame in Hstable. exact Hstable.
Qed.

(** ** The line-based extraction *)

Lemma parseDigitsAcc_nonneg (s : string) (acc : Z) : 0 <= acc -> 0 <= parseDigitsAcc acc s.
Proof.
  revert acc. induction s as [| c r IH]; intros acc Hacc; simpl; [exact Hacc |].
  destruct (isDigit c); [| exact Hacc].
  apply IH. lia.
Qed.

Lemma parseDuration_nonneg (durationText : string) : 0 <= parseDuration durationText.
Proof.
  unfold parseDuration. destruct (isEmpty durationText); [lia |].
  destruct (search durationPattern durationText) as [hit |]; [| lia].
  pose proof (parseDigitsAcc_nonneg (matched durationText hit) 0 ltac:(lia)) as Hvalue.
  fold (parseInt (matched durationText hit)) in Hvalue.
  destruct (includes _ "hour" || includes _ "hr")%bool; lia.
Qed.

Lemma mapMi_total {A B : Type} (P : B -> Prop) (f : A -> Z -> outcome B)
    (i : Z) (xs : list A) :
  (forall x k, exists y, f x k = Ok y /\ P y) ->
  exists ys, mapMi f i xs = Ok ys /\ Forall P ys /\ List.length ys = List.length xs.
Proof.
  intros Hf. revert i. induction xs as [| x rest IH]; intros i.
  - exists []. repeat split. constructor.
  - destruct (Hf x i) as [y [Hy HP]]. destruct (IH (i + 1)) as [ys [Hys [Hall Hlen]]].
    exists (y :: ys). simpl. rewrite Hy, Hys. simpl.
    repeat split; [constructor; assumption | congruence].
Qed.

(** What the line-based extraction promises of a week. *)
Lemma createDailySession_returns (clock : Clock) (day : ParsedDay.t)
    (weekIndex dayIndex : Z) (academyInfo : AcademyInfo.t) (week : ParsedWeek.t) :
  exists session,
    createDailySession clock day weekIndex dayIndex academyInfo week = Ok session
    /\ 1 <= DailySession.duration session.
Proof.
  eexists. split; [reflexivity |]. simpl.
  pose proof (parseDuration_nonneg (ParsedDay.duration day)) as Hduration.
  unfold orZ. destruct (Z.eqb_spec (parseDuration (ParsedDay.duration day)) 0); lia.
Qed.

Lemma weekSessionOf_returns (clock : Clock) (academyInfo : AcademyInfo.t)
    (week : ParsedWeek.t) (weekIndex : Z) :
  exists session,
    weekSessionOf clock academyInfo week weekIndex = Ok session
    /\ (WeekSession.weekNumber session = weekIndex + 1
        /\ hasDailySession session
        /\ durationConsistent session
        /\ Forall (fun daily => 1 <= DailySession.duration daily)
                  (WeekSession.dailySessions session)).
Proof.
  unfold weekSessionOf. simpl.
  destruct (mapMi_total (fun session => 1 <= DailySession.duration session)
              (fun day dayIndex =>
                 createDailySession clock day weekIndex dayIndex academyInfo week)
              0 (ParsedWeek.days week)
              (fun day k => createDailySession_returns clock day weekIndex k academyInfo week))
    as [fromDays [Hdays [Hall Hlen]]].
  rewrite Hdays. simpl.
  destruct fromDays as [| first others].
  - eexists. split; [reflexivity |].
    unfold hasDailySession, durationConsistent. simpl.
    split; [reflexivity |]. split; [discriminate |]. split; [reflexivity |].
    constructor; [simpl; lia | constructor].
  - eexists. split; [reflexivity |].
    unfold hasDailySession, durationConsistent. simpl.
    split; [reflexivity |]. split; [discriminate |]. split; [reflexivity |].
    exact Hall.
Qed.

(** X16.  In every list [extractWeeklySessions] returns, from the parsed
    weeks or from the alternative extraction, every week has at least one
    daily session, every daily session lasts at least a minute, and
    [totalDuration] is the sum of the daily durations. *)
Theorem extractWeeklySessions_returns_consistent_weeks (clock : Clock) (text : string)
    (structure : ParsedStructure.t) (academyInfo : AcademyInfo.t)
    (sessions : list WeekSession.t) :
  extractWeeklySessions clock text structure academyInfo = Ok sessions ->
  Forall (fun week =>
            hasDailySession week
            /\ durationConsistent week
            /\ Forall (fun daily => 1 <= DailySession.duration daily)
                      (WeekSession.dailySessions week))
         sessions.
Proof.
  unfold extractWeeklySessions.
  destruct (mapMi_total
              (fun week =>
                 hasDailySession week
                 /\ durationConsistent week
                 /\ Forall (fun daily => 1 <= DailySession.duration daily)
                           (WeekSession.dailySessions week))
              (weekSessionOf clock academyInfo) 0 (ParsedStructure.weeks structure))
    as [parsed [Hparsed [Hall _]]].
  { intros week k.
    destruct (weekSessionOf_returns clock academyInfo week k) as [session [Hrun [_ Hweek]]].
    exists session. split; assumption. }
  rewrite Hparsed. cbn [bind].
  destruct (Z.ltb (Z.of_nat (List.length parsed)) 8 && includes text "Week"
            && includes text "12")%bool;
    [| intros Hrun; injection Hrun as <-; exact Hall].
  destruct (attemptAlternativeWeekExtraction clock text academyInfo)
    as [alternative |] eqn:Halternative; cbn [bind]; [| discriminate].
  destruct (Z.gtb (Z.of_nat (List.length alternative)) (Z.of_nat (List.length parsed)));
    intros Hrun; injection Hrun as <-; [| exact Hall].
  eapply Forall_impl; [| exact (alternative_extraction_weeks _ _ _ _ Halternative)].
  intros week [Hconsistent [Hone Hlong]]. split; [| split].
  - unfold hasDailySession. intros Hnil. rewrite Hnil in Hone. discriminate.
  - exact Hconsistent.
  - eapply Forall_impl; [| exact Hlong]. intros daily Hdaily. simpl in Hdaily. lia.
Qed.

(** A text that names three weeks on one line: the parser finds no week,
    the text includes [Week] and [12], and the three weeks of the
    alternative extraction are returned. *)
Lemma extractWeeklySessions_returns_consistent_weeks_witness :
  exists sessions,
    extractWeeklySessions noonUTC inlineWeeksText (parseDocumentStructure inlineWeeksText)
      sampleAcademy = Ok sessions
    /\ weekNumbers sessions = [1; 2; 12]
    /\ Forall (fun week =>
                 hasDailySession week
                 /\ durationConsistent week
                 /\ Forall (fun daily => 1 <= DailySession.duration daily)
                           (WeekSession.dailySessions week))
              sessions.
Proof.
  exists (match extractWeeklySessions noonUTC inlineWeeksText
                  (parseDocumentStructure inlineWeeksText) sampleAcademy with
          | Ok sessions => sessions
          | Throw _ => []
          end).
  split; [vm_compute; reflexivity |]. split; [vm_compute; reflexivity |].
  apply (extractWeeklySessions_returns_consistent_weeks noonUTC inlineWeeksText
           (parseDocumentStructure inlineWeeksText) sampleAcademy).
  vm_compute. reflexivity.
Defined.

(** ** The parser *)

Lemma allLines_app (weeks : list ParsedWeek.t) (week : ParsedWeek.t) :
  allLines (weeks ++ [week]) = (allLines weeks ++ linesOfWeek week)%list.
Proof.
  unfold allLines. rewrite map_app, List.concat_app. simpl. rewrite app_nil_r. reflexivity.
Qed.

Lemma updateLast_adds_a_line (line : string) (days : list ParsedDay.t) :
  days <> [] ->
  List.concat (map ParsedDay.content (updateLast (addToDay line) days))
  = (List.concat (map ParsedDay.content days) ++ [line])%list.
Proof.
  induction days as [| day rest IH]; intros Hdays; [congruence |].
  destruct rest as [| next others].
  - simpl. rewrite !app_nil_r. reflexivity.
  - change (updateLast (addToDay line) (day :: next :: others))
      with (day :: updateLast (addToDay line) (next :: others)).
    rewrite (map_cons ParsedDay.content day (updateLast _ _)).
    rewrite (map_cons ParsedDay.content day (next :: others)).
    rewrite !List.concat_cons, IH by discriminate.
    rewrite app_assoc. reflexivity.
Qed.

Lemma updateLast_nonempty {A : Type} (f : A -> A) (xs : list A) :
  xs <> [] -> updateLast f xs <> [].
Proof.
  destruct xs as [| x [| y rest]]; simpl; congruence.
Qed.

Lemma parseLine_wellFormed (line nextLine : string) (i : Z) (state : ParserState.t) :
  wellFormed state -> wellFormed (parseLine line nextLine i state).
Proof.
  unfold wellFormed, parseLine. intros Hstate.
  destruct (isHeaderOfWeek line nextLine); [reflexivity |].
  destruct (dayMatchOf line) as [dayMatch |];
    destruct (ParserState.currentWeek state) as [week |] eqn:Hweek.
  - simpl. intros Hempty. apply app_eq_nil in Hempty. destruct Hempty; discriminate.
  - unfold addLine. rewrite Hweek. rewrite Hweek. exact Hstate.
  - unfold addLine. rewrite Hweek. simpl.
    destruct (ParserState.dayOpen state); simpl;
      [apply updateLast_nonempty, Hstate | exact Hstate].
  - unfold addLine. rewrite Hweek. rewrite Hweek. exact Hstate.
Qed.

(** What one line does to the weeks of the parser. *)
Lemma parseLine_header (line nextLine : string) (i : Z) (state : ParserState.t) :
  isHeaderOfWeek line nextLine = true ->
  exists week,
    ParserState.currentWeek (parseLine line nextLine i state) = Some week
    /\ closeWeek (parseLine line nextLine i state) = (closeWeek state ++ [week])%list
    /\ ParsedWeek.title week = line
    /\ linesOfWeek week = [line].
Proof.
  intros Hheader. unfold parseLine. rewrite Hheader.
  eexists. split; [reflexivity |]. split; [reflexivity |]. split; reflexivity.
Qed.

Lemma parseLine_outside_a_week (line nextLine : string) (i : Z) (state : ParserState.t) :
  isHeaderOfWeek line nextLine = false ->
  ParserState.currentWeek state = None ->
  ParserState.currentWeek (parseLine line nextLine i state) = None
  /\ closeWeek (parseLine line nextLine i state) = closeWeek state.
Proof.
  intros Hheader Hweek. unfold parseLine. rewrite Hheader, Hweek.
  destruct (dayMatchOf line); unfold addLine; rewrite Hweek; split; auto.
Qed.

Lemma parseLine_inside_a_week (line nextLine : string) (i : Z) (state : ParserState.t)
    (week : ParsedWeek.t) :
  wellFormed state ->
  isHeaderOfWeek line nextLine = false ->
  ParserState.currentWeek state = Some week ->
  exists week',
    ParserState.currentWeek (parseLine line nextLine i state) = Some week'
    /\ closeWeek (parseLine line nextLine i state) = (ParserState.weeks state ++ [week'])%list
    /\ ParsedWeek.title week' = ParsedWeek.title week
    /\ linesOfWeek week' = (linesOfWeek week ++ [line])%list.
Proof.
  unfold wellFormed. intros Hstate Hheader Hweek. rewrite Hweek in Hstate.
  unfold parseLine. rewrite Hheader, Hweek.
  destruct (dayMatchOf line) as [dayMatch |].
  - eexists. split; [reflexivity |]. split; [reflexivity |]. split; [reflexivity |].
    unfold linesOfWeek. simpl. rewrite map_app, List.concat_app. simpl.
    rewrite <- app_assoc. reflexivity.
  - unfold addLine. rewrite Hweek.
    destruct (ParserState.dayOpen state) eqn:Hopen.
    + eexists. split; [reflexivity |]. split; [reflexivity |]. split; [reflexivity |].
      unfold linesOfWeek. simpl. rewrite updateLast_adds_a_line by exact Hstate.
      rewrite app_assoc. reflexivity.
    + eexists. split; [reflexivity |]. split; [reflexivity |]. split; [reflexivity |].
      unfold linesOfWeek. simpl. rewrite Hstate. simpl. rewrite !app_nil_r. reflexivity.
Qed.

Lemma parseLines_inside_a_week (lines : list string) :
  forall (i : Z) (state : ParserState.t) (week : ParsedWeek.t),
    wellFormed state ->
    ParserState.currentWeek state = Some week ->
    map ParsedWeek.title (closeWeek (parseLines lines i state))
    = (map ParsedWeek.title (closeWeek state) ++ headerLines lines)%list
    /\ allLines (closeWeek (parseLines lines i state))
       = (allLines (closeWeek state) ++ lines)%list.
Proof.
  induction lines as [| line rest IH]; intros i state week Hstate Hweek.
  - simpl. rewrite !app_nil_r. split; reflexivity.
  - simpl parseLines. simpl headerLines.
    pose proof (parseLine_wellFormed line (hd "" rest) i state Hstate) as Hnext.
    destruct (isHeaderOfWeek line (hd "" rest)) eqn:Hheader.
    + destruct (parseLine_header line (hd "" rest) i state Hheader)
        as [week' [Hweek' [Hclosed [Htitle Hlines]]]].
      destruct (IH (i + 1) _ week' Hnext Hweek') as [Htitles Htotal].
      rewrite Htitles, Htotal, Hclosed, map_app, allLines_app, Hlines.
      cbn [map]. rewrite Htitle, <- !app_assoc. split; reflexivity.
    + destruct (parseLine_inside_a_week line (hd "" rest) i state week Hstate Hheader Hweek)
        as [week' [Hweek' [Hclosed [Htitle Hlines]]]].
      destruct (IH (i + 1) _ week' Hnext Hweek') as [Htitles Htotal].
      rewrite Htitles, Htotal, Hclosed. unfold closeWeek. rewrite Hweek.
      rewrite !map_app, !allLines_app, Hlines. cbn [map]. rewrite Htitle, <- !app_assoc.
      split; reflexivity.
Qed.

Lemma parseLines_outside_a_week (lines : list string) :
  forall (i : Z) (state : ParserState.t),
    wellFormed state ->
    ParserState.currentWeek state = None ->
    map ParsedWeek.title (closeWeek (parseLines lines i state))
    = (map ParsedWeek.title (closeWeek state) ++ headerLines lines)%list
    /\ allLines (closeWeek (parseLines lines i state))
       = (allLines (closeWeek state) ++ fromFirstHeader lines)%list.
Proof.
  induction lines as [| line rest IH]; intros i state Hstate Hweek.
  - simpl. rewrite !app_nil_r. split; reflexivity.
  - simpl parseLines. simpl headerLines. simpl fromFirstHeader.
    pose proof (parseLine_wellFormed line (hd "" rest) i state Hstate) as Hnext.
    destruct (isHeaderOfWeek line (hd "" rest)) eqn:Hheader.
    + destruct (parseLine_header line (hd "" rest) i state Hheader)
        as [week' [Hweek' [Hclosed [Htitle Hlines]]]].
      destruct (parseLines_inside_a_week rest (i + 1) _ week' Hnext Hweek')
        as [Htitles Htotal].
      rewrite Htitles, Htotal, Hclosed, map_app, allLines_app, Hlines.
      cbn [map]. rewrite Htitle, <- !app_assoc. split; reflexivity.
    + destruct (parseLine_outside_a_week line (hd "" rest) i state Hheader Hweek)
        as [Hweek' Hclosed].
      destruct (IH (i + 1) _ Hnext Hweek') as [Htitles Htotal].
      rewrite Htitles, Htotal, Hclosed. split; reflexivity.
Qed.

Lemma emptyParserState_wellFormed : wellFormed emptyParserState.
Proof.
  reflexivity.
Qed.

(** X17.  [parseDocumentStructure] returns one week for each line it takes
    for a header of a week, in the order of the text and with that line as
    its title; in particular a text without such a line gives no week. *)
Theorem parseDocumentStructure_weeks_are_the_header_lines (text : string) :
  map ParsedWeek.title (ParsedStructure.weeks (parseDocumentStructure text))
  = headerLines (contentLines text).
Proof.
  unfold parseDocumentStructure. simpl.
  apply (parseLines_outside_a_week (contentLines text) 0 emptyParserState
           emptyParserState_wellFormed eq_refl).
Qed.

(** X18.  [parseDocumentStructure] loses and repeats no line after the
    first header: the content of the weeks it returns, each followed by the
    contents of its days, read in order is the list of the trimmed non-empty
    lines of the text from the first header of a week on; the lines before
    that header are dropped. *)
Theorem parseDocumentStructure_keeps_the_lines_after_the_first_header (text : string) :
  allLines (ParsedStructure.weeks (parseDocumentStructure text))
  = fromFirstHeader (contentLines text).
Proof.
  unfold parseDocumentStructure. simpl.
  apply (parseLines_outside_a_week (contentLines text) 0 emptyParserState
           emptyParserState_wellFormed eq_refl).
Qed.

(** ** Statistics *)

Lemma countSessions_from (sessions : list WeekSession.t) (start : Z) :
  fold_left (fun sum week => sum + Z.of_nat (List.length (WeekSession.dailySessions week)))
            sessions start
  = start + Z.of_nat (List.length (flat_map WeekSession.dailySessions sessions)).
Proof.
  revert start. induction sessions as [| week rest IH]; intros start;
    cbn [fold_left flat_map].
  - simpl. lia.
  - rewrite IH, length_app, Nat2Z.inj_add. lia.
Qed.

Lemma countSessions_flat (sessions : list WeekSession.t) :
  countSessions sessions
  = Z.of_nat (List.length (flat_map WeekSession.dailySessions sessions)).
Proof.
  unfold countSessions. rewrite countSessions_from. lia.
Qed.

Lemma regular_weeks_total_from (clock : Clock) (sessions : list WeekSession.t) (start : Z) :
  Forall (regularWeek clock) sessions ->
  fold_left (fun sum week => sum + WeekSession.totalDuration week) sessions start
  = start + 90 * Z.of_nat (List.length (flat_map WeekSession.dailySessions sessions)).
Proof.
  intros Hall. revert start.
  induction Hall as [| week rest [Hweek _] _ IH]; intros start; cbn [fold_left flat_map].
  - simpl. lia.
  - rewrite IH, Hweek, length_app, Nat2Z.inj_add. lia.
Qed.

Lemma regular_weeks_total (clock : Clock) (sessions : list WeekSession.t) :
  Forall (regularWeek clock) sessions ->
  fold_left (fun sum week => sum + WeekSession.totalDuration week) sessions 0
  = 90 * countSessions sessions.
Proof.
  intros Hall. rewrite (regular_weeks_total_from clock) by exact Hall.
  rewrite countSessions_flat. lia.
Qed.

(** ** The pipeline: more *)

Section PipelineFailures.

Variable clock : Clock.
Variable Schedule : Type.
Variable extractDocumentText : Document.t -> outcome string.
Variable analyzeDocumentStructure : string -> Document.t -> outcome StructureAnalysis.t.
Variable handlePlatformError : error -> string -> error.

(** X19.  A failure of the enhancer or of the schedule optimiser never
    reaches the caller: every error the pipeline raises, it raises
    whatever these two collaborators do, so it comes from the reader, the
    analyser or the dispatcher. *)
Theorem enhancer_and_optimiser_failures_never_reach_the_caller
    (enhancer enhancer' :
       list WeekSession.t -> EnhancementContext.t -> outcome (list WeekSession.t))
    (optimiser optimiser' : TrainingPlan.t -> Preferences.t -> outcome (option Schedule))
    (document : Document.t) (trainingPlan : TrainingPlan.t) (e : error) :
  extractSessionsFromDocument clock Schedule extractDocumentText analyzeDocumentStructure
    enhancer optimiser handlePlatformError document trainingPlan = Throw e ->
  extractSessionsFromDocument clock Schedule extractDocumentText analyzeDocumentStructure
    enhancer' optimiser' handlePlatformError document trainingPlan = Throw e.
Proof.
  unfold extractSessionsFromDocument.
  destruct (extractDocumentText document) as [text |]; simpl; [| exact (fun H => H)].
  destruct (analyzeDocumentStructure text document) as [structureAnalysis |]; simpl;
    [| exact (fun H => H)].
  destruct (extractSessionsWithStructureAwareness clock text structureAnalysis _)
    as [sessions |]; simpl; [| exact (fun H => H)].
  destruct (readLevel structureAnalysis) as [level |]; simpl;
    [discriminate | exact (fun H => H)].
Qed.

(** X20.  When the analysis has no [schedulePattern], the optimiser is not
    consulted: once the dispatcher has returned, the pipeline returns a
    result without a schedule and with [aiScheduled] false, whatever the
    optimiser would have answered. *)
Theorem without_schedule_pattern_nothing_is_scheduled
    (enhancer : list WeekSession.t -> EnhancementContext.t -> outcome (list WeekSession.t))
    (optimiser : TrainingPlan.t -> Preferences.t -> outcome (option Schedule))
    (document : Document.t) (trainingPlan : TrainingPlan.t) (text : string)
    (structureAnalysis : StructureAnalysis.t) (sessions : list WeekSession.t) :
  extractDocumentText document = Ok text ->
  analyzeDocumentStructure text document = Ok structureAnalysis ->
  StructureAnalysis.schedulePattern structureAnalysis = None ->
  extractSessionsWithStructureAwareness clock text structureAnalysis
    (extractAcademyInfo text trainingPlan (Some structureAnalysis)) = Ok sessions ->
  exists result,
    extractSessionsFromDocument clock Schedule extractDocumentText analyzeDocumentStructure
      enhancer optimiser handlePlatformError document trainingPlan = Ok result
    /\ ExtractionResult.optimizedSchedule result = None
    /\ ExtractionResult.aiScheduled result = false.
Proof.
  intros Htext Hanalysis Hpattern Hsessions.
  unfold extractSessionsFromDocument. rewrite Htext. simpl. rewrite Hanalysis. simpl.
  rewrite Hsessions. simpl.
  unfold extractSessionsWithStructureAwareness in Hsessions.
  destruct (readLevel structureAnalysis) as [level |]; [| discriminate]. simpl.
  unfold deriveSchedulePreferences. rewrite Hpattern. simpl.
  eexists. split; [reflexivity |]. split; reflexivity.
Qed.

(** X21.  The statistics of a result the enhancer has not replaced: the
    total duration is 90 minutes for each session counted, and the number
    of weeks and of sessions are those of the sessions of the result. *)
Theorem statistics_of_an_unenhanced_result
    (enhancer : list WeekSession.t -> EnhancementContext.t -> outcome (list WeekSession.t))
    (optimiser : TrainingPlan.t -> Preferences.t -> outcome (option Schedule))
    (document : Document.t) (trainingPlan : TrainingPlan.t)
    (result : ExtractionResult.t Schedule) :
  extractSessionsFromDocument clock Schedule extractDocumentText analyzeDocumentStructure
    enhancer optimiser handlePlatformError document trainingPlan = Ok result ->
  ExtractionResult.aiEnhanced result = false ->
  ExtractionStats.totalDuration (getExtractionStats result)
  = 90 * ExtractionStats.totalSessions (getExtractionStats result)
  /\ ExtractionStats.totalWeeks (getExtractionStats result)
     = Z.of_nat (List.length (ExtractionResult.sessions result))
  /\ ExtractionStats.totalSessions (getExtractionStats result)
     = Z.of_nat (List.length
                   (flat_map WeekSession.dailySessions (ExtractionResult.sessions result))).
Proof.
  unfold extractSessionsFromDocument.
  destruct (extractDocumentText document) as [text |]; simpl; [| discriminate].
  destruct (analyzeDocumentStructure text document) as [structureAnalysis |]; simpl;
    [| discriminate].
  destruct (extractSessionsWithStructureAwareness clock text structureAnalysis _)
    as [sessions |] eqn:Hsessions; simpl; [| discriminate].
  destruct (readLevel structureAnalysis) as [level |]; simpl; [| discriminate].
  intros Hresult. injection Hresult as <-. simpl.
  destruct (enhancer sessions _) as [enhanced |]; [discriminate |]. intros _.
  apply dispatcher_weeks_regular in Hsessions.
  split; [| split; [reflexivity |]].
  - apply (regular_weeks_total clock). exact Hsessions.
  - apply countSessions_flat.
Qed.

End PipelineFailures.

Lemma enhancer_and_optimiser_failures_never_reach_the_caller_witness :
  extractSessionsFromDocument noonUTC unit readEmptyText failingAnalyser failingEnhancer
    noSchedule labelError sampleDocument samplePlan
  = Throw (External "Enhanced Session Extraction: structure analysis failed")
  /\ extractSessionsFromDocument noonUTC unit readEmptyText failingAnalyser returningEnhancer
       alwaysSchedules labelError sampleDocument samplePlan
     = Throw (External "Enhanced Session Extraction: structure analysis failed").
Proof.
  split; [reflexivity |].
  apply (enhancer_and_optimiser_failures_never_reach_the_caller noonUTC unit readEmptyText
           failingAnalyser labelError failingEnhancer returningEnhancer noSchedule
           alwaysSchedules sampleDocument samplePlan).
  reflexivity.
Defined.

Lemma without_schedule_pattern_nothing_is_scheduled_witness :
  StructureAnalysis.schedulePattern unstructuredAnalysis = None
  /\ exists result,
       extractSessionsFromDocument noonUTC unit readEmptyText
         (analyserReturning unstructuredAnalysis) failingEnhancer alwaysSchedules
         labelError sampleDocument samplePlan = Ok result
       /\ ExtractionResult.optimizedSchedule result = None
       /\ ExtractionResult.aiScheduled result = false.
Proof.
  split; [reflexivity |].
  apply (without_schedule_pattern_nothing_is_scheduled noonUTC unit readEmptyText
           (analyserReturning unstructuredAnalysis) labelError failingEnhancer
           alwaysSchedules sampleDocument samplePlan "" unstructuredAnalysis
           (extractFromUnstructuredDocument noonUTC "" unstructuredAnalysis
              (extractAcademyInfo "" samplePlan (Some unstructuredAnalysis))));
    reflexivity.
Defined.

Lemma statistics_of_an_unenhanced_result_witness :
  exists result,
    extractSessionsFromDocument noonUTC unit readEmptyText
      (analyserReturning unstructuredAnalysis) failingEnhancer noSchedule
      labelError sampleDocument samplePlan = Ok result
    /\ ExtractionResult.aiEnhanced result = false
    /\ ExtractionStats.totalDuration (getExtractionStats result)
       = 90 * ExtractionStats.totalSessions (getExtractionStats result).
Proof.
  eexists. split; [reflexivity |]. split; [reflexivity |].
  apply (statistics_of_an_unenhanced_result noonUTC unit readEmptyText
           (analyserReturning unstructuredAnalysis) labelError failingEnhancer noSchedule
           sampleDocument samplePlan); reflexivity.
Defined.

Lemma readLevel_of_level (structureAnalysis : StructureAnalysis.t) (level : option string) :
  levelOf structureAnalysis = Some level -> readLevel structureAnalysis = Ok level.
Proof.
  unfold levelOf, readLevel.
  destruct (StructureAnalysis.organizationLevel structureAnalysis); simpl; congruence.
Qed.

(** X22.  A document classified as highly structured gives an empty
    extraction: when the pipeline returns for it and the enhancer has
    raised, the result has no week and no session, and its statistics have
    a total duration of 0 and no average number of sessions per week (the
    division of 0 by 0). *)
Theorem highly_structured_result_is_empty (clock : Clock) (Schedule : Type)
    (extractDocumentText : Document.t -> outcome string)
    (analyzeDocumentStructure : string -> Document.t -> outcome StructureAnalysis.t)
    (enhancer : list WeekSession.t -> EnhancementContext.t -> outcome (list WeekSession.t))
    (optimiser : TrainingPlan.t -> Preferences.t -> outcome (option Schedule))
    (handlePlatformError : error -> string -> error)
    (document : Document.t) (trainingPlan : TrainingPlan.t) (text : string)
    (structureAnalysis : StructureAnalysis.t) (result : ExtractionResult.t Schedule) :
  extractDocumentText document = Ok text ->
  analyzeDocumentStructure text document = Ok structureAnalysis ->
  levelOf structureAnalysis = Some (Some "highly_structured") ->
  extractSessionsFromDocument clock Schedule extractDocumentText analyzeDocumentStructure
    enhancer optimiser handlePlatformError document trainingPlan = Ok result ->
  ExtractionResult.aiEnhanced result = false ->
  ExtractionResult.sessions result = []
  /\ ExtractionResult.totalWeeks result = 0
  /\ ExtractionResult.totalSessions result = 0
  /\ ExtractionStats.totalDuration (getExtractionStats result) = 0
  /\ ExtractionStats.averageSessionsPerWeek (getExtractionStats result) = None.
Proof.
  intros Htext Hanalysis Hlevel.
  unfold extractSessionsFromDocument. rewrite Htext. simpl. rewrite Hanalysis. simpl.
  destruct (extractSessionsWithStructureAwareness clock text structureAnalysis _)
    as [sessions |] eqn:Hsessions; simpl; [| discriminate].
  unfold extractSessionsWithStructureAwareness in Hsessions.
  rewrite (readLevel_of_level _ _ Hlevel) in *. simpl in Hsessions.
  apply highly_structured_returns in Hsessions. destruct Hsessions as [-> _].
  simpl. intros Hresult. injection Hresult as <-. simpl.
  destruct (enhancer [] _) as [enhanced |]; [discriminate |]. intros _.
  repeat split; reflexivity.
Qed.

Lemma highly_structured_result_is_empty_witness :
  levelOf highlyStructuredWithoutTitles = Some (Some "highly_structured")
  /\ exists result,
       extractSessionsFromDocument noonUTC unit readEmptyText
         (analyserReturning highlyStructuredWithoutTitles) failingEnhancer noSchedule
         labelError sampleDocument samplePlan = Ok result
       /\ ExtractionResult.sessions result = []
       /\ ExtractionStats.averageSessionsPerWeek (getExtractionStats result) = None.
Proof.
  split; [reflexivity |].
  eexists. split; [reflexivity |].
  pose proof (highly_structured_result_is_empty noonUTC unit readEmptyText
                (analyserReturning highlyStructuredWithoutTitles) failingEnhancer noSchedule
                labelError sampleDocument samplePlan "" highlyStructuredWithoutTitles _
                eq_refl eq_refl eq_refl eq_refl eq_refl) as [Hsessions [_ [_ [_ Haverage]]]].
  split; [exact Hsessions | exact Haverage].
Defined.

(** ** Scheduling information *)

Lemma existsb_eqb_false (x : string) (seen : list string) :
  existsb (String.eqb x) seen = false -> ~ In x seen.
Proof.
  intros Hnone Hin.
  assert (existsb (String.eqb x) seen = true) as Hsome.
  { apply existsb_exists. exists x. split; [exact Hin | apply String.eqb_refl]. }
  congruence.
Qed.

Lemma uniqueFrom_sound (xs : list string) :
  forall seen,
    NoDup (uniqueFrom seen xs)
    /\ forall x, In x (uniqueFrom seen xs) -> In x xs /\ ~ In x seen.
Proof.
  induction xs as [| y rest IH]; intros seen; simpl.
  - split; [constructor | intros x []].
  - destruct (existsb (String.eqb y) seen) eqn:Hseen.
    + destruct (IH seen) as [Hnodup Hin]. split; [exact Hnodup |].
      intros x Hx. destruct (Hin x Hx). auto.
    + destruct (IH (y :: seen)) as [Hnodup Hin]. split.
      * constructor; [| exact Hnodup].
        intros Hy. destruct (Hin y Hy) as [_ Hnot]. apply Hnot. left. reflexivity.
      * intros x [<- | Hx].
        -- split; [left; reflexivity | apply existsb_eqb_false, Hseen].
        -- destruct (Hin x Hx) as [Hrest Hnot]. split; [right; exact Hrest |].
           intros Hold. apply Hnot. right. exact Hold.
Qed.

Lemma uniqueFrom_complete (xs : list string) :
  forall seen x, In x xs -> In x seen \/ In x (uniqueFrom seen xs).
Proof.
  induction xs as [| y rest IH]; intros seen x; simpl; [intros [] |].
  intros [-> | Hx].
  - destruct (existsb (String.eqb x) seen) eqn:Hseen.
    + left. apply existsb_exists in Hseen. destruct Hseen as [z [Hz Heq]].
      apply String.eqb_eq in Heq. subst z. exact Hz.
    + right. left. reflexivity.
  - destruct (existsb (String.eqb y) seen).
    + apply IH, Hx.
    + destruct (IH (y :: seen) x Hx) as [[-> | Hold] | Hnew].
      * right. left. reflexivity.
      * left. exact Hold.
      * right. right. exact Hnew.
Qed.

(** X23.  The days of [extractSchedulingInfo] are the weekdays named in
    the text, whatever their case, each once and in lower case: no day is
    listed twice, every day listed is one of the seven weekday names, so
    at most seven are listed, and every weekday the text names is listed. *)
Theorem extractSchedulingInfo_lists_each_named_weekday_once (text : string) :
  NoDup (SchedulingInfo.days (extractSchedulingInfo text))
  /\ incl (SchedulingInfo.days (extractSchedulingInfo text)) weekdayNames
  /\ (List.length (SchedulingInfo.days (extractSchedulingInfo text)) <= 7)%nat
  /\ forall hit,
       In hit (execAll weekdayPattern text) ->
       In (toLowerCase (matched text hit)) (SchedulingInfo.days (extractSchedulingInfo text)).
Proof.
  unfold extractSchedulingInfo. cbn [SchedulingInfo.days]. unfold unique.
  destruct (uniqueFrom_sound
              (map (fun hit => toLowerCase (matched text hit)) (execAll weekdayPattern text))
              []) as [Hnodup Hin].
  assert (incl (uniqueFrom []
                  (map (fun hit => toLowerCase (matched text hit))
                       (execAll weekdayPattern text))) weekdayNames) as Hincl.
  { intros day Hday. destruct (Hin day Hday) as [Hnamed _].
    apply in_map_iff in Hnamed. destruct Hnamed as [hit [<- Hhit]].
    apply weekday_hits_are_names, Hhit. }
  split; [exact Hnodup |]. split; [exact Hincl |]. split.
  - apply (NoDup_incl_length Hnodup Hincl).
  - intros hit Hhit.
    destruct (uniqueFrom_complete
                (map (fun h => toLowerCase (matched text h)) (execAll weekdayPattern text))
                [] (toLowerCase (matched text hit))) as [[] | Hlisted]; [| exact Hlisted].
    apply in_map_iff. exists hit. split; [reflexivity | exact Hhit].
Qed.

(** ** Schedule preferences *)

(** X24.  A recommended frequency overrides the days the analysis has
    identified: when the analysis has a [schedulePattern] with a frequency
    other than 0, [deriveSchedulePreferences] returns, the number of
    available days is the frequency brought into the range from 2 to 4,
    all of them are weekday names, and the session duration is not 0. *)
Theorem deriveSchedulePreferences_follows_the_frequency
    (structureAnalysis : StructureAnalysis.t)
    (schedulePattern : StructureAnalysis.SchedulePattern) :
  StructureAnalysis.schedulePattern structureAnalysis = Some schedulePattern ->
  StructureAnalysis.recommendedFrequency schedulePattern <> 0 ->
  exists preferences,
    deriveSchedulePreferences structureAnalysis = Ok preferences
    /\ Z.of_nat (List.length (Preferences.availableDays preferences))
       = Z.max 2 (Z.min 4 (StructureAnalysis.recommendedFrequency schedulePattern))
    /\ incl (Preferences.availableDays preferences) weekdayNames
    /\ Preferences.sessionDuration preferences <> 0.
Proof.
  intros Hpattern Hfrequency. unfold deriveSchedulePreferences. rewrite Hpattern.
  eexists. split; [reflexivity |]. cbn [Preferences.availableDays Preferences.sessionDuration].
  destruct (Z.eqb_spec (StructureAnalysis.recommendedFrequency schedulePattern) 0)
    as [Hzero | _]; [contradiction |].
  split; [| split].
  - destruct (Z.leb_spec (StructureAnalysis.recommendedFrequency schedulePattern) 2).
    + simpl List.length. lia.
    + destruct (Z.eqb_spec (StructureAnalysis.recommendedFrequency schedulePattern) 3).
      * simpl List.length. lia.
      * simpl List.length. lia.
  - destruct (Z.leb (StructureAnalysis.recommendedFrequency schedulePattern) 2);
      [| destruct (Z.eqb (StructureAnalysis.recommendedFrequency schedulePattern) 3)];
      intros day Hday; simpl in Hday; simpl; intuition.
  - unfold orZ.
    destruct (Z.eqb_spec
                (StructureAnalysis.averageDuration
                   (StructureAnalysis.durationAnalysis structureAnalysis)) 0);
      [discriminate | assumption].
Qed.

Lemma deriveSchedulePreferences_follows_the_frequency_witness :
  exists preferences,
    deriveSchedulePreferences (analysisWithFrequency 5 ["saturday"]) = Ok preferences
    /\ Z.of_nat (List.length (Preferences.availableDays preferences)) = 4.
Proof.
  destruct (deriveSchedulePreferences_follows_the_frequency
              (analysisWithFrequency 5 ["saturday"])
              {| StructureAnalysis.recommendedFrequency := 5 |} eq_refl ltac:(discriminate))
    as [preferences [Hreturns [Hdays _]]].
  exists preferences. split; [exact Hreturns | exact Hdays].
Defined.

(** ** The sections of a highly structured document *)

Lemma drop_drop (n m : nat) (s : string) : drop m (drop n s) = drop (n + m) s.
Proof.
  revert s. induction n as [| n IH]; intros s; simpl; [reflexivity |].
  destruct s as [| c r]; [destruct m; reflexivity | apply IH].
Qed.

Lemma clamp_range (n x : Z) : 0 <= n -> 0 <= clamp n x <= n.
Proof. unfold clamp. lia. Qed.

Lemma clamp_monotone (n x y : Z) : x <= y -> clamp n x <= clamp n y.
Proof. unfold clamp. lia. Qed.

Lemma len_nonneg (s : string) : 0 <= len s.
Proof. unfold len. lia. Qed.

Lemma substring_join (s : string) (a b : Z) :
  a <= b ->
  substring s a b ++ substring s b (len s) = substring s a (len s).
Proof.
  intros Hab. unfold substring.
  pose proof (len_nonneg s) as Hlen.
  pose proof (clamp_range (len s) a Hlen) as Ha.
  pose proof (clamp_range (len s) b Hlen) as Hb.
  pose proof (clamp_monotone (len s) a b Hab) as Hmono.
  assert (clamp (len s) (len s) = len s) as -> by (unfold clamp; lia).
  rewrite !Z.min_l, !Z.max_r by lia.
  replace (Z.to_nat (len s - clamp (len s) a))
    with (Z.to_nat (clamp (len s) b - clamp (len s) a)
          + Z.to_nat (len s - clamp (len s) b))%nat by lia.
  rewrite take_plus, drop_drop.
  replace (Z.to_nat (clamp (len s) a) + Z.to_nat (clamp (len s) b - clamp (len s) a))%nat
    with (Z.to_nat (clamp (len s) b)) by lia.
  reflexivity.
Qed.

Lemma sections_tile (text : string) (weekTitles : list WeekTitle.t) :
  StronglySorted (keyOrder WeekTitle.position) weekTitles ->
  join "" (map WeekSection.content (sectionsFrom text weekTitles))
  = match weekTitles with
    | [] => ""
    | first :: _ => substring text (WeekTitle.position first) (len text)
    end.
Proof.
  induction 1 as [| t rest Hsorted IH Hall]; [reflexivity |].
  destruct rest as [| next others]; [reflexivity |].
  change (sectionsFrom text (t :: next :: others))
    with ({| WeekSection.weekNumber := WeekTitle.number t;
             WeekSection.title := WeekTitle.title t;
             WeekSection.content :=
               substring text (WeekTitle.position t) (WeekTitle.position next);
             WeekSection.startPosition := WeekTitle.position t;
             WeekSection.endPosition := WeekTitle.position next |}
          :: sectionsFrom text (next :: others)).
  change (sectionsFrom text (next :: others))
    with ({| WeekSection.weekNumber := WeekTitle.number next;
             WeekSection.title := WeekTitle.title next;
             WeekSection.content :=
               substring text (WeekTitle.position next)
                 match others with
                 | after :: _ => WeekTitle.position after
                 | [] => len text
                 end;
             WeekSection.startPosition := WeekTitle.position next;
             WeekSection.endPosition :=
               match others with
               | after :: _ => WeekTitle.position after
               | [] => len text
               end |}
          :: sectionsFrom text others) in *.
  cbn [map join WeekSection.content] in *.
  rewrite IH. cbn [append].
  apply substring_join.
  inversion Hall as [| ? ? Hnext _]. exact Hnext.
Qed.

(** X25.  The sections of [splitTextByWeeks] tile the text: there is one
    section for each week title, and their contents, in the order
    returned, make up the text from the first title position to the end,
    with nothing lost and nothing repeated, wherever the positions are. *)
Theorem splitTextByWeeks_tiles_the_text (text : string)
    (weekStructure : StructureAnalysis.WeekStructure) :
  List.length (splitTextByWeeks text weekStructure)
  = List.length (StructureAnalysis.weekTitles weekStructure)
  /\ join "" (map WeekSection.content (splitTextByWeeks text weekStructure))
     = match splitTextByWeeks text weekStructure with
       | [] => ""
       | first :: _ => substring text (WeekSection.startPosition first) (len text)
       end.
Proof.
  unfold splitTextByWeeks. split.
  - rewrite <- (sortByKey_length WeekTitle.position
                  (StructureAnalysis.weekTitles weekStructure)).
    generalize (sortByKey WeekTitle.position (StructureAnalysis.weekTitles weekStructure)).
    intros weekTitles. induction weekTitles as [| t rest IH]; [reflexivity |].
    simpl. rewrite IH. reflexivity.
  - rewrite sections_tile by apply sortByKey_sorted.
    destruct (sortByKey WeekTitle.position (StructureAnalysis.weekTitles weekStructure));
      reflexivity.
Qed.

(** ** The line-based extraction: more *)

Lemma weekSessionOf_counts (clock : Clock) (academyInfo : AcademyInfo.t)
    (week : ParsedWeek.t) (weekIndex : Z) :
  exists session,
    weekSessionOf clock academyInfo week weekIndex = Ok session
    /\ WeekSession.weekNumber session = weekIndex + 1
    /\ List.length (WeekSession.dailySessions session)
       = Nat.max 1 (List.length (ParsedWeek.days week)).
Proof.
  unfold weekSessionOf. simpl.
  destruct (mapMi_total (fun session => 1 <= DailySession.duration session)
              (fun day dayIndex =>
                 createDailySession clock day weekIndex dayIndex academyInfo week)
              0 (ParsedWeek.days week)
              (fun day k => createDailySession_returns clock day weekIndex k academyInfo week))
    as [fromDays [Hdays [_ Hlen]]].
  rewrite Hdays. simpl.
  destruct fromDays as [| first others].
  - eexists. split; [reflexivity |]. split; [reflexivity |].
    simpl in Hlen. rewrite <- Hlen. reflexivity.
  - eexists. split; [reflexivity |]. split; [reflexivity |].
    cbn [WeekSession.dailySessions]. rewrite Hlen.
    simpl in Hlen. rewrite <- Hlen. reflexivity.
Qed.

Lemma week_sessions_of_parsed_weeks (clock : Clock) (academyInfo : AcademyInfo.t)
    (weeks : list ParsedWeek.t) :
  forall i,
    exists sessions,
      mapMi (weekSessionOf clock academyInfo) i weeks = Ok sessions
      /\ weekNumbers sessions
         = map (fun k => i + Z.of_nat k + 1) (seq 0 (List.length weeks))
      /\ Forall2 (fun week session =>
                    List.length (WeekSession.dailySessions session)
                    = Nat.max 1 (List.length (ParsedWeek.days week)))
                 weeks sessions.
Proof.
  induction weeks as [| week rest IH]; intros i.
  - exists []. split; [reflexivity |]. split; [reflexivity | constructor].
  - destruct (weekSessionOf_counts clock academyInfo week i)
      as [session [Hsession [Hnumber Hcount]]].
    destruct (IH (i + 1)) as [sessions [Hsessions [Hnumbers Hcounts]]].
    exists (session :: sessions). split; [| split].
    + cbn [mapMi]. rewrite Hsession. cbn [bind]. rewrite Hsessions. reflexivity.
    + unfold weekNumbers in *. cbn [map List.length seq]. rewrite Hnumber, Hnumbers.
      rewrite <- seq_shift, map_map. f_equal; [lia |].
      apply map_ext. intros k. lia.
    + constructor; assumption.
Qed.

Lemma line_based_sessions (clock : Clock) (text : string) (structure : ParsedStructure.t)
    (academyInfo : AcademyInfo.t) :
  (Z.ltb (Z.of_nat (List.length (ParsedStructure.weeks structure))) 8
   && includes text "Week" && includes text "12")%bool = false ->
  exists sessions,
    extractWeeklySessions clock text structure academyInfo = Ok sessions
    /\ weekNumbers sessions
       = map (fun k => Z.of_nat k + 1) (seq 0 (List.length (ParsedStructure.weeks structure)))
    /\ Forall2 (fun week session =>
                  List.length (WeekSession.dailySessions session)
                  = Nat.max 1 (List.length (ParsedWeek.days week)))
               (ParsedStructure.weeks structure) sessions.
Proof.
  intros Hcondition. unfold extractWeeklySessions.
  destruct (week_sessions_of_parsed_weeks clock academyInfo
              (ParsedStructure.weeks structure) 0) as [sessions [Hsessions [Hnumbers Hcounts]]].
  rewrite Hsessions. cbn [bind].
  rewrite <- (Forall2_length Hcounts), Hcondition.
  exists sessions. split; [reflexivity |]. split; [| exact Hcounts].
  rewrite Hnumbers. apply map_ext. intros k. lia.
Qed.

(** X26.  Unless the alternative extraction is tried (fewer than eight
    parsed weeks in a text that contains both [Week] and [12]),
    [extractWeeklySessions] returns one week for each parsed week, numbered
    1, 2, ... by position, with one daily session for each day of the
    parsed week, and one general session for a parsed week without a
    day. *)
Theorem extractWeeklySessions_follows_the_parsed_structure (clock : Clock)
    (text : string) (structure : ParsedStructure.t) (academyInfo : AcademyInfo.t) :
  (Z.ltb (Z.of_nat (List.length (ParsedStructure.weeks structure))) 8
   && includes text "Week" && includes text "12")%bool = false ->
  exists sessions,
    extractWeeklySessions clock text structure academyInfo = Ok sessions
    /\ weekNumbers sessions
       = map (fun k => Z.of_nat k + 1) (seq 0 (List.length (ParsedStructure.weeks structure)))
    /\ Forall2 (fun week session =>
                  List.length (WeekSession.dailySessions session)
                  = Nat.max 1 (List.length (ParsedWeek.days week)))
               (ParsedStructure.weeks structure) sessions.
Proof. apply line_based_sessions. Qed.

Lemma extractWeeklySessions_follows_the_parsed_structure_witness :
  exists sessions,
    extractWeeklySessions noonUTC twoWeekText (parseDocumentStructure twoWeekText)
      sampleAcademy = Ok sessions
    /\ weekNumbers sessions = [1; 2].
Proof.
  destruct (extractWeeklySessions_follows_the_parsed_structure noonUTC twoWeekText
              (parseDocumentStructure twoWeekText) sampleAcademy eq_refl)
    as [sessions [Hreturns [Hnumbers _]]].
  exists sessions. split; [exact Hreturns | exact Hnumbers].
Defined.

(** X27.  The parser and the line-based extraction together, on a text
    that does not contain both [Week] and [12]: the extraction returns as
    many weeks as the text has lines taken for headers of a week, numbered
    from 1 in the order of the text. *)
Theorem line_based_extraction_returns_a_week_for_each_header (clock : Clock)
    (text : string) (academyInfo : AcademyInfo.t) :
  (includes text "Week" && includes text "12")%bool = false ->
  exists sessions,
    extractWeeklySessions clock text (parseDocumentStructure text) academyInfo = Ok sessions
    /\ weekNumbers sessions
       = map (fun k => Z.of_nat k + 1)
             (seq 0 (List.length (headerLines (contentLines text)))).
Proof.
  intros Hcondition.
  destruct (line_based_sessions clock text (parseDocumentStructure text) academyInfo)
    as [sessions [Hreturns [Hnumbers _]]].
  { rewrite <- andb_assoc, Hcondition. apply andb_false_r. }
  exists sessions. split; [exact Hreturns |].
  rewrite Hnumbers. f_equal. f_equal.
  rewrite <- (length_map ParsedWeek.title). f_equal.
  unfold parseDocumentStructure. cbn [ParsedStructure.weeks].
  apply (parseLines_outside_a_week (contentLines text) 0 emptyParserState
           emptyParserState_wellFormed eq_refl).
Qed.

Lemma line_based_extraction_returns_a_week_for_each_header_witness :
  exists sessions,
    extractWeeklySessions noonUTC twoWeekText (parseDocumentStructure twoWeekText)
      sampleAcademy = Ok sessions
    /\ weekNumbers sessions
       = map (fun k => Z.of_nat k + 1)
             (seq 0 (List.length (headerLines (contentLines twoWeekText)))).
Proof.
  apply (line_based_extraction_returns_a_week_for_each_header noonUTC twoWeekText
           sampleAcademy).
  reflexivity.
Defined.
